(** * Verification of the live dashboard server (monitor/dashboard_server.py)

    A shallow embedding of run discovery, the event cache and the two JSON
    handlers, followed by the properties stated for them.

    Conventions of the embedding:
    - Python exceptions are values of [Py.exn]; a computation that may raise
      returns a [Py.result].
    - Python floats that the program only stores, copies and compares
      (modification times, wall times, sample values) are carried as
      rationals, which contain every finite float and order them the same way.
    - The only mutable shared state is the object store holding the
      accumulators and the cache dictionary that refers to them; it is threaded
      explicitly. *)

From Stdlib Require Import ZArith QArith List String Ascii Lia.
From Stdlib Require Import Sorting.Sorted Structures.OrdersEx.
From stdpp Require Import base option list sorting gmap strings.

Close Scope Q_scope.
Open Scope string_scope.
Open Scope list_scope.
Set Warnings "-register-all,-clear-no-such-hyp".

(** ** The fragment of Python the program relies on *)

Module Py.

(** The exceptions that occur. [DanglingReference] is not a Python
    exception: it is the answer of the embedding when a reference is not in
    the object store, which Python rules out and which a well-formed store
    never produces. *)
Inductive exn :=
| ValueError
| IndexError
| KeyError (key : string)
| RuntimeError (msg : string)
| NotADirectoryError
| DanglingReference.

Inductive result (A : Type) :=
| Ok (a : A)
| Raise (e : exn).
Arguments Ok {A} a.
Arguments Raise {A} e.

(** Sequencing: an exception ends the computation. *)
Definition bind {A B} (m : result A) (k : A → result B) : result B :=
  match m with
  | Ok a => k a
  | Raise e => Raise e
  end.

(** [try: m  except ValueError: h] *)
Definition except_ValueError {A} (m : result A) (h : result A) : result A :=
  match m with
  | Raise ValueError => h
  | _ => m
  end.

(** What [limit_raw] may hold in [handle_metrics]: the integer default or a
    string taken from the query. *)
Inductive value :=
| VInt (n : Z)
| VStr (s : string).

(** Truthiness of an [Optional[str]], as tested by [not run_id]. *)
Definition truthy (v : option string) : bool :=
  match v with
  | None => false
  | Some s => negb (String.eqb s "")
  end.

(** [l[0]] *)
Definition item0 {A} (l : list A) : result A :=
  match l with
  | x :: _ => Ok x
  | [] => Raise IndexError
  end.

(** [l[i:]] for a possibly negative [i]. *)
Definition slice_from {A} (i : Z) (l : list A) : list A :=
  let len := Z.of_nat (length l) in
  let start := if (i <? 0)%Z then Z.max (len + i) 0 else Z.min i len in
  drop (Z.to_nat start) l.

(** Floats are only compared: [a < b]. *)
Definition flt (a b : Q) : bool := negb (Qle_bool b a).

(** [max(a, b)]: the first argument unless the second is greater. *)
Definition max2 (a b : Q) : Q := if flt a b then b else a.

(** [max(best :: l, key=key)]: the first element whose key no later one
    exceeds. *)
Fixpoint max_from {A} (key : A → Q) (best : A) (l : list A) : A :=
  match l with
  | [] => best
  | x :: l' => max_from key (if flt (key best) (key x) then x else best) l'
  end.

(** Insertion behind every element that is not greater, so that equal
    elements keep their order. *)
Fixpoint insert {A} (lt : A → A → bool) (x : A) (l : list A) : list A :=
  match l with
  | [] => [x]
  | y :: l' => if lt x y then x :: l else y :: insert lt x l'
  end.

(** [sorted(l)]: a stable sort that compares with [<] only. *)
Definition sorted {A} (lt : A → A → bool) (l : list A) : list A :=
  fold_left (λ acc x, insert lt x acc) l [].

(** [for x in xs: body], the body updating an accumulator. *)
Definition for_ {A S} (xs : list A) (body : A → S → S) (s : S) : S :=
  fold_left (λ s x, body x s) xs s.

(** A [dict] with string keys, in insertion order. *)
Definition dict (V : Type) := list (string * V).

Fixpoint dict_get {V} (d : dict V) (k : string) : option V :=
  match d with
  | [] => None
  | (k', v) :: d' => if String.eqb k' k then Some v else dict_get d' k
  end.

(** [d[k] = v]: replaces the value of an existing key in place, appends a
    new key at the end. *)
Fixpoint dict_set {V} (d : dict V) (k : string) (v : V) : dict V :=
  match d with
  | [] => [(k, v)]
  | (k', v') :: d' =>
      if String.eqb k' k then (k', v) :: d' else (k', v') :: dict_set d' k v
  end.

(** In-place update of the object stored at [d[k]]. *)
Fixpoint dict_alter {V} (f : V → V) (d : dict V) (k : string) : dict V :=
  match d with
  | [] => []
  | (k', v) :: d' =>
      if String.eqb k' k then (k', f v) :: d' else (k', v) :: dict_alter f d' k
  end.

Definition dict_contains {V} (d : dict V) (k : string) : bool :=
  match dict_get d k with Some _ => true | None => false end.

Definition dict_keys {V} (d : dict V) : list string := map fst d.
Definition dict_values {V} (d : dict V) : list V := map snd d.

(** *** [int(x)] *)

(** The blanks that [int] skips around the number in an ASCII string: tab,
    line feed, vertical tab, form feed, carriage return and the space. The
    separators 0x1C to 0x1F are not among them. *)
Definition is_space (c : ascii) : bool :=
  let n := nat_of_ascii c in
  (((9 <=? n) && (n <=? 13)) || (n =? 32))%nat.

Definition is_digit (c : ascii) : bool :=
  let n := nat_of_ascii c in ((48 <=? n) && (n <=? 57))%nat.

Definition digit_value (c : ascii) : Z := Z.of_nat (nat_of_ascii c - 48).

Fixpoint lstrip (cs : list ascii) : list ascii :=
  match cs with
  | c :: cs' => if is_space c then lstrip cs' else cs
  | [] => []
  end.

Definition strip (cs : list ascii) : list ascii :=
  rev (lstrip (rev (lstrip cs))).

(** Decimal digits, where a single underscore may separate two digits.
    Returns the number read and how many digits it had. *)
Fixpoint digits (after_digit : bool) (acc : Z) (count : nat)
    (cs : list ascii) : option (Z * nat) :=
  match cs with
  | [] => if after_digit then Some (acc, count) else None
  | c :: cs' =>
      if is_digit c then digits true (10 * acc + digit_value c) (S count) cs'
      else if Ascii.eqb c "_"
      then if after_digit then digits false acc count cs' else None
      else None
  end.

(** CPython refuses to convert a string of more than this many digits
    (sys.int_info.default_max_str_digits), with a ValueError. *)
Definition int_max_str_digits : nat := 4300.

(** [int(s)] for a string, in base ten: white space around, an optional
    sign, then the digits. Strings are taken as ASCII here; the Unicode decimal
    digits and spaces that CPython accepts in addition are not represented. *)
Definition int_of_str (s : string) : result Z :=
  let cs := strip (list_ascii_of_string s) in
  let '(negative, body) :=
    match cs with
    | "-"%char :: r => (true, r)
    | "+"%char :: r => (false, r)
    | _ => (false, cs)
    end in
  match digits false 0 0 body with
  | Some (n, count) =>
      if (int_max_str_digits <? count)%nat then Raise ValueError
      else Ok (if negative then (- n)%Z else n)
  | None => Raise ValueError
  end.

(** [int(v)] *)
Definition int_ (v : value) : result Z :=
  match v with
  | VInt n => Ok n
  | VStr s => int_of_str s
  end.

End Py.

(** ** JSON payloads, as handed to [json.dumps] *)

Inductive json :=
| JNull
| JInt (n : Z)
| JFloat (x : Q)
| JStr (s : string)
| JArr (items : list json)
| JObj (fields : Py.dict json).

(** ** The file system below the results directory *)

(** Modelled from the spec: the content of an event file, which only the
    tensorboard parser reads. The spec describes it as an append-only
    structured log recording scalar metric samples; one record is one sample
    of one named series. *)
Record EventRecord := {
  rec_tag : string;
  rec_step : Z;
  rec_value : Q;
  rec_wall_time : Q;
}.

(** A directory lists its entries in the order the operating system
    returns them. Every node carries its modification time. *)
Inductive node :=
| File (mtime : Q) (content : list EventRecord)
| Dir (mtime : Q) (entries : list (string * node)).

(** A resolved [pathlib.Path]: its components below the root. *)
Definition Path := list string.

Module Pathlib.

Fixpoint find_entry (name : string) (entries : list (string * node))
    : option node :=
  match entries with
  | [] => None
  | (n, c) :: rest => if String.eqb n name then Some c else find_entry name rest
  end.

(** The node a path denotes, if any. *)
Fixpoint resolve (fs : node) (p : Path) : option node :=
  match p with
  | [] => Some fs
  | name :: p' =>
      match fs with
      | Dir _ entries =>
          match find_entry name entries with
          | Some c => resolve c p'
          | None => None
          end
      | File _ _ => None
      end
  end.

(** [p / name] *)
Definition child (p : Path) (name : string) : Path := p ++ [name].

(** [p.name] *)
Definition name (p : Path) : string := List.last p "".

(** [str(p)] *)
Definition str (p : Path) : string := ("/" ++ String.concat "/" p)%string.

(** [p.exists()] *)
Definition exists_ (fs : node) (p : Path) : bool :=
  match resolve fs p with Some _ => true | None => false end.

(** [p.is_dir()] *)
Definition is_dir (fs : node) (p : Path) : bool :=
  match resolve fs p with Some (Dir _ _) => true | _ => false end.

(** [p.is_file()] *)
Definition is_file (fs : node) (p : Path) : bool :=
  match resolve fs p with Some (File _ _) => true | _ => false end.

(** The names listed in a directory; empty for anything else. *)
Definition listdir (fs : node) (p : Path) : list string :=
  match resolve fs p with
  | Some (Dir _ entries) => map fst entries
  | _ => []
  end.

(** [p.iterdir()], which fails on a path that is not a directory. *)
Definition iterdir (fs : node) (p : Path) : Py.result (list Path) :=
  match resolve fs p with
  | Some (Dir _ entries) => Py.Ok (map (λ e, child p (fst e)) entries)
  | _ => Py.Raise Py.NotADirectoryError
  end.

(** [p.glob(prefix + "*")]: the entries of [p], files and directories
    alike, whose name starts with [prefix], in listing order. *)
Definition glob (fs : node) (p : Path) (prefix : string) : list Path :=
  map (child p) (filter (λ n, String.prefix prefix n = true) (listdir fs p)).

(** [p.stat().st_mtime]. Paths obtained from a listing of the same
    snapshot always resolve; the default is never used for them. *)
Definition st_mtime (fs : node) (p : Path) : Q :=
  match resolve fs p with
  | Some (File m _) => m
  | Some (Dir m _) => m
  | None => 0%Q
  end.

(** Path comparison: component by component, each component as a string.
    Python compares strings by code point, which for UTF-8 text is the order
    of the bytes. *)
Fixpoint ltb (p q : Path) : bool :=
  match p, q with
  | [], [] => false
  | [], _ :: _ => true
  | _ :: _, [] => false
  | a :: p', b :: q' =>
      if String.ltb a b then true
      else if String.ltb b a then false
      else ltb p' q'
  end.

(** The records of the file at [p]. The parser is described for log files
    only: where [p] names a directory or nothing at all there are no records
    to hand over. That the real parser raises there is left out; see
    [is_file]. *)
Definition read_records (fs : node) (p : Path) : list EventRecord :=
  match resolve fs p with
  | Some (File _ content) => content
  | _ => []
  end.

End Pathlib.

(** ** Run discovery *)

Record BehaviorEventFile := {
  run_id : string;
  behavior : string;
  event_path : Path;
  updated_at : Q;
}.

(** The body of the inner loop of [discover_runs]. *)
Definition discover_behavior (fs : node) (run_dir behavior_dir : Path)
    (runs : list BehaviorEventFile) : list BehaviorEventFile :=
  if negb (Pathlib.is_dir fs behavior_dir) then runs
  else
    let event_files := Pathlib.glob fs behavior_dir "events.out.tfevents." in
    match event_files with
    | [] => runs
    | first :: others =>
        let latest := Py.max_from (Pathlib.st_mtime fs) first others in
        runs ++ [ {| run_id := Pathlib.name run_dir;
                     behavior := Pathlib.name behavior_dir;
                     event_path := latest;
                     updated_at := Pathlib.st_mtime fs latest |} ]
    end.

(** The body of the outer loop of [discover_runs]. Listing [run_dir] cannot
    fail once [is_dir] has answered yes. *)
Definition discover_run (fs : node) (run_dir : Path)
    (runs : list BehaviorEventFile) : list BehaviorEventFile :=
  if negb (Pathlib.is_dir fs run_dir) then runs
  else
    match Pathlib.iterdir fs run_dir with
    | Py.Ok behavior_dirs =>
        Py.for_ behavior_dirs (discover_behavior fs run_dir) runs
    | Py.Raise _ => runs
    end.

Definition discover_runs (fs : node) (results_dir : Path)
    : Py.result (list BehaviorEventFile) :=
  if negb (Pathlib.exists_ fs results_dir) then Py.Ok []
  else
    Py.bind (Pathlib.iterdir fs results_dir) (λ run_dirs,
      Py.Ok (Py.for_ (Py.sorted Pathlib.ltb run_dirs) (discover_run fs) [])).

(** ** The tensorboard event accumulator *)

(** The names the program reads from the [event_accumulator] module. The
    module is [None] when the import failed. *)
Record event_accumulator_module := {
  SCALARS : string;
  TENSORS : string;
  COMPRESSED_HISTOGRAMS : string;
  HISTOGRAMS : string;
  IMAGES : string;
  AUDIO : string;
}.

Definition _default_size_guidance (event_accumulator : option event_accumulator_module)
    : Py.dict Z :=
  match event_accumulator with
  | None => []
  | Some ea =>
      Py.for_
        [ (SCALARS ea, 0%Z); (TENSORS ea, 0%Z); (COMPRESSED_HISTOGRAMS ea, 1%Z);
          (HISTOGRAMS ea, 1%Z); (IMAGES ea, 1%Z); (AUDIO ea, 1%Z) ]
        (λ kv d, Py.dict_set d kv.1 kv.2) []
  end.

Record ScalarEvent := {
  wall_time : Q;
  step : Z;
  value : Q;
}.

(** Modelled from the spec: the parser, tensorboard's [EventAccumulator], is
    an external library. The spec describes it as parsing an append-only log
    file into, per named scalar series, an ordered sequence of samples, with
    a reload that incorporates the samples appended since the last reload
    without discarding what was read before. The accumulator therefore
    remembers how many records it has consumed and appends the rest on every
    reload. *)
Record EventAccumulator := {
  acc_path : Path;
  acc_size_guidance : Py.dict Z;
  acc_offset : nat;
  acc_scalars : Py.dict (list ScalarEvent);
}.

Module Accumulator.

(** Modelled from the spec: [EventAccumulator(path, size_guidance=...)]
    opens the parser on a file; nothing is read before the first reload. *)
Definition new (path : Path) (size_guidance : Py.dict Z) : EventAccumulator :=
  {| acc_path := path; acc_size_guidance := size_guidance;
     acc_offset := 0; acc_scalars := [] |}.

Definition add_record (scalars : Py.dict (list ScalarEvent)) (r : EventRecord)
    : Py.dict (list ScalarEvent) :=
  let ev := {| wall_time := rec_wall_time r; step := rec_step r;
               value := rec_value r |} in
  match Py.dict_get scalars (rec_tag r) with
  | None => Py.dict_set scalars (rec_tag r) [ev]
  | Some _ => Py.dict_alter (λ series, series ++ [ev]) scalars (rec_tag r)
  end.

(** Modelled from the spec: [acc.Reload()] reads the records that lie
    beyond the offset and appends each to the series of its tag, keeping
    everything read before. *)
Definition Reload (fs : node) (acc : EventAccumulator) : EventAccumulator :=
  let fresh := drop (acc_offset acc) (Pathlib.read_records fs (acc_path acc)) in
  {| acc_path := acc_path acc;
     acc_size_guidance := acc_size_guidance acc;
     acc_offset := acc_offset acc + length fresh;
     acc_scalars := fold_left add_record fresh (acc_scalars acc) |}.

(** Modelled from the spec: [acc.Tags()] lists, under ["scalars"], the
    tags of the scalar series present. *)
Definition Tags (acc : EventAccumulator) : Py.dict (list string) :=
  [("scalars", Py.dict_keys (acc_scalars acc))].

(** Modelled from the spec: [acc.Scalars(tag)] is the ordered sequence of
    samples of the series [tag]; an unknown tag is a KeyError. *)
Definition Scalars (acc : EventAccumulator) (tag : string)
    : Py.result (list ScalarEvent) :=
  match Py.dict_get (acc_scalars acc) tag with
  | Some series => Py.Ok series
  | None => Py.Raise (Py.KeyError tag)
  end.

End Accumulator.

(** ** The object store and the event cache *)

(** A reference to an accumulator object: its index in the store. *)
Abbreviation ref := nat (only parsing).

(** The accumulators that exist, by reference, and the dictionary
    [EventCache._cache]. The lock makes every [get] atomic, so the calls of
    all request threads form one sequence of state transformers. *)
Record state := {
  heap : list EventAccumulator;
  _cache : gmap Path ref;
}.

Definition EventCache_init : state := {| heap := []; _cache := ∅ |}.

Definition tensorboard_missing : string :=
  "tensorboard is not installed. Install it with `pip install tensorboard`.".

(** Computations that read and update the store and may raise. *)
Definition M (A : Type) := state → Py.result A * state.

Definition ret {A} (a : A) : M A := λ st, (Py.Ok a, st).
Definition raise {A} (e : Py.exn) : M A := λ st, (Py.Raise e, st).
Definition lift {A} (r : Py.result A) : M A := λ st, (r, st).
Definition mbind {A B} (m : M A) (k : A → M B) : M B :=
  λ st, match m st with
        | (Py.Ok a, st') => k a st'
        | (Py.Raise e, st') => (Py.Raise e, st')
        end.

Notation "'perform' x ':=' m 'in' k" := (mbind m (λ x, k))
  (at level 10, x name, m at level 100, k at level 200).

(** [try: m  except RuntimeError as exc: h exc] *)
Definition except_RuntimeError {A} (m : M A) (h : string → M A) : M A :=
  λ st, match m st with
        | (Py.Raise (Py.RuntimeError msg), st') => h msg st'
        | r => r
        end.

(** Reading the object behind a reference. *)
Definition deref (r : ref) : M EventAccumulator :=
  λ st, match heap st !! r with
        | Some acc => (Py.Ok acc, st)
        | None => (Py.Raise Py.DanglingReference, st)
        end.

(** [EventCache.get]. A new accumulator is stored only after its first
    reload has returned. The reload is the parser's and follows the spec's
    description of it on log files: it is meant for a path that names a file
    ([Pathlib.is_file]). What the parser does on a directory or on a path
    that names nothing, where it raises before anything is stored, is not
    part of this description. *)
Definition get (event_accumulator : option event_accumulator_module)
    (fs : node) (event_path : Path) : M ref :=
  λ st,
    match event_accumulator with
    | None => (Py.Raise (Py.RuntimeError tensorboard_missing), st)
    | Some _ =>
        match _cache st !! event_path with
        | None =>
            let acc := Accumulator.new event_path
                         (_default_size_guidance event_accumulator) in
            let r := length (heap st) in
            (Py.Ok r,
             {| heap := heap st ++ [Accumulator.Reload fs acc];
                _cache := <[event_path := r]> (_cache st) |})
        | Some r =>
            (Py.Ok r,
             {| heap := alter (Accumulator.Reload fs) r (heap st);
                _cache := _cache st |})
        end
    end.

(** ** The request handlers *)

Inductive HTTPStatus := OK | BAD_REQUEST | NOT_FOUND | INTERNAL_SERVER_ERROR.

Definition status_value (s : HTTPStatus) : Z :=
  match s with
  | OK => 200
  | BAD_REQUEST => 400
  | NOT_FOUND => 404
  | INTERNAL_SERVER_ERROR => 500
  end.

(** What [_write_json] sends: the status line and the JSON document. *)
Record response := {
  status : Z;
  payload : json;
}.

Definition _write_json (payload : json) (status : HTTPStatus) : response :=
  {| status := status_value status; payload := payload |}.

(** [urllib.parse.parse_qs], applied to the decoded [name=value] fields of the
    query in the order they appear: fields with a blank value are dropped, the
    values of a repeated name are collected in order. *)
Definition parse_qs (fields : list (string * string)) : gmap string (list string) :=
  Py.for_ (filter (λ nv, nv.2 ≠ "") fields)
    (λ nv parsed_result,
       match parsed_result !! nv.1 with
       | Some values => <[nv.1 := values ++ [nv.2]]> parsed_result
       | None => <[nv.1 := [nv.2]]> parsed_result
       end)
    ∅.

(** [params.get(key, default)] *)
Definition params_get {A} (params : gmap string (list string)) (key : string)
    (inj : string → A) (default : list A) : list A :=
  match params !! key with
  | Some values => map inj values
  | None => default
  end.

(** *** [handle_runs] *)

Record behavior_summary := {
  bs_name : string;
  bs_event_path : string;
  bs_updated_at : Q;
}.

Record run_summary := {
  rs_id : string;
  rs_behaviors : list behavior_summary;
  rs_latest_update : Q;
}.

Definition behavior_json (b : behavior_summary) : json :=
  JObj [("name", JStr (bs_name b)); ("event_path", JStr (bs_event_path b));
        ("updated_at", JFloat (bs_updated_at b))].

Definition run_json (g : run_summary) : json :=
  JObj [("id", JStr (rs_id g)); ("behaviors", JArr (map behavior_json (rs_behaviors g)));
        ("latest_update", JFloat (rs_latest_update g))].

(** The body of the grouping loop. *)
Definition group_run (r : BehaviorEventFile) (grouped : Py.dict run_summary)
    : Py.dict run_summary :=
  let grouped :=
    if negb (Py.dict_contains grouped (run_id r))
    then Py.dict_set grouped (run_id r)
           {| rs_id := run_id r; rs_behaviors := [];
              rs_latest_update := updated_at r |}
    else grouped in
  let grouped :=
    Py.dict_alter
      (λ g, {| rs_id := rs_id g;
               rs_behaviors := rs_behaviors g ++
                 [ {| bs_name := behavior r;
                      bs_event_path := Pathlib.str (event_path r);
                      bs_updated_at := updated_at r |} ];
               rs_latest_update := rs_latest_update g |})
      grouped (run_id r) in
  Py.dict_alter
    (λ g, {| rs_id := rs_id g; rs_behaviors := rs_behaviors g;
             rs_latest_update := Py.max2 (rs_latest_update g) (updated_at r) |})
    grouped (run_id r).

(** The list under ["runs"]: the groups, sorted by [latest_update]. *)
Definition runs_listing (runs : list BehaviorEventFile) : list run_summary :=
  let grouped := Py.for_ runs group_run [] in
  Py.sorted (λ x y, Py.flt (rs_latest_update x) (rs_latest_update y))
    (Py.dict_values grouped).

Definition handle_runs (fs : node) (results_dir : Path) : Py.result response :=
  Py.bind (discover_runs fs results_dir) (λ runs,
    Py.Ok (_write_json (JObj [("runs", JArr (map run_json (runs_listing runs)))]) OK)).

(** *** [handle_metrics] *)

Fixpoint find_first (runs : list BehaviorEventFile) (run_id' behavior' : string)
    : option BehaviorEventFile :=
  match runs with
  | [] => None
  | r :: rest =>
      if String.eqb (run_id r) run_id' && String.eqb (behavior r) behavior'
      then Some r else find_first rest run_id' behavior'
  end.

Definition _find_event_file (fs : node) (results_dir : Path)
    (run_id' behavior' : string) : Py.result (option BehaviorEventFile) :=
  Py.bind (discover_runs fs results_dir) (λ runs,
    Py.Ok (find_first runs run_id' behavior')).

(** The limit in force: [max(1, min(int(limit_raw), 2000))], or 200 when
    [int] raises ValueError. *)
Definition effective_limit (limit_raw : Py.value) : Py.result Z :=
  Py.except_ValueError
    (Py.bind (Py.int_ limit_raw) (λ n, Py.Ok (Z.max 1 (Z.min n 2000))))
    (Py.Ok 200%Z).

Definition sample_json (ev : ScalarEvent) : json :=
  JObj [("step", JInt (step ev)); ("value", JFloat (value ev));
        ("wall_time", JFloat (wall_time ev))].

(** The loop filling [data]: one tail slice per tag. *)
Fixpoint collect_data (acc : EventAccumulator) (limit : Z) (tags : list string)
    (data : Py.dict (list json)) : Py.result (Py.dict (list json)) :=
  match tags with
  | [] => Py.Ok data
  | tag :: rest =>
      Py.bind (Accumulator.Scalars acc tag) (λ series,
        let events := Py.slice_from (- limit) series in
        collect_data acc limit rest (Py.dict_set data tag (map sample_json events)))
  end.

(** The limit [handle_metrics] works with: the first value of the [limit]
    parameter, or the integer 200 in its absence, passed through
    [effective_limit]. *)
Definition request_limit (params : gmap string (list string)) : Py.result Z :=
  Py.bind (Py.item0 (params_get params "limit" Py.VStr [Py.VInt 200]))
    effective_limit.

Definition not_found_message (run_id' behavior' : string) : string :=
  ("No event file found for run '" ++ run_id' ++ "' and behavior '" ++ behavior' ++ "'")%string.

Definition handle_metrics (event_accumulator : option event_accumulator_module)
    (fs : node) (results_dir : Path) (query : list (string * string)) : M response :=
  let params := parse_qs query in
  perform run_id' := lift (Py.item0 (params_get params "run" Some [None])) in
  perform behavior' := lift (Py.item0 (params_get params "behavior" Some [None])) in
  perform limit := lift (request_limit params) in
  if negb (Py.truthy run_id') || negb (Py.truthy behavior')
  then ret (_write_json (JObj [("error", JStr "run and behavior are required")]) BAD_REQUEST)
  else
    let run_id' := default "" run_id' in
    let behavior' := default "" behavior' in
    perform event_file := lift (_find_event_file fs results_dir run_id' behavior') in
    match event_file with
    | None =>
        ret (_write_json
               (JObj [("error", JStr (not_found_message run_id' behavior'))]) NOT_FOUND)
    | Some event_file =>
        except_RuntimeError
          (perform r := get event_accumulator fs (event_path event_file) in
           perform acc := deref r in
           let tags := default [] (Py.dict_get (Accumulator.Tags acc) "scalars") in
           perform data := lift (collect_data acc limit tags []) in
           ret (_write_json
                  (JObj [("run", JStr run_id'); ("behavior", JStr behavior');
                         ("event_path", JStr (Pathlib.str (event_path event_file)));
                         ("updated_at", JFloat (updated_at event_file));
                         ("tags", JArr (map JStr tags));
                         ("data", JObj (map (λ kv, (kv.1, JArr kv.2)) data))])
                  OK))
          (λ exc, ret (_write_json (JObj [("error", JStr exc)]) INTERNAL_SERVER_ERROR))
    end.

(** ** Notions used to state the properties *)

(** The non-blank values a query gives to the parameter [key], in order. *)
Definition query_values (key : string) (query : list (string * string))
    : list string :=
  map snd (filter (λ nv, nv.1 = key) (filter (λ nv, nv.2 ≠ "") query)).

(** [clamp x lo hi]: [x] brought into the inclusive range from [lo] to [hi]. *)
Definition clamp (x lo hi : Z) : Z :=
  if (x <? lo)%Z then lo else if (hi <? x)%Z then hi else x.

(** The member [key] of a JSON object. *)
Definition json_field (j : json) (key : string) : option json :=
  match j with
  | JObj fields => Py.dict_get fields key
  | _ => None
  end.

Definition error_response (status : HTTPStatus) (message : string) : response :=
  {| status := status_value status; payload := JObj [("error", JStr message)] |}.

(** What a dictionary of lists holds for a key once [more] items have been
    appended under it, starting from [before]. *)
Definition collected {A} (before : option (list A)) (more : list A)
    : option (list A) :=
  match before, more with
  | None, [] => None
  | _, _ => Some (default [] before ++ more)
  end.

(** ** Sample data for exercising the statements *)

Definition sample_module : event_accumulator_module :=
  {| SCALARS := "scalars"; TENSORS := "tensors";
     COMPRESSED_HISTOGRAMS := "distributions"; HISTOGRAMS := "histograms";
     IMAGES := "images"; AUDIO := "audio" |}.

Definition sample_record (tag : string) (n : Z) : EventRecord :=
  {| rec_tag := tag; rec_step := n; rec_value := inject_Z n; rec_wall_time := 0%Q |}.

(** Two runs; run1/AgentA holds two event files, of which the second is the
    more recent one. *)
Definition sample_tree : node :=
  Dir 0 [("results", Dir 0
    [("run2", Dir 0
       [("AgentB", Dir 0 [("events.out.tfevents.1", File 5 [sample_record "reward" 1])])]);
     ("run1", Dir 0
       [("AgentA", Dir 0
          [("events.out.tfevents.1",
            File 3 [sample_record "reward" 1; sample_record "loss" 1;
                    sample_record "reward" 2; sample_record "reward" 3]);
           ("events.out.tfevents.2", File 7 [sample_record "reward" 9]);
           ("notes.txt", File 9 [])]);
        ("Empty", Dir 0 [("readme", File 1 [])]);
        ("stray", File 1 [])])])].

Definition sample_entry : BehaviorEventFile :=
  {| run_id := "run1"; behavior := "AgentA";
     event_path := ["results"; "run1"; "AgentA"; "events.out.tfevents.2"];
     updated_at := 7 |}.

Definition sample_query : list (string * string) :=
  [("run", "run1"); ("behavior", "AgentA"); ("limit", "2")].

(** The calls of [EventCache.get], in the order the lock admits them; each
    call sees the file system of its own moment. *)
Fixpoint get_sequence (event_accumulator : option event_accumulator_module)
    (calls : list (node * Path)) (st : state) : list (Py.result ref) * state :=
  match calls with
  | [] => ([], st)
  | (fs, event_path) :: rest =>
      let '(r, st1) := get event_accumulator fs event_path st in
      let '(rs, st2) := get_sequence event_accumulator rest st1 in
      (r :: rs, st2)
  end.

(** Well-formed stores: every cache entry refers to an existing accumulator
    opened on that very path, and there are as many accumulators as cache
    entries. *)
Record cache_inv (st : state) : Prop := {
  inv_valid : ∀ p h, _cache st !! p = Some h →
                ∃ acc, heap st !! h = Some acc ∧ acc_path acc = p;
  inv_count : size (_cache st) = length (heap st);
}.

Definition event_of (r : EventRecord) : ScalarEvent :=
  {| wall_time := rec_wall_time r; step := rec_step r; value := rec_value r |}.

(** [sample_tree] after one more sample was appended to the newest file of
    run1/AgentA. *)
Definition sample_tree_grown : node :=
  Dir 0 [("results", Dir 0
    [("run2", Dir 0
       [("AgentB", Dir 0 [("events.out.tfevents.1", File 5 [sample_record "reward" 1])])]);
     ("run1", Dir 0
       [("AgentA", Dir 0
          [("events.out.tfevents.1",
            File 3 [sample_record "reward" 1; sample_record "loss" 1;
                    sample_record "reward" 2; sample_record "reward" 3]);
           ("events.out.tfevents.2",
            File 8 [sample_record "reward" 9; sample_record "reward" 10]);
           ("notes.txt", File 9 [])]);
        ("Empty", Dir 0 [("readme", File 1 [])]);
        ("stray", File 1 [])])])].

(** The last [n] elements of a list, in their order. *)
Definition last_n {A} (n : nat) (l : list A) : list A :=
  drop (length l - n) l.

(** A run whose single series [reward] has the steps 1 to 300. *)
Definition long_tree : node :=
  Dir 0 [("results", Dir 0
    [("run1", Dir 0
       [("AgentA", Dir 0
          [("events.out.tfevents.0",
            File 1 (map (λ n, sample_record "reward" (Z.of_nat n)) (seq 1 300)))])])])].

(** The discovered entries of the run [k], in discovery order. *)
Definition members (k : string) (runs : list BehaviorEventFile)
    : list BehaviorEventFile :=
  filter (λ r, run_id r = k) runs.

(** What the listing shows of one discovered entry. *)
Definition summary_of (r : BehaviorEventFile) : behavior_summary :=
  {| bs_name := behavior r; bs_event_path := Pathlib.str (event_path r);
     bs_updated_at := updated_at r |}.

(** The group a run starts with, and a group after one more entry. *)
Definition opened (r : BehaviorEventFile) : run_summary :=
  {| rs_id := run_id r; rs_behaviors := []; rs_latest_update := updated_at r |}.

Definition grown (r : BehaviorEventFile) (g : run_summary) : run_summary :=
  {| rs_id := rs_id g; rs_behaviors := rs_behaviors g ++ [summary_of r];
     rs_latest_update := Py.max2 (rs_latest_update g) (updated_at r) |}.

(** What the grouping loop maintains after the entries [l]. *)
Record grouping_inv (l : list BehaviorEventFile) (d : Py.dict run_summary)
    : Prop := {
  grouping_nodup : NoDup (Py.dict_keys d);
  grouping_keys : ∀ k, k ∈ Py.dict_keys d ↔ k ∈ map run_id l;
  grouping_groups : ∀ k g, Py.dict_get d k = Some g →
    rs_id g = k
    ∧ rs_behaviors g = map summary_of (members k l)
    ∧ rs_latest_update g ∈ map updated_at (members k l)
    ∧ ∀ r, r ∈ members k l → (updated_at r <= rs_latest_update g)%Q;
}.

(** A tree in which no directory lists a name twice, as in every real file
    system. *)
Fixpoint wf_node (n : node) : bool :=
  match n with
  | File _ _ => true
  | Dir _ entries =>
      bool_decide (NoDup (map fst entries))
      && forallb (λ e, wf_node (snd e)) entries
  end.

(** The name order of run directories: [a] does not come after [b]. *)
Definition name_le (a b : string) : Prop := String.ltb b a = false.

(** The pattern of event files, without its final star. *)
Definition event_prefix : string := "events.out.tfevents.".

(** What the inner loop of [discover_runs] contributes for the entry [b] of
    the run directory [run_dir]. *)
Definition entries_of_behavior (fs : node) (run_dir : Path) (b : string)
    : list BehaviorEventFile :=
  discover_behavior fs run_dir (Pathlib.child run_dir b) [].

(** What the outer loop contributes for the entry [r] of the results
    directory. *)
Definition entries_of_run (fs : node) (results_dir : Path) (r : string)
    : list BehaviorEventFile :=
  discover_run fs (Pathlib.child results_dir r) [].

(** ** Dispatch and the serving loop *)

(** What a GET request leads to: a JSON answer of this program, or the
    static file handler of the base class, which lies outside it. *)
Inductive served :=
| Answer (r : response)
| StaticFile.

(** [do_GET], given the path and the decoded query fields that [urlparse]
    finds in the request target. *)
Definition do_GET (event_accumulator : option event_accumulator_module)
    (fs : node) (results_dir : Path) (path : string)
    (query : list (string * string)) : M served :=
  if String.eqb path "/api/runs"
  then perform r := lift (handle_runs fs results_dir) in ret (Answer r)
  else if String.eqb path "/api/metrics"
  then perform r := handle_metrics event_accumulator fs results_dir query in
       ret (Answer r)
  else ret StaticFile.

(** One request: the file system at its moment, the path and the query. *)
Definition request : Type := node * string * list (string * string).

(** The handlers that [main] sets up share one [EventCache]. Requests are
    taken here one after the other; a handler that raises ends its own
    request only, and the cache stays as that request left it. *)
Fixpoint serve (event_accumulator : option event_accumulator_module)
    (results_dir : Path) (requests : list request) (st : state)
    : list (Py.result served) * state :=
  match requests with
  | [] => ([], st)
  | (fs, path, query) :: rest =>
      let '(r, st1) := do_GET event_accumulator fs results_dir path query st in
      let '(rs, st2) := serve event_accumulator results_dir rest st1 in
      (r :: rs, st2)
  end.

(** The samples a file holds for one tag, in file order. *)
Definition series_of (tag : string) (records : list EventRecord)
    : list ScalarEvent :=
  map event_of (filter (λ r, rec_tag r = tag) records).

(** Whether a request was answered 200 by the metrics or runs handler. *)
Definition answered_200 (out : Py.result served) : bool :=
  match out with
  | Py.Ok (Answer resp) => (status resp =? 200)%Z
  | _ => false
  end.

(** The requests for [/api/metrics] that were answered 200, each with its
    outcome; [outs] are the outcomes of [requests], in order. *)
Definition metrics_answered_200 (requests : list request)
    (outs : list (Py.result served)) : list (request * Py.result served) :=
  filter (λ ro, (String.eqb ro.1.1.2 "/api/metrics" && answered_200 ro.2) = true)
         (zip requests outs).

(** * Properties *)

(** ** Query parameters *)

Lemma for_cons {A S} (x : A) (xs : list A) (body : A → S → S) (s : S) :
  Py.for_ (x :: xs) body s = Py.for_ xs body (body x s).
Proof. reflexivity. Qed.

Lemma for_app {A S} (xs ys : list A) (body : A → S → S) (s : S) :
  Py.for_ (xs ++ ys) body s = Py.for_ ys body (Py.for_ xs body s).
Proof. unfold Py.for_. apply fold_left_app. Qed.

Lemma parse_qs_fold (fields : list (string * string))
    (m : gmap string (list string)) (key : string) :
  Py.for_ fields
    (λ nv parsed_result,
       match parsed_result !! nv.1 with
       | Some values => <[nv.1 := values ++ [nv.2]]> parsed_result
       | None => <[nv.1 := [nv.2]]> parsed_result
       end) m !! key
  = collected (m !! key) (map snd (filter (λ nv, nv.1 = key) fields)).
Proof.
  revert m. induction fields as [|[n v] fields IH]; intros m.
  - simpl. destruct (m !! key) as [ws|]; simpl; [by rewrite app_nil_r | done].
  - rewrite for_cons, IH. simpl. rewrite filter_cons. simpl.
    destruct (decide (n = key)) as [->|Hne].
    + destruct (m !! key) as [ws|] eqn:Hm; rewrite lookup_insert_eq; simpl.
      * unfold collected. simpl. rewrite <- app_assoc. simpl.
        by destruct (map snd _).
      * unfold collected. simpl. done.
    + destruct (m !! n) as [ws|]; by rewrite lookup_insert_ne.
Qed.

Lemma parse_qs_lookup (query : list (string * string)) (key : string) :
  parse_qs query !! key
  = match query_values key query with [] => None | vs => Some vs end.
Proof.
  unfold parse_qs, query_values. rewrite parse_qs_fold, lookup_empty.
  unfold collected. simpl. by destruct (map snd _).
Qed.

Lemma int_of_str_raises (s : string) (e : Py.exn) :
  Py.int_of_str s = Py.Raise e → e = Py.ValueError.
Proof.
  unfold Py.int_of_str.
  destruct (match Py.strip _ with [] => _ | _ => _ end) as [negative body].
  destruct (Py.digits _ _ _ _) as [[n count]|]; [|congruence].
  destruct (_ <? _)%nat; congruence.
Qed.

Lemma effective_limit_spec (limit_raw : Py.value) :
  effective_limit limit_raw
  = Py.Ok match Py.int_ limit_raw with
          | Py.Ok n => clamp n 1 2000
          | Py.Raise _ => 200%Z
          end.
Proof.
  unfold effective_limit.
  destruct (Py.int_ limit_raw) as [n|e] eqn:Hint; simpl.
  - f_equal. unfold clamp.
    destruct (Z.ltb_spec n 1), (Z.ltb_spec 2000 n); lia.
  - destruct limit_raw as [k|s]; simpl in Hint; [congruence|].
    by rewrite (int_of_str_raises _ _ Hint).
Qed.

Lemma clamp_range (x : Z) : (1 ≤ clamp x 1 2000 ≤ 2000)%Z.
Proof.
  unfold clamp. destruct (Z.ltb_spec x 1), (Z.ltb_spec 2000 x); lia.
Qed.

Lemma request_limit_spec (query : list (string * string)) :
  request_limit (parse_qs query)
  = Py.Ok match query_values "limit" query with
          | [] => 200%Z
          | limit_raw :: _ =>
              match Py.int_of_str limit_raw with
              | Py.Ok n => clamp n 1 2000
              | Py.Raise _ => 200%Z
              end
          end.
Proof.
  unfold request_limit, params_get. rewrite parse_qs_lookup.
  destruct (query_values "limit" query) as [|limit_raw rest]; simpl.
  - apply effective_limit_spec.
  - apply effective_limit_spec.
Qed.

Lemma request_limit_range (query : list (string * string)) :
  ∃ limit, request_limit (parse_qs query) = Py.Ok limit ∧ (1 ≤ limit ≤ 2000)%Z.
Proof.
  rewrite request_limit_spec. eexists; split; [done|].
  destruct (query_values "limit" query) as [|limit_raw rest]; [lia|].
  destruct (Py.int_of_str limit_raw); [apply clamp_range | lia].
Qed.

(** [handle_metrics] reads its query through three parameters only. *)
Lemma handle_metrics_ext (ea : option event_accumulator_module) (fs : node)
    (results_dir : Path) (q1 q2 : list (string * string)) :
  query_values "run" q1 = query_values "run" q2 →
  query_values "behavior" q1 = query_values "behavior" q2 →
  request_limit (parse_qs q1) = request_limit (parse_qs q2) →
  handle_metrics ea fs results_dir q1 = handle_metrics ea fs results_dir q2.
Proof.
  intros Hrun Hbeh Hlim. unfold handle_metrics, params_get.
  rewrite !parse_qs_lookup, Hrun, Hbeh, Hlim. reflexivity.
Qed.

Lemma query_values_cons_ne (key name v : string) (query : list (string * string)) :
  name ≠ key → query_values key ((name, v) :: query) = query_values key query.
Proof.
  intros Hne. unfold query_values. rewrite filter_cons. simpl.
  destruct (decide (v ≠ "")); [|done].
  rewrite filter_cons. simpl. by destruct (decide (name = key)).
Qed.

Lemma query_values_cons_eq (key v : string) (query : list (string * string)) :
  query_values key ((key, v) :: query)
  = if decide (v = "") then query_values key query
    else v :: query_values key query.
Proof.
  unfold query_values. rewrite filter_cons. simpl.
  destruct (decide (v ≠ "")) as [Hv|Hv], (decide (v = "")); try done.
  rewrite filter_cons. simpl. by destruct (decide (key = key)).
Qed.

(** C2: the limit the metrics handler works with is
    clamp(int(limit_raw), 1, 2000) when the first [limit] value parses as an
    integer and 200 when the parameter is absent or does not parse; computing
    it never fails, and a request with a malformed limit is answered exactly
    like the same request without any limit. *)
Theorem request_limit_clamp (query : list (string * string)) :
  request_limit (parse_qs query)
  = Py.Ok match query_values "limit" query with
          | [] => 200%Z
          | limit_raw :: _ =>
              match Py.int_of_str limit_raw with
              | Py.Ok n => clamp n 1 2000
              | Py.Raise _ => 200%Z
              end
          end
  ∧ ∀ ea fs results_dir limit_raw e,
      query_values "limit" query = [] →
      Py.int_of_str limit_raw = Py.Raise e →
      handle_metrics ea fs results_dir (("limit", limit_raw) :: query)
      = handle_metrics ea fs results_dir query.
Proof.
  split; [apply request_limit_spec|].
  intros ea fs results_dir limit_raw e Habsent Hbad.
  apply handle_metrics_ext.
  - by apply query_values_cons_ne.
  - by apply query_values_cons_ne.
  - rewrite !request_limit_spec, query_values_cons_eq, Habsent.
    destruct (decide (limit_raw = "")); [done|]. by rewrite Hbad.
Qed.

Lemma request_limit_clamp_witness :
  request_limit (parse_qs [("run", "run1"); ("limit", "50")]) = Py.Ok 50%Z
  ∧ handle_metrics None (Dir 0 []) ["results"]
      [("limit", "5o"); ("run", "run1"); ("behavior", "AgentA")]
    = handle_metrics None (Dir 0 []) ["results"]
        [("run", "run1"); ("behavior", "AgentA")].
Proof.
  split.
  - exact (proj1 (request_limit_clamp [("run", "run1"); ("limit", "50")])).
  - apply (proj2 (request_limit_clamp [("run", "run1"); ("behavior", "AgentA")])
             None (Dir 0 []) ["results"] "5o" Py.ValueError);
      reflexivity.
Defined.

(** ** Error responses of the metrics handler *)

Lemma truthy_query_value (query : list (string * string)) (key v : string)
    (rest : list string) :
  query_values key query = v :: rest → Py.truthy (Some v) = true.
Proof.
  unfold query_values. intros Hq.
  assert (Hin : v ∈ map snd (filter (λ nv, nv.1 = key)
                  (filter (λ nv : string * string, nv.2 ≠ "") query))).
  { rewrite Hq. apply list_elem_of_here. }
  apply list_elem_of_fmap in Hin as [[n w] [-> Hin]].
  apply list_elem_of_filter in Hin as [_ Hin].
  apply list_elem_of_filter in Hin as [Hne _]. simpl in *.
  destruct (String.eqb_spec w ""); [done|]. simpl.
  by destruct (String.eqb_spec w "").
Qed.

(** A request without one of the two required parameters is refused
    before anything else happens. *)
Lemma handle_metrics_missing_parameter (ea : option event_accumulator_module)
    (fs : node) (results_dir : Path) (query : list (string * string))
    (st : state) :
  query_values "run" query = [] ∨ query_values "behavior" query = [] →
  handle_metrics ea fs results_dir query st
  = (Py.Ok (error_response BAD_REQUEST "run and behavior are required"), st).
Proof.
  intros Hmissing. unfold handle_metrics, params_get, mbind, lift.
  rewrite !parse_qs_lookup.
  destruct (request_limit_range query) as (limit & -> & _).
  destruct Hmissing as [-> | ->]; simpl.
  - by destruct (query_values "behavior" query).
  - destruct (query_values "run" query) as [|r rest] eqn:Hrun; simpl; [done|].
    by rewrite orb_true_r.
Qed.

(** C7: a metrics request lacking the [run] or the [behavior] parameter is
    answered 400 with the body {"error": "run and behavior are required"},
    whatever the other parameters, the file system and the store, and leaves
    the store as it was. *)
Theorem handle_metrics_bad_request (ea : option event_accumulator_module)
    (fs : node) (results_dir : Path) (query : list (string * string))
    (st : state) :
  query_values "run" query = [] ∨ query_values "behavior" query = [] →
  handle_metrics ea fs results_dir query st
  = (Py.Ok {| status := 400;
              payload := JObj [("error", JStr "run and behavior are required")] |},
     st).
Proof. apply handle_metrics_missing_parameter. Qed.

Lemma handle_metrics_bad_request_witness :
  handle_metrics None (Dir 0 []) ["results"] [("behavior", "AgentA")] EventCache_init
  = (Py.Ok (error_response BAD_REQUEST "run and behavior are required"),
     EventCache_init).
Proof.
  apply handle_metrics_bad_request. left. reflexivity.
Defined.

Lemma find_first_None (runs : list BehaviorEventFile) (r b : string) :
  find_first runs r b = None ↔ ∀ e, e ∈ runs → ¬ (run_id e = r ∧ behavior e = b).
Proof.
  induction runs as [|x runs IH]; simpl.
  - split; [|done]. intros _ e He. by apply not_elem_of_nil in He.
  - destruct (String.eqb_spec (run_id x) r) as [Hr|Hr],
             (String.eqb_spec (behavior x) b) as [Hb|Hb]; simpl.
    + split; [done|]. intros H. destruct (H x); [apply list_elem_of_here | done].
    + rewrite IH. split; intros H e He.
      * apply elem_of_cons in He as [->|He]; [tauto | by apply H].
      * apply H. by apply list_elem_of_further.
    + rewrite IH. split; intros H e He.
      * apply elem_of_cons in He as [->|He]; [tauto | by apply H].
      * apply H. by apply list_elem_of_further.
    + rewrite IH. split; intros H e He.
      * apply elem_of_cons in He as [->|He]; [tauto | by apply H].
      * apply H. by apply list_elem_of_further.
Qed.

Lemma find_first_Some (runs : list BehaviorEventFile) (r b : string)
    (e : BehaviorEventFile) :
  find_first runs r b = Some e → e ∈ runs ∧ run_id e = r ∧ behavior e = b.
Proof.
  induction runs as [|x runs IH]; simpl; [done|].
  destruct (String.eqb_spec (run_id x) r) as [Hr|Hr],
           (String.eqb_spec (behavior x) b) as [Hb|Hb]; simpl;
    try (intros H; destruct (IH H) as (? & ? & ?); split;
         [by apply list_elem_of_further | done]).
  intros [= ->]. split; [apply list_elem_of_here | done].
Qed.

(** The handler up to the point where the event file has been looked up. *)
Lemma handle_metrics_resolved (ea : option event_accumulator_module)
    (fs : node) (results_dir : Path) (query : list (string * string))
    (r b : string) (rs bs : list string) (runs : list BehaviorEventFile) :
  query_values "run" query = r :: rs →
  query_values "behavior" query = b :: bs →
  discover_runs fs results_dir = Py.Ok runs →
  ∃ limit, request_limit (parse_qs query) = Py.Ok limit ∧ (1 ≤ limit ≤ 2000)%Z ∧
  ∀ st, handle_metrics ea fs results_dir query st
  = match find_first runs r b with
    | None => ret (error_response NOT_FOUND (not_found_message r b))
    | Some event_file =>
        except_RuntimeError
          (perform h := get ea fs (event_path event_file) in
           perform acc := deref h in
           let tags := default [] (Py.dict_get (Accumulator.Tags acc) "scalars") in
           perform data := lift (collect_data acc limit tags []) in
           ret (_write_json
                  (JObj [("run", JStr r); ("behavior", JStr b);
                         ("event_path", JStr (Pathlib.str (event_path event_file)));
                         ("updated_at", JFloat (updated_at event_file));
                         ("tags", JArr (map JStr tags));
                         ("data", JObj (map (λ kv, (kv.1, JArr kv.2)) data))])
                  OK))
          (λ exc, ret (error_response INTERNAL_SERVER_ERROR exc))
    end st.
Proof.
  intros Hrun Hbeh Hdisc.
  destruct (request_limit_range query) as (limit & Hlimit & Hrange).
  exists limit. split; [done|]. split; [done|].
  unfold handle_metrics, params_get. rewrite !parse_qs_lookup, Hrun, Hbeh, Hlimit.
  pose proof (truthy_query_value _ _ _ _ Hrun) as Htr.
  pose proof (truthy_query_value _ _ _ _ Hbeh) as Htb.
  unfold _find_event_file. rewrite Hdisc.
  intros st. unfold mbind, lift. simpl Py.item0. cbv iota beta. rewrite Htr, Htb.
  simpl. by destruct (find_first runs r b).
Qed.

Lemma handle_metrics_discovery_fails (ea : option event_accumulator_module)
    (fs : node) (results_dir : Path) (query : list (string * string))
    (r b : string) (rs bs : list string) (e : Py.exn) (st : state) :
  query_values "run" query = r :: rs →
  query_values "behavior" query = b :: bs →
  discover_runs fs results_dir = Py.Raise e →
  handle_metrics ea fs results_dir query st = (Py.Raise e, st).
Proof.
  intros Hrun Hbeh Hdisc.
  destruct (request_limit_range query) as (limit & Hlimit & _).
  unfold handle_metrics, params_get. rewrite !parse_qs_lookup, Hrun, Hbeh, Hlimit.
  pose proof (truthy_query_value _ _ _ _ Hrun) as Htr.
  pose proof (truthy_query_value _ _ _ _ Hbeh) as Htb.
  unfold _find_event_file. rewrite Hdisc.
  unfold mbind, lift. simpl Py.item0. cbv iota beta. rewrite Htr, Htb.
  reflexivity.
Qed.

(** C6: when both parameters are present and discovery lists no entry whose
    run id and behavior equal them character for character, the handler
    answers 404 with the message naming the requested run and behavior. *)
Theorem handle_metrics_not_found (ea : option event_accumulator_module)
    (fs : node) (results_dir : Path) (query : list (string * string))
    (r b : string) (rs bs : list string) (runs : list BehaviorEventFile)
    (st : state) :
  query_values "run" query = r :: rs →
  query_values "behavior" query = b :: bs →
  discover_runs fs results_dir = Py.Ok runs →
  (∀ e, e ∈ runs → ¬ (run_id e = r ∧ behavior e = b)) →
  handle_metrics ea fs results_dir query st
  = (Py.Ok (error_response NOT_FOUND
              ("No event file found for run '" ++ r ++ "' and behavior '" ++ b ++ "'")%string),
     st).
Proof.
  intros Hrun Hbeh Hdisc Hnone.
  destruct (handle_metrics_resolved ea _ _ _ _ _ _ _ _ Hrun Hbeh Hdisc)
    as (limit & _ & _ & ->).
  apply find_first_None in Hnone. rewrite Hnone. reflexivity.
Qed.

Lemma handle_metrics_not_found_witness :
  handle_metrics None (Dir 0 [("results", Dir 0 [])]) ["results"]
    [("run", "missing"); ("behavior", "x")] EventCache_init
  = (Py.Ok (error_response NOT_FOUND
              "No event file found for run 'missing' and behavior 'x'"),
     EventCache_init).
Proof.
  apply (handle_metrics_not_found None (Dir 0 [("results", Dir 0 [])]) ["results"]
           [("run", "missing"); ("behavior", "x")] "missing" "x" [] [] []).
  - reflexivity.
  - reflexivity.
  - reflexivity.
  - intros e He. by apply not_elem_of_nil in He.
Defined.

Lemma find_first_is_Some (runs : list BehaviorEventFile) (r b : string)
    (e : BehaviorEventFile) :
  e ∈ runs → run_id e = r → behavior e = b → is_Some (find_first runs r b).
Proof.
  intros He Hr Hb. destruct (find_first runs r b) eqn:Hf; [done|].
  rewrite find_first_None in Hf. destruct (Hf e He). done.
Qed.

(** C8: without the tensorboard dependency every [EventCache.get] raises
    the dependency error whatever the path, and a metrics request naming a
    discovered (run, behavior) pair is answered 500 with that error's message
    in the [error] field. *)
Theorem dependency_missing (fs : node) (results_dir : Path) :
  (∀ event_path st,
     get None fs event_path st
     = (Py.Raise (Py.RuntimeError tensorboard_missing), st))
  ∧ ∀ query r b rs bs runs e st,
      query_values "run" query = r :: rs →
      query_values "behavior" query = b :: bs →
      discover_runs fs results_dir = Py.Ok runs →
      e ∈ runs → run_id e = r → behavior e = b →
      handle_metrics None fs results_dir query st
      = (Py.Ok (error_response INTERNAL_SERVER_ERROR tensorboard_missing), st).
Proof.
  split; [done|].
  intros query r b rs bs runs e st Hrun Hbeh Hdisc He Hr Hb.
  destruct (handle_metrics_resolved None _ _ _ _ _ _ _ _ Hrun Hbeh Hdisc)
    as (limit & _ & _ & ->).
  destruct (find_first_is_Some _ _ _ _ He Hr Hb) as [event_file ->].
  reflexivity.
Qed.

Lemma get_available (m : event_accumulator_module) (fs : node)
    (event_path : Path) (st : state) :
  ∃ h st', get (Some m) fs event_path st = (Py.Ok h, st').
Proof. unfold get. destruct (_cache st !! event_path); eauto. Qed.

Lemma deref_raises (h : ref) (st st' : state) (e : Py.exn) :
  deref h st = (Py.Raise e, st') → e = Py.DanglingReference.
Proof. unfold deref. destruct (heap st !! h); congruence. Qed.

Lemma collect_data_raises (acc : EventAccumulator) (limit : Z)
    (tags : list string) (data : Py.dict (list json)) (e : Py.exn) :
  collect_data acc limit tags data = Py.Raise e → ∃ key, e = Py.KeyError key.
Proof.
  revert data. induction tags as [|tag tags IH]; intros data; simpl; [done|].
  unfold Accumulator.Scalars. destruct (Py.dict_get _ tag); simpl.
  - apply IH.
  - intros [= <-]. eauto.
Qed.

(** The possible answers of the handler, and what each does to the store. *)
Lemma handle_metrics_answer (ea : option event_accumulator_module)
    (fs : node) (results_dir : Path) (query : list (string * string))
    (st st' : state) (resp : response) :
  handle_metrics ea fs results_dir query st = (Py.Ok resp, st') →
  (status resp = 400%Z ∧ st' = st)
  ∨ (status resp = 404%Z ∧ st' = st)
  ∨ (status resp = 500%Z ∧ ea = None ∧ st' = st)
  ∨ (status resp = 200%Z ∧ is_Some ea).
Proof.
  intros Hrun.
  destruct (query_values "run" query) as [|r rs] eqn:Hr.
  { rewrite handle_metrics_missing_parameter in Hrun by (by left).
    injection Hrun as <- <-. by left. }
  destruct (query_values "behavior" query) as [|b bs] eqn:Hb.
  { rewrite handle_metrics_missing_parameter in Hrun by (by right).
    injection Hrun as <- <-. by left. }
  destruct (discover_runs fs results_dir) as [runs|e] eqn:Hdisc.
  2:{ by rewrite (handle_metrics_discovery_fails _ _ _ _ _ _ _ _ _ _ Hr Hb Hdisc) in Hrun. }
  destruct (handle_metrics_resolved ea _ _ _ _ _ _ _ _ Hr Hb Hdisc)
    as (limit & _ & _ & Heq).
  rewrite Heq in Hrun. clear Heq.
  destruct (find_first runs r b) as [event_file|].
  2:{ injection Hrun as <- <-. right. by left. }
  destruct ea as [m|].
  - do 3 right. split; [|done].
    unfold except_RuntimeError, mbind in Hrun.
    destruct (get_available m fs (event_path event_file) st) as (h & st1 & Hget).
    rewrite Hget in Hrun.
    destruct (deref h st1) as [[acc|e] st2] eqn:Hderef.
    + unfold lift in Hrun.
      destruct (collect_data acc limit _ []) as [data|e] eqn:Hdata.
      * simpl in Hrun. injection Hrun as <- <-. reflexivity.
      * apply collect_data_raises in Hdata as [key ->]. done.
    + apply deref_raises in Hderef as ->. done.
  - injection Hrun as <- <-. right. right. by left.
Qed.

(** C10: whenever a metrics request ends in an error response, 400 for a
    missing parameter, 404 for an unmatched pair or 500 for the missing
    dependency, the cache dictionary (and the whole object store) is what it
    was before the request. *)
Theorem handle_metrics_error_keeps_cache (ea : option event_accumulator_module)
    (fs : node) (results_dir : Path) (query : list (string * string))
    (st st' : state) (resp : response) :
  handle_metrics ea fs results_dir query st = (Py.Ok resp, st') →
  status resp = 400%Z ∨ status resp = 404%Z ∨ (status resp = 500%Z ∧ ea = None) →
  _cache st' = _cache st ∧ heap st' = heap st.
Proof.
  intros Hrun Herr.
  destruct (handle_metrics_answer _ _ _ _ _ _ _ Hrun)
    as [[_ ->] | [[_ ->] | [(_ & _ & ->) | [H200 _]]]]; try done.
  rewrite H200 in Herr. destruct Herr as [|[|[]]]; done.
Qed.

Lemma dependency_missing_witness :
  handle_metrics None sample_tree ["results"] sample_query EventCache_init
  = (Py.Ok (error_response INTERNAL_SERVER_ERROR tensorboard_missing),
     EventCache_init).
Proof.
  apply (proj2 (dependency_missing sample_tree ["results"])
           sample_query "run1" "AgentA" [] []
           [sample_entry;
            {| run_id := "run2"; behavior := "AgentB";
               event_path := ["results"; "run2"; "AgentB"; "events.out.tfevents.1"];
               updated_at := 5 |}]
           sample_entry).
  - reflexivity.
  - reflexivity.
  - reflexivity.
  - apply list_elem_of_here.
  - reflexivity.
  - reflexivity.
Defined.

Lemma handle_metrics_error_keeps_cache_witness :
  let warm := (handle_metrics (Some sample_module) sample_tree ["results"]
                 sample_query EventCache_init).2 in
  _cache warm = _cache warm ∧ heap warm = heap warm.
Proof.
  intros warm.
  apply (handle_metrics_error_keeps_cache (Some sample_module) sample_tree
           ["results"] [("run", "run1"); ("behavior", "Nobody")]
           warm warm
           (error_response NOT_FOUND
              "No event file found for run 'run1' and behavior 'Nobody'")).
  - reflexivity.
  - right. left. reflexivity.
Defined.

(** ** The event cache *)

Lemma cache_inv_init : cache_inv EventCache_init.
Proof.
  split.
  - intros p h. simpl. by rewrite lookup_empty.
  - reflexivity.
Qed.

(** What one [get] does: a miss allocates a fresh accumulator and stores it,
    a hit reloads the stored one in place. *)
Lemma get_step (m : event_accumulator_module) (fs : node) (p : Path)
    (st st1 : state) (r : Py.result ref) :
  get (Some m) fs p st = (r, st1) →
  match _cache st !! p with
  | None =>
      r = Py.Ok (length (heap st))
      ∧ heap st1 = heap st ++
          [Accumulator.Reload fs
             (Accumulator.new p (_default_size_guidance (Some m)))]
      ∧ _cache st1 = <[p := length (heap st)]> (_cache st)
  | Some h =>
      r = Py.Ok h
      ∧ heap st1 = alter (Accumulator.Reload fs) h (heap st)
      ∧ _cache st1 = _cache st
  end.
Proof.
  unfold get. destruct (_cache st !! p); intros [= <- <-]; done.
Qed.

Lemma Reload_path (fs : node) (acc : EventAccumulator) :
  acc_path (Accumulator.Reload fs acc) = acc_path acc.
Proof. reflexivity. Qed.

Lemma get_preserves_inv (m : event_accumulator_module) (fs : node) (p : Path)
    (st st1 : state) (r : Py.result ref) :
  cache_inv st → get (Some m) fs p st = (r, st1) → cache_inv st1.
Proof.
  intros [Hvalid Hcount] Hget. apply get_step in Hget.
  destruct (_cache st !! p) as [h|] eqn:Hp; destruct Hget as (_ & Hheap & Hcache).
  - split.
    + intros q k. rewrite Hcache, Hheap. intros Hq.
      destruct (Hvalid q k Hq) as (acc & Hk & Hpath).
      destruct (decide (h = k)) as [Heq|Hne]; [subst k|].
      * exists (Accumulator.Reload fs acc). split; [|done].
        by rewrite list_lookup_alter_eq, Hk.
      * exists acc. by rewrite list_lookup_alter_ne.
    + rewrite Hcache, Hheap, length_alter. done.
  - split.
    + intros q k. rewrite Hcache, Hheap.
      destruct (decide (p = q)) as [<-|Hne].
      * rewrite lookup_insert_eq. intros [= <-].
        eexists. split; [|].
        { rewrite lookup_app_r by lia. by rewrite Nat.sub_diag. }
        reflexivity.
      * rewrite lookup_insert_ne by done. intros Hq.
        destruct (Hvalid q k Hq) as (acc & Hk & Hpath).
        exists acc. split; [|done]. by apply lookup_app_l_Some.
    + rewrite Hcache, Hheap, length_app. simpl.
      rewrite map_size_insert_None by done. lia.
Qed.

Lemma get_keeps_entries (m : event_accumulator_module) (fs : node) (p q : Path)
    (st st1 : state) (r : Py.result ref) (h : ref) :
  get (Some m) fs p st = (r, st1) →
  _cache st !! q = Some h → _cache st1 !! q = Some h.
Proof.
  intros Hget Hq. apply get_step in Hget.
  destruct (_cache st !! p) as [k|] eqn:Hp; destruct Hget as (_ & _ & ->); [done|].
  rewrite lookup_insert_ne; [done|]. intros <-. congruence.
Qed.

Lemma get_returns_entry (m : event_accumulator_module) (fs : node) (p : Path)
    (st st1 : state) (r : Py.result ref) :
  get (Some m) fs p st = (r, st1) →
  ∃ h, r = Py.Ok h ∧ _cache st1 !! p = Some h.
Proof.
  intros Hget. apply get_step in Hget.
  destruct (_cache st !! p) as [k|] eqn:Hp; destruct Hget as (-> & _ & ->).
  - eauto.
  - eexists. split; [done|]. apply lookup_insert_eq.
Qed.

Lemma get_dom (m : event_accumulator_module) (fs : node) (p : Path)
    (st st1 : state) (r : Py.result ref) :
  get (Some m) fs p st = (r, st1) →
  dom (_cache st1) = dom (_cache st) ∪ {[p]}.
Proof.
  intros Hget. apply get_step in Hget.
  destruct (_cache st !! p) as [k|] eqn:Hp; destruct Hget as (_ & _ & ->).
  - apply (elem_of_dom_2 (D := gset Path)) in Hp. set_solver.
  - rewrite dom_insert_L. set_solver.
Qed.

Lemma get_sequence_spec (m : event_accumulator_module)
    (calls : list (node * Path)) (st st' : state) (results : list (Py.result ref)) :
  cache_inv st →
  get_sequence (Some m) calls st = (results, st') →
  cache_inv st'
  ∧ dom (_cache st') = dom (_cache st) ∪ list_to_set calls.*2
  ∧ (∀ q h, _cache st !! q = Some h → _cache st' !! q = Some h)
  ∧ (∀ i fs p, calls !! i = Some (fs, p) →
       ∃ h, results !! i = Some (Py.Ok h) ∧ _cache st' !! p = Some h).
Proof.
  revert st results.
  induction calls as [|[fs p] calls IH]; intros st results Hinv; cbn [get_sequence].
  - intros [= <- <-]. split; [done|]. split; [set_solver|]. split; [done|].
    intros i fs p Hi. by rewrite lookup_nil in Hi.
  - destruct (get (Some m) fs p st) as [r st1] eqn:Hget.
    destruct (get_sequence (Some m) calls st1) as [rs st2] eqn:Hrest.
    intros [= <- <-].
    pose proof (get_preserves_inv _ _ _ _ _ _ Hinv Hget) as Hinv1.
    destruct (IH _ _ Hinv1 Hrest) as (Hinv2 & Hdom & Hkeep & Hcalls).
    split; [done|]. split; [|split].
    + rewrite Hdom, (get_dom _ _ _ _ _ _ Hget). set_solver.
    + intros q h Hq. apply Hkeep. by apply (get_keeps_entries _ _ _ _ _ _ _ _ Hget).
    + intros [|i] fs' p' Hi; simpl in *.
      * injection Hi as <- <-.
        destruct (get_returns_entry _ _ _ _ _ _ Hget) as (h & -> & Hh).
        exists h. split; [done|]. by apply Hkeep.
      * by apply (Hcalls i fs' p').
Qed.

Lemma cache_inv_inj (st : state) (p q : Path) (h : ref) :
  cache_inv st → _cache st !! p = Some h → _cache st !! q = Some h → p = q.
Proof.
  intros [Hvalid _] Hp Hq.
  destruct (Hvalid p h Hp) as (acc & Hacc & <-).
  destruct (Hvalid q h Hq) as (acc' & Hacc' & <-). congruence.
Qed.

(** C1: starting from the empty cache, for every sequence of [get(path)]
    calls whose paths each name a file when the call is made, the number of
    accumulators ever constructed equals the number of distinct paths
    requested; the cache holds exactly one entry per requested path; every
    call returns the accumulator stored for its path, so calls with the same
    path share one handle and calls with different paths never do. A single
    call on a file constructs a handle only on a miss, and on a hit reloads
    the stored handle in place and returns it. A path that names a directory
    or nothing is left out: there the first reload does not return, and the
    handle is stored only after it has. *)
Theorem get_one_handle_per_path (m : event_accumulator_module)
    (calls : list (node * Path)) :
  Forall (λ c, Pathlib.is_file c.1 c.2 = true) calls →
  let results := (get_sequence (Some m) calls EventCache_init).1 in
  let st' := (get_sequence (Some m) calls EventCache_init).2 in
  length (heap st') = size (list_to_set calls.*2 : gset Path)
  ∧ dom (_cache st') = list_to_set calls.*2
  ∧ (∀ i fs p, calls !! i = Some (fs, p) →
       ∃ h, results !! i = Some (Py.Ok h) ∧ _cache st' !! p = Some h)
  ∧ (∀ p q h, _cache st' !! p = Some h → _cache st' !! q = Some h → p = q)
  ∧ (∀ fs p st,
       Pathlib.is_file fs p = true →
       let st1 := (get (Some m) fs p st).2 in
       match _cache st !! p with
       | None =>
           (get (Some m) fs p st).1 = Py.Ok (length (heap st))
           ∧ length (heap st1) = S (length (heap st))
           ∧ _cache st1 = <[p := length (heap st)]> (_cache st)
       | Some h =>
           (get (Some m) fs p st).1 = Py.Ok h
           ∧ length (heap st1) = length (heap st)
           ∧ heap st1 !! h = Accumulator.Reload fs <$> heap st !! h
           ∧ _cache st1 = _cache st
       end).
Proof.
  intros _ results st'.
  destruct (get_sequence (Some m) calls EventCache_init) as [rs st2] eqn:Hseq.
  subst results st'. cbn [fst snd].
  destruct (get_sequence_spec _ _ _ _ _ cache_inv_init Hseq)
    as (Hinv & Hdom & _ & Hcalls).
  simpl in Hdom. rewrite dom_empty_L, (left_id_L ∅ (∪)) in Hdom.
  split; [|split; [|split; [|split]]].
  - rewrite <- (inv_count _ Hinv), <- Hdom. by rewrite size_dom.
  - done.
  - done.
  - intros p q h. by apply cache_inv_inj.
  - intros fs p st _. cbv zeta.
    destruct (get (Some m) fs p st) as [r st1] eqn:Hget. cbn [fst snd].
    apply get_step in Hget.
    destruct (_cache st !! p) as [h|]; destruct Hget as (-> & Hheap & ->);
      rewrite Hheap.
    + repeat split; [by rewrite length_alter|].
      by rewrite list_lookup_alter_eq.
    + repeat split. rewrite length_app. simpl. lia.
Qed.

Lemma get_one_handle_per_path_witness :
  let calls := [(sample_tree, event_path sample_entry);
                (sample_tree, ["results"; "run2"; "AgentB"; "events.out.tfevents.1"]);
                (sample_tree, event_path sample_entry)] in
  length (heap (get_sequence (Some sample_module) calls EventCache_init).2) = 2
  ∧ ∃ h, (get_sequence (Some sample_module) calls EventCache_init).1 !! 2
         = Some (Py.Ok h)
       ∧ (get_sequence (Some sample_module) calls EventCache_init).1 !! 0
         = Some (Py.Ok h).
Proof.
  intros calls.
  assert (Hfiles : Forall (λ c, Pathlib.is_file c.1 c.2 = true) calls)
    by (repeat (constructor; [reflexivity|]); constructor).
  destruct (get_one_handle_per_path sample_module calls Hfiles)
    as (Hcount & _ & Hcalls & _).
  split.
  - rewrite Hcount. vm_compute. reflexivity.
  - destruct (Hcalls 2 sample_tree (event_path sample_entry) eq_refl)
      as (h & H2 & Hh).
    destruct (Hcalls 0 sample_tree (event_path sample_entry) eq_refl)
      as (h' & H0 & Hh').
    exists h. split; [exact H2|]. rewrite H0. congruence.
Defined.

(** ** Dictionaries *)

Lemma dict_get_set {V} (d : Py.dict V) (k k' : string) (v : V) :
  Py.dict_get (Py.dict_set d k v) k'
  = if String.eqb k k' then Some v else Py.dict_get d k'.
Proof.
  induction d as [|[k0 v0] d IH]; simpl.
  - done.
  - destruct (String.eqb_spec k0 k) as [->|Hne]; simpl.
    + by destruct (String.eqb_spec k k').
    + rewrite IH. destruct (String.eqb_spec k0 k') as [->|Hne']; [|done].
      by destruct (String.eqb_spec k k').
Qed.

Lemma dict_get_alter {V} (f : V → V) (d : Py.dict V) (k k' : string) :
  Py.dict_get (Py.dict_alter f d k) k'
  = if String.eqb k k' then f <$> Py.dict_get d k' else Py.dict_get d k'.
Proof.
  induction d as [|[k0 v0] d IH]; simpl.
  - by destruct (String.eqb k k').
  - destruct (String.eqb_spec k0 k) as [->|Hne]; simpl.
    + by destruct (String.eqb_spec k k').
    + rewrite IH. destruct (String.eqb_spec k0 k') as [->|Hne']; [|done].
      by destruct (String.eqb_spec k k').
Qed.

Lemma dict_keys_set {V} (d : Py.dict V) (k : string) (v : V) :
  Py.dict_keys (Py.dict_set d k v)
  = if Py.dict_contains d k then Py.dict_keys d else Py.dict_keys d ++ [k].
Proof.
  unfold Py.dict_contains, Py.dict_keys.
  induction d as [|[k0 v0] d IH]; simpl; [done|].
  destruct (String.eqb_spec k0 k) as [->|Hne]; simpl; [done|].
  rewrite IH. by destruct (Py.dict_get d k).
Qed.

Lemma dict_keys_alter {V} (f : V → V) (d : Py.dict V) (k : string) :
  Py.dict_keys (Py.dict_alter f d k) = Py.dict_keys d.
Proof.
  unfold Py.dict_keys. induction d as [|[k0 v0] d IH]; simpl; [done|].
  destruct (String.eqb k0 k); simpl; [done | by rewrite IH].
Qed.

Lemma dict_get_keys {V} (d : Py.dict V) (k : string) :
  k ∈ Py.dict_keys d ↔ is_Some (Py.dict_get d k).
Proof.
  unfold Py.dict_keys. induction d as [|[k0 v0] d IH]; simpl.
  - split; [by intros ?%not_elem_of_nil | by intros [? ?]].
  - rewrite elem_of_cons, IH.
    destruct (String.eqb_spec k0 k) as [->|Hne]; split; eauto.
    intros [?|?]; [congruence | done].
Qed.

(** ** Reloading an accumulator *)

Lemma add_record_get (d : Py.dict (list ScalarEvent)) (r : EventRecord)
    (tag : string) :
  Py.dict_get (Accumulator.add_record d r) tag
  = if String.eqb (rec_tag r) tag
    then Some (default [] (Py.dict_get d tag) ++ [event_of r])
    else Py.dict_get d tag.
Proof.
  unfold Accumulator.add_record. fold (event_of r).
  destruct (Py.dict_get d (rec_tag r)) as [series|] eqn:Hget.
  - rewrite dict_get_alter.
    destruct (String.eqb_spec (rec_tag r) tag) as [<-|]; [|done].
    by rewrite Hget.
  - rewrite dict_get_set.
    destruct (String.eqb_spec (rec_tag r) tag) as [<-|]; [|done].
    by rewrite Hget.
Qed.

Lemma add_records_get (records : list EventRecord)
    (d : Py.dict (list ScalarEvent)) (tag : string) :
  Py.dict_get (fold_left Accumulator.add_record records d) tag
  = collected (Py.dict_get d tag)
      (map event_of (filter (λ r, rec_tag r = tag) records)).
Proof.
  revert d. induction records as [|r records IH]; intros d; simpl.
  - destruct (Py.dict_get d tag); simpl; [by rewrite app_nil_r | done].
  - rewrite IH, add_record_get, filter_cons.
    destruct (String.eqb_spec (rec_tag r) tag) as [Heq|Hne].
    + rewrite decide_True by done. simpl. unfold collected.
      rewrite <- app_assoc. simpl.
      by destruct (Py.dict_get d tag), (map event_of _).
    + by rewrite decide_False.
Qed.


Lemma Reload_consumes (fs : node) (acc : EventAccumulator) :
  (length (Pathlib.read_records fs (acc_path acc))
   ≤ acc_offset (Accumulator.Reload fs acc))%nat.
Proof.
  unfold Accumulator.Reload. simpl. rewrite length_drop. lia.
Qed.

(** Reloading when nothing lies beyond the offset changes nothing. *)
Lemma Reload_unchanged (fs : node) (acc : EventAccumulator) :
  (length (Pathlib.read_records fs (acc_path acc)) ≤ acc_offset acc)%nat →
  Accumulator.Reload fs acc = acc.
Proof.
  intros Hle. unfold Accumulator.Reload.
  rewrite drop_ge by done. simpl. rewrite Nat.add_0_r. by destruct acc.
Qed.


(** The handle a [get] returns is stored under the path and has just been
    reloaded. *)
Lemma get_result (m : event_accumulator_module) (fs : node) (p : Path)
    (st st1 : state) (h : ref) :
  cache_inv st →
  get (Some m) fs p st = (Py.Ok h, st1) →
  ∃ acc0, acc_path acc0 = p
        ∧ heap st1 !! h = Some (Accumulator.Reload fs acc0)
        ∧ _cache st1 !! p = Some h
        ∧ (_cache st !! p = None → acc_offset acc0 = 0).
Proof.
  intros [Hvalid _] Hget. apply get_step in Hget.
  destruct (_cache st !! p) as [k|] eqn:Hp; destruct Hget as (Hr & Hheap & Hcache);
    injection Hr as ->; rewrite Hheap, Hcache.
  - destruct (Hvalid p k Hp) as (acc0 & Hacc0 & Hpath).
    exists acc0. split; [done|]. split; [|done].
    by rewrite list_lookup_alter_eq, Hacc0.
  - exists (Accumulator.new p (_default_size_guidance (Some m))).
    split; [done|]. split; [|split].
    + rewrite lookup_app_r by lia. by rewrite Nat.sub_diag.
    + apply lookup_insert_eq.
    + done.
Qed.



(** ** The samples returned by the metrics handler *)

Lemma slice_from_tail {A} (limit : Z) (l : list A) :
  (1 ≤ limit)%Z →
  Py.slice_from (- limit) l = last_n (Nat.min (Z.to_nat limit) (length l)) l.
Proof.
  intros Hlimit. unfold Py.slice_from, last_n.
  destruct (Z.ltb_spec (- limit) 0); [|lia].
  f_equal. lia.
Qed.

Lemma last_n_length {A} (n : nat) (l : list A) :
  length (last_n n l) = Nat.min n (length l).
Proof. unfold last_n. rewrite length_drop. lia. Qed.

Lemma last_n_suffix {A} (n : nat) (l : list A) : last_n n l `suffix_of` l.
Proof. apply suffix_drop. Qed.

Lemma dict_get_fmap {V W} (f : V → W) (d : Py.dict V) (k : string) :
  Py.dict_get (map (λ kv, (kv.1, f kv.2)) d) k = f <$> Py.dict_get d k.
Proof.
  induction d as [|[k0 v0] d IH]; simpl; [done|].
  by destruct (String.eqb k0 k).
Qed.

(** After the loop, every tag it visited maps to the tail slice of its
    series; the other keys of [data] are untouched. *)
Lemma collect_data_spec (acc : EventAccumulator) (limit : Z)
    (tags : list string) (data0 data : Py.dict (list json)) :
  collect_data acc limit tags data0 = Py.Ok data →
  ∀ tag,
    (tag ∈ tags →
       ∃ series, Accumulator.Scalars acc tag = Py.Ok series
               ∧ Py.dict_get data tag
                 = Some (map sample_json (Py.slice_from (- limit) series)))
    ∧ (tag ∉ tags → Py.dict_get data tag = Py.dict_get data0 tag).
Proof.
  revert data0. induction tags as [|t tags IH]; intros data0; simpl.
  - intros [= <-] tag. split; [by intros ?%not_elem_of_nil | done].
  - destruct (Accumulator.Scalars acc t) as [series|e] eqn:Hseries; simpl; [|done].
    intros Hrest tag. destruct (IH _ Hrest tag) as [Hin Hout].
    destruct (decide (tag ∈ tags)) as [Htag|Htag].
    + split; [by intros _; apply Hin|].
      intros Hnot. destruct Hnot. by apply list_elem_of_further.
    + split.
      * intros [->|?]%elem_of_cons; [|done].
        exists series. split; [done|].
        rewrite (Hout Htag), dict_get_set.
        by destruct (String.eqb_spec t t).
      * intros Hnot%not_elem_of_cons. destruct Hnot as [Hne _].
        rewrite (Hout Htag), dict_get_set.
        by destruct (String.eqb_spec t tag) as [->|].
Qed.

Lemma deref_ok (h : ref) (st st' : state) (acc : EventAccumulator) :
  deref h st = (Py.Ok acc, st') → st' = st ∧ heap st !! h = Some acc.
Proof.
  unfold deref. destruct (heap st !! h) as [a|]; [|done].
  by intros [= <- <-].
Qed.

Lemma collect_data_total (acc : EventAccumulator) (limit : Z)
    (tags : list string) (data0 : Py.dict (list json)) :
  (∀ tag, tag ∈ tags → tag ∈ Py.dict_keys (acc_scalars acc)) →
  ∃ data, collect_data acc limit tags data0 = Py.Ok data.
Proof.
  revert data0. induction tags as [|t tags IH]; intros data0 Hknown; simpl.
  - eauto.
  - unfold Accumulator.Scalars.
    destruct (proj1 (dict_get_keys _ _) (Hknown t (list_elem_of_here _ _)))
      as [series ->].
    simpl. apply IH. intros tag Htag. by apply Hknown, list_elem_of_further.
Qed.

(** A request that names a discovered pair is answered 200 when the
    dependency is there and the store is well-formed. *)
Lemma handle_metrics_succeeds (m : event_accumulator_module) (fs : node)
    (results_dir : Path) (query : list (string * string)) (st : state)
    (r b : string) (rs bs : list string) (runs : list BehaviorEventFile)
    (e : BehaviorEventFile) :
  cache_inv st →
  query_values "run" query = r :: rs →
  query_values "behavior" query = b :: bs →
  discover_runs fs results_dir = Py.Ok runs →
  e ∈ runs → run_id e = r → behavior e = b →
  ∃ resp st',
    handle_metrics (Some m) fs results_dir query st = (Py.Ok resp, st')
    ∧ status resp = 200%Z.
Proof.
  intros Hinv Hrun Hbeh Hdisc He Hr Hb.
  destruct (handle_metrics_resolved (Some m) _ _ _ _ _ _ _ _ Hrun Hbeh Hdisc)
    as (limit & _ & _ & ->).
  destruct (find_first_is_Some _ _ _ _ He Hr Hb) as [event_file ->].
  unfold except_RuntimeError, mbind.
  destruct (get_available m fs (event_path event_file) st) as (h & st1 & Hget).
  rewrite Hget.
  destruct (get_result _ _ _ _ _ _ Hinv Hget) as (acc0 & _ & Hh & _).
  unfold deref. rewrite Hh. unfold lift. simpl.
  destruct (collect_data_total (Accumulator.Reload fs acc0) limit
              (Py.dict_keys (acc_scalars (Accumulator.Reload fs acc0))) [])
    as [data Hdata]; [done|].
  simpl in Hdata. rewrite Hdata. simpl. eauto.
Qed.

(** C3: a metrics request that names a discovered pair whose newest event
    entry is a file succeeds, and a successful metrics request returns, for
    every scalar tag of the parsed handle, exactly the last min(limit, series
    length) samples of the series in their original order, each rendered as
    an object with the members step, value (a float) and wall_time. *)
Theorem handle_metrics_tail_slice (m : event_accumulator_module) (fs : node)
    (results_dir : Path) (query : list (string * string)) (st : state) :
  (∀ r b rs bs runs e,
     cache_inv st →
     query_values "run" query = r :: rs →
     query_values "behavior" query = b :: bs →
     discover_runs fs results_dir = Py.Ok runs →
     e ∈ runs → run_id e = r → behavior e = b →
     Pathlib.is_file fs (event_path e) = true →
     ∃ resp st',
       handle_metrics (Some m) fs results_dir query st = (Py.Ok resp, st')
       ∧ status resp = 200%Z)
  ∧ ∀ resp st',
      handle_metrics (Some m) fs results_dir query st = (Py.Ok resp, st') →
      status resp = 200%Z →
      ∃ limit event_file h acc data,
        request_limit (parse_qs query) = Py.Ok limit
        ∧ (1 ≤ limit ≤ 2000)%Z
        ∧ json_field (payload resp) "event_path"
          = Some (JStr (Pathlib.str (event_path event_file)))
        ∧ _cache st' !! event_path event_file = Some h
        ∧ heap st' !! h = Some acc
        ∧ json_field (payload resp) "tags"
          = Some (JArr (map JStr (Py.dict_keys (acc_scalars acc))))
        ∧ json_field (payload resp) "data" = Some (JObj data)
        ∧ ∀ tag, tag ∈ Py.dict_keys (acc_scalars acc) →
            ∃ series,
              Accumulator.Scalars acc tag = Py.Ok series
              ∧ Py.dict_get data tag
                = Some (JArr (map
                     (λ ev, JObj [("step", JInt (step ev));
                                  ("value", JFloat (value ev));
                                  ("wall_time", JFloat (wall_time ev))])
                     (last_n (Nat.min (Z.to_nat limit) (length series)) series))).
Proof.
  split.
  { intros r b rs bs runs e Hinv Hr Hb Hdisc He Hre Hbe _.
    by eapply handle_metrics_succeeds. }
  intros resp st' Hrun H200.
  destruct (query_values "run" query) as [|r rs] eqn:Hr.
  { rewrite handle_metrics_missing_parameter in Hrun by (by left).
    injection Hrun as <- <-. done. }
  destruct (query_values "behavior" query) as [|b bs] eqn:Hb.
  { rewrite handle_metrics_missing_parameter in Hrun by (by right).
    injection Hrun as <- <-. done. }
  destruct (discover_runs fs results_dir) as [runs|e] eqn:Hdisc.
  2:{ by rewrite (handle_metrics_discovery_fails _ _ _ _ _ _ _ _ _ _ Hr Hb Hdisc) in Hrun. }
  destruct (handle_metrics_resolved (Some m) _ _ _ _ _ _ _ _ Hr Hb Hdisc)
    as (limit & Hlimit & Hrange & Heq).
  rewrite Heq in Hrun. clear Heq.
  destruct (find_first runs r b) as [event_file|].
  2:{ injection Hrun as <- <-. done. }
  unfold except_RuntimeError, mbind in Hrun.
  destruct (get (Some m) fs (event_path event_file) st) as [res st1] eqn:Hget.
  destruct (get_returns_entry _ _ _ _ _ _ Hget) as (h & -> & Hentry).
  destruct (deref h st1) as [[acc|e] st2] eqn:Hderef.
  2:{ apply deref_raises in Hderef as ->. done. }
  apply deref_ok in Hderef as [-> Hacc].
  unfold lift in Hrun. simpl in Hrun.
  destruct (collect_data acc limit _ []) as [data|e] eqn:Hdata.
  2:{ apply collect_data_raises in Hdata as [key ->]. done. }
  injection Hrun as <- <-.
  exists limit, event_file, h, acc, (map (λ kv, (kv.1, JArr kv.2)) data).
  repeat (split; [done|]).
  intros tag Htag.
  destruct (collect_data_spec _ _ _ _ _ Hdata tag) as [Hin _].
  destruct (Hin Htag) as (series & Hseries & Hget_tag).
  exists series. split; [done|].
  rewrite dict_get_fmap, Hget_tag. simpl.
  by rewrite slice_from_tail by lia.
Qed.

Lemma handle_metrics_tail_slice_witness :
  let query := [("run", "run1"); ("behavior", "AgentA"); ("limit", "1")] in
  ∃ resp st' data,
    handle_metrics (Some sample_module) sample_tree_grown ["results"] query
      EventCache_init = (Py.Ok resp, st')
    ∧ status resp = 200%Z
    ∧ json_field (payload resp) "data" = Some (JObj data)
    ∧ Py.dict_get data "reward"
      = Some (JArr [JObj [("step", JInt 10); ("value", JFloat 10);
                          ("wall_time", JFloat 0)]]).
Proof.
  intros query.
  destruct (handle_metrics_tail_slice sample_module sample_tree_grown
              ["results"] query EventCache_init) as [Hsucceeds Htail].
  destruct (Hsucceeds "run1" "AgentA" [] [] _
              {| run_id := "run1"; behavior := "AgentA";
                 event_path := ["results"; "run1"; "AgentA";
                                "events.out.tfevents.2"];
                 updated_at := 8 |}
              cache_inv_init eq_refl eq_refl eq_refl (list_elem_of_here _ _)
              eq_refl eq_refl eq_refl)
    as (resp & st' & Hrun & H200).
  destruct (Htail resp st' Hrun H200)
    as (limit & event_file & h & acc & data & _ & _ & _ & _ & _ & _ & Hdata & _).
  exists resp, st', data.
  split; [exact Hrun|]. split; [exact H200|]. split; [exact Hdata|].
  vm_compute in Hrun. injection Hrun as <- <-.
  vm_compute in Hdata. injection Hdata as <-. reflexivity.
Defined.

(** The scenario of the specification: with the steps 1 to 300 logged under
    [reward], a request with limit 50 returns the steps 251 to 300. *)
Example metrics_last_fifty :
  ∃ data samples,
    json_field
      (match (handle_metrics (Some sample_module) long_tree ["results"]
                [("run", "run1"); ("behavior", "AgentA"); ("limit", "50")]
                EventCache_init).1 with
       | Py.Ok resp => payload resp
       | Py.Raise _ => JNull
       end) "data" = Some (JObj data)
    ∧ Py.dict_get data "reward" = Some (JArr samples)
    ∧ map (λ s, json_field s "step") samples
      = map (λ n, Some (JInt (Z.of_nat n))) (seq 251 50).
Proof.
  eexists _, _. split; [|split]; vm_compute; reflexivity.
Qed.

(** ** Sorting *)

Section sorting.
Context {A : Type} (lt : A → A → bool) (le : A → A → Prop).
Hypothesis lt_le : ∀ x y, lt x y = true → le x y.
Hypothesis nlt_le : ∀ x y, lt x y = false → le y x.
Hypothesis le_trans : ∀ x y z, le x y → le y z → le x z.

Lemma insert_perm (x : A) (l : list A) : Py.insert lt x l ≡ₚ x :: l.
Proof.
  induction l as [|y l IH]; simpl; [done|].
  destruct (lt x y); [done|]. rewrite IH. apply Permutation_swap.
Qed.

Lemma insert_sorted (x : A) (l : list A) :
  StronglySorted le l → StronglySorted le (Py.insert lt x l).
Proof using lt_le nlt_le le_trans.
  induction 1 as [|y l Hsorted IH Hall]; simpl.
  - repeat constructor.
  - destruct (lt x y) eqn:Hxy.
    + constructor; [by constructor|].
      constructor; [by apply lt_le|].
      eapply Forall_impl; [exact Hall|]. intros z Hz.
      eapply le_trans; [by apply lt_le | done].
    + constructor; [done|].
      rewrite insert_perm. constructor; [by apply nlt_le | done].
Qed.

Lemma sorted_fold_perm (l acc : list A) :
  fold_left (λ acc x, Py.insert lt x acc) l acc ≡ₚ l ++ acc.
Proof.
  revert acc. induction l as [|x l IH]; intros acc; simpl; [done|].
  rewrite IH, insert_perm. by rewrite Permutation_middle.
Qed.

Lemma sorted_fold_sorted (l acc : list A) :
  StronglySorted le acc →
  StronglySorted le (fold_left (λ acc x, Py.insert lt x acc) l acc).
Proof using lt_le nlt_le le_trans.
  revert acc. induction l as [|x l IH]; intros acc Hacc; simpl; [done|].
  apply IH. by apply insert_sorted.
Qed.

Lemma sorted_perm (l : list A) : Py.sorted lt l ≡ₚ l.
Proof. unfold Py.sorted. rewrite sorted_fold_perm. by rewrite app_nil_r. Qed.

Lemma sorted_sorted (l : list A) : StronglySorted le (Py.sorted lt l).
Proof using lt_le nlt_le le_trans.
  apply sorted_fold_sorted. constructor.
Qed.
End sorting.

(** ** Comparing floats *)

Lemma flt_true (a b : Q) : Py.flt a b = true → (a <= b)%Q.
Proof.
  unfold Py.flt. intros H%negb_true_iff.
  destruct (Qlt_le_dec a b) as [Hlt|Hle]; [by apply Qlt_le_weak|].
  apply Qle_bool_iff in Hle. congruence.
Qed.

Lemma flt_false (a b : Q) : Py.flt a b = false → (b <= a)%Q.
Proof.
  unfold Py.flt. intros H%negb_false_iff. by apply Qle_bool_iff.
Qed.

Lemma max2_cases (a b : Q) :
  (Py.max2 a b = a ∨ Py.max2 a b = b) ∧ (a <= Py.max2 a b)%Q ∧ (b <= Py.max2 a b)%Q.
Proof.
  unfold Py.max2. destruct (Py.flt a b) eqn:Hab.
  - split; [by right|]. split; [by apply flt_true | apply Qle_refl].
  - split; [by left|]. split; [apply Qle_refl | by apply flt_false].
Qed.

(** ** The runs listing *)

Lemma group_run_get (r : BehaviorEventFile) (d : Py.dict run_summary) (k : string) :
  Py.dict_get (group_run r d) k
  = if String.eqb (run_id r) k
    then Some (grown r (default (opened r) (Py.dict_get d k)))
    else Py.dict_get d k.
Proof.
  unfold group_run, Py.dict_contains. rewrite !dict_get_alter.
  destruct (String.eqb_spec (run_id r) k) as [<-|Hne].
  - destruct (Py.dict_get d (run_id r)) as [g|] eqn:Hg; simpl.
    + by rewrite Hg.
    + rewrite dict_get_set. by destruct (String.eqb_spec (run_id r) (run_id r)).
  - destruct (Py.dict_get d (run_id r)); simpl; [done|].
    rewrite dict_get_set. by destruct (String.eqb_spec (run_id r) k).
Qed.

Lemma group_run_keys (r : BehaviorEventFile) (d : Py.dict run_summary) :
  Py.dict_keys (group_run r d)
  = if Py.dict_contains d (run_id r) then Py.dict_keys d
    else Py.dict_keys d ++ [run_id r].
Proof.
  unfold group_run. rewrite !dict_keys_alter.
  destruct (Py.dict_contains d (run_id r)) eqn:Hc; simpl; [done|].
  by rewrite dict_keys_set, Hc.
Qed.

Lemma members_snoc (k : string) (l : list BehaviorEventFile) (r : BehaviorEventFile) :
  members k (l ++ [r])
  = if decide (run_id r = k) then members k l ++ [r] else members k l.
Proof.
  unfold members. rewrite filter_app, filter_cons, filter_nil.
  destruct (decide (run_id r = k)); [done | by rewrite app_nil_r].
Qed.

Lemma members_nil (k : string) (l : list BehaviorEventFile) :
  k ∉ map run_id l → members k l = [].
Proof.
  intros Hk. unfold members. induction l as [|x l IH]; [done|].
  rewrite filter_cons. simpl in Hk. apply not_elem_of_cons in Hk as [Hne Hk].
  rewrite decide_False by done. by apply IH.
Qed.

Lemma dict_contains_keys {V} (d : Py.dict V) (k : string) :
  Py.dict_contains d k = true ↔ k ∈ Py.dict_keys d.
Proof.
  rewrite dict_get_keys. unfold Py.dict_contains.
  destruct (Py.dict_get d k); split; try done; by intros [? ?].
Qed.

Lemma grouping_step (l : list BehaviorEventFile) (r : BehaviorEventFile)
    (d : Py.dict run_summary) :
  grouping_inv l d → grouping_inv (l ++ [r]) (group_run r d).
Proof.
  intros [Hnodup Hkeys Hgroups]. split.
  - rewrite group_run_keys.
    destruct (Py.dict_contains d (run_id r)) eqn:Hc; [done|].
    apply NoDup_app. split; [done|]. split; [|apply NoDup_singleton].
    intros k Hk ->%list_elem_of_singleton.
    apply dict_contains_keys in Hk. congruence.
  - intros k. rewrite group_run_keys, map_app, elem_of_app. simpl.
    rewrite list_elem_of_singleton, <- Hkeys.
    destruct (Py.dict_contains d (run_id r)) eqn:Hc.
    + apply dict_contains_keys in Hc. split; [by left|].
      intros [? | ->]; done.
    + rewrite elem_of_app, list_elem_of_singleton. done.
  - intros k g. rewrite group_run_get, members_snoc.
    destruct (String.eqb_spec (run_id r) k) as [<-|Hne].
    2:{ rewrite decide_False by done. apply Hgroups. }
    rewrite decide_True by done. intros [= <-].
    destruct (Py.dict_get d (run_id r)) as [g|] eqn:Hg; simpl.
    + destruct (Hgroups _ _ Hg) as (Hid & Hbeh & Hin & Hmax).
      destruct (max2_cases (rs_latest_update g) (updated_at r)) as (Hcase & Hl & Hr).
      split; [done|]. split; [by rewrite Hbeh, map_app|]. split.
      * rewrite map_app, elem_of_app. simpl. rewrite list_elem_of_singleton.
        destruct Hcase as [-> | ->]; [by left | by right].
      * intros x [Hx | ->%list_elem_of_singleton]%elem_of_app; [|done].
        eapply Qle_trans; [by apply Hmax | done].
    + assert (Hnone : members (run_id r) l = []).
      { apply members_nil. rewrite <- Hkeys, dict_get_keys, Hg. by intros [? ?]. }
      rewrite Hnone. simpl.
      destruct (max2_cases (updated_at r) (updated_at r)) as (Hcase & Hl & _).
      split; [done|]. split; [done|]. split.
      * apply list_elem_of_singleton. by destruct Hcase.
      * by intros x ->%list_elem_of_singleton.
Qed.

Lemma grouping_loop (runs : list BehaviorEventFile) :
  grouping_inv runs (Py.for_ runs group_run []).
Proof.
  induction runs as [|r l IH] using rev_ind.
  - split; [constructor | done | done].
  - rewrite for_app. simpl. by apply grouping_step.
Qed.

Lemma dict_in_get {V} (d : Py.dict V) (k : string) (v : V) :
  NoDup (Py.dict_keys d) → (k, v) ∈ d → Py.dict_get d k = Some v.
Proof.
  unfold Py.dict_keys. induction d as [|[k0 v0] d IH]; simpl.
  - by intros _ ?%not_elem_of_nil.
  - intros [Hk0 Hnodup]%NoDup_cons [[= -> ->] | Hin]%elem_of_cons.
    + by destruct (String.eqb_spec k0 k0).
    + destruct (String.eqb_spec k0 k) as [->|Hne]; [|by apply IH].
      destruct Hk0. apply list_elem_of_fmap. by exists (k, v).
Qed.

Lemma grouped_ids (runs : list BehaviorEventFile) :
  map rs_id (Py.dict_values (Py.for_ runs group_run []))
  = Py.dict_keys (Py.for_ runs group_run []).
Proof.
  destruct (grouping_loop runs) as [Hnodup _ Hgroups].
  assert (Hid : ∀ k g, (k, g) ∈ Py.for_ runs group_run [] → rs_id g = k).
  { intros k g Hin. by destruct (Hgroups k g (dict_in_get _ _ _ Hnodup Hin)). }
  clear Hnodup Hgroups. unfold Py.dict_values, Py.dict_keys.
  induction (Py.for_ runs group_run []) as [|[k g] d IH]; simpl; [done|].
  f_equal.
  - apply Hid, list_elem_of_here.
  - apply IH. intros k' g' Hin. by apply Hid, list_elem_of_further.
Qed.

Lemma listing_perm (runs : list BehaviorEventFile) :
  runs_listing runs ≡ₚ Py.dict_values (Py.for_ runs group_run []).
Proof. apply sorted_perm. Qed.

(** C5: the runs listing has one summary per discovered run id; a summary
    carries the id, the behaviors of that run in discovery order with their
    file path and modification time, and as latest_update the greatest of
    those modification times; the summaries are in ascending order of
    latest_update, and that list is what the handler sends under [runs]. *)
Theorem runs_listing_grouped_sorted (runs : list BehaviorEventFile) :
  let listing := runs_listing runs in
  StronglySorted (λ x y, (rs_latest_update x <= rs_latest_update y)%Q) listing
  ∧ NoDup (map rs_id listing)
  ∧ (∀ k, k ∈ map rs_id listing ↔ k ∈ map run_id runs)
  ∧ (∀ g, g ∈ listing →
       rs_behaviors g
       = map (λ r, {| bs_name := behavior r;
                      bs_event_path := Pathlib.str (event_path r);
                      bs_updated_at := updated_at r |})
           (filter (λ r, run_id r = rs_id g) runs)
       ∧ rs_latest_update g ∈ map bs_updated_at (rs_behaviors g)
       ∧ ∀ b, b ∈ rs_behaviors g → (bs_updated_at b <= rs_latest_update g)%Q)
  ∧ (∀ fs results_dir,
       discover_runs fs results_dir = Py.Ok runs →
       handle_runs fs results_dir
       = Py.Ok {| status := 200;
                  payload := JObj [("runs", JArr (map run_json listing))] |}).
Proof.
  intros listing. subst listing.
  destruct (grouping_loop runs) as [Hnodup Hkeys Hgroups].
  split; [|split; [|split; [|split]]].
  - unfold runs_listing.
    apply (sorted_sorted _ (λ x y, (rs_latest_update x <= rs_latest_update y)%Q)).
    + intros x y. apply flt_true.
    + intros x y. apply flt_false.
    + intros x y z. apply Qle_trans.
  - rewrite listing_perm, grouped_ids. done.
  - intros k. rewrite listing_perm, grouped_ids. apply Hkeys.
  - intros g Hg. rewrite listing_perm in Hg.
    apply list_elem_of_fmap in Hg as [[k g'] [-> Hin]]. simpl.
    destruct (Hgroups k g' (dict_in_get _ _ _ Hnodup Hin)) as (Hid & Hbeh & Hin' & Hmax).
    rewrite Hid. fold (members k runs). split; [done|]. split.
    + rewrite Hbeh, <- list_fmap_compose. done.
    + intros b. rewrite Hbeh. intros [r [-> Hr]]%list_elem_of_fmap. by apply Hmax.
  - intros fs results_dir Hdisc. unfold handle_runs. by rewrite Hdisc.
Qed.

(** ** The name order *)

Lemma compare_as_OT (a b : string) : String.compare a b = String_as_OT.compare a b.
Proof.
  revert b. induction a as [|c a IH]; intros [|c' b]; simpl; try done;
    by rewrite IH.
Qed.

Lemma ltb_lt (a b : string) : String.ltb a b = true ↔ String_as_OT.lt a b.
Proof.
  unfold String.ltb, String_as_OT.lt. rewrite compare_as_OT.
  by destruct (String_as_OT.compare a b).
Qed.

Lemma ltb_irrefl (a : string) : String.ltb a a = false.
Proof.
  destruct (String.ltb a a) eqn:H; [|done].
  apply ltb_lt in H. by apply (StrictOrder_Irreflexive (R := String_as_OT.lt)) in H.
Qed.

Lemma ltb_asym (a b : string) : String.ltb a b = true → String.ltb b a = false.
Proof.
  intros Hab. destruct (String.ltb b a) eqn:Hba; [|done].
  apply ltb_lt in Hab, Hba.
  pose proof (StrictOrder_Transitive (R := String_as_OT.lt) _ _ _ Hab Hba) as H.
  by apply (StrictOrder_Irreflexive (R := String_as_OT.lt)) in H.
Qed.

Lemma name_le_cases (a b : string) : name_le a b ↔ a = b ∨ String_as_OT.lt a b.
Proof.
  unfold name_le. split.
  - intros Hba.
    destruct (String_as_OT.compare_spec a b) as [Heq|Hlt|Hgt]; [by left | by right |].
    apply ltb_lt in Hgt. congruence.
  - intros [->|Hlt]; [apply ltb_irrefl | by apply ltb_asym, ltb_lt].
Qed.

Lemma name_le_trans (a b c : string) : name_le a b → name_le b c → name_le a c.
Proof.
  rewrite !name_le_cases. intros [->|Hab] [->|Hbc]; auto.
  right. by apply (StrictOrder_Transitive (R := String_as_OT.lt) _ _ _ Hab Hbc).
Qed.

Lemma sorted_names_sorted (names : list string) :
  StronglySorted name_le (Py.sorted String.ltb names).
Proof.
  apply sorted_sorted.
  - intros x y. apply ltb_asym.
  - intros x y H. exact H.
  - apply name_le_trans.
Qed.

(** ** Paths *)

Lemma path_ltb_child (d : Path) (a b : string) :
  Pathlib.ltb (Pathlib.child d a) (Pathlib.child d b) = String.ltb a b.
Proof.
  unfold Pathlib.child. induction d as [|c d IH]; simpl.
  - destruct (String.ltb a b) eqn:Hab; [done|]. by destruct (String.ltb b a).
  - by rewrite ltb_irrefl.
Qed.

Lemma insert_fmap {A B} (f : A → B) (lt1 : A → A → bool) (lt2 : B → B → bool)
    (x : A) (l : list A) :
  (∀ a b, lt2 (f a) (f b) = lt1 a b) →
  Py.insert lt2 (f x) (map f l) = map f (Py.insert lt1 x l).
Proof.
  intros Hlt. induction l as [|y l IH]; simpl; [done|].
  rewrite Hlt. destruct (lt1 x y); simpl; [done | by rewrite IH].
Qed.

Lemma sorted_fmap {A B} (f : A → B) (lt1 : A → A → bool) (lt2 : B → B → bool)
    (l : list A) :
  (∀ a b, lt2 (f a) (f b) = lt1 a b) →
  Py.sorted lt2 (map f l) = map f (Py.sorted lt1 l).
Proof.
  intros Hlt. unfold Py.sorted.
  change (@nil B) with (map f []). generalize (@nil A).
  induction l as [|x l IH]; intros acc; simpl; [done|].
  rewrite (insert_fmap f lt1 lt2) by done. apply IH.
Qed.

Lemma name_child (p : Path) (n : string) : Pathlib.name (Pathlib.child p n) = n.
Proof. unfold Pathlib.name, Pathlib.child. apply List.last_last. Qed.

Lemma resolve_child (fs : node) (p : Path) (n : string) :
  Pathlib.resolve fs (Pathlib.child p n)
  = match Pathlib.resolve fs p with
    | Some (Dir _ entries) => Pathlib.find_entry n entries
    | _ => None
    end.
Proof.
  unfold Pathlib.child. revert fs. induction p as [|c p IH]; intros fs; simpl.
  - destruct fs as [|m entries]; [done|].
    by destruct (Pathlib.find_entry n entries).
  - destruct fs as [|m entries]; [done|].
    destruct (Pathlib.find_entry c entries); [apply IH | done].
Qed.

Lemma find_entry_elem (n : string) (entries : list (string * node)) (c : node) :
  Pathlib.find_entry n entries = Some c → (n, c) ∈ entries.
Proof.
  induction entries as [|[k x] entries IH]; simpl; [done|].
  destruct (String.eqb_spec k n) as [->|Hne].
  - intros [= ->]. apply list_elem_of_here.
  - intros H. by apply list_elem_of_further, IH.
Qed.

Lemma find_entry_names (n : string) (entries : list (string * node)) :
  is_Some (Pathlib.find_entry n entries) ↔ n ∈ map fst entries.
Proof.
  induction entries as [|[k x] entries IH]; simpl.
  - split; [by intros [? ?] | by intros ?%not_elem_of_nil].
  - rewrite elem_of_cons, <- IH.
    destruct (String.eqb_spec k n) as [->|Hne]; split; eauto.
    intros [?|?]; [congruence | done].
Qed.

Lemma wf_resolve (fs : node) (p : Path) (n : node) :
  wf_node fs = true → Pathlib.resolve fs p = Some n → wf_node n = true.
Proof.
  revert fs. induction p as [|c p IH]; intros fs Hwf; simpl.
  - by intros [= <-].
  - destruct fs as [|m entries]; [done|].
    destruct (Pathlib.find_entry c entries) as [x|] eqn:Hfind; [|done].
    apply IH. simpl in Hwf. apply andb_true_iff in Hwf as [_ Hall].
    rewrite forallb_forall in Hall.
    apply find_entry_elem, list_elem_of_In in Hfind. by apply (Hall _ Hfind).
Qed.

Lemma wf_listdir (fs : node) (p : Path) :
  wf_node fs = true → NoDup (Pathlib.listdir fs p).
Proof.
  intros Hwf. unfold Pathlib.listdir.
  destruct (Pathlib.resolve fs p) as [[|m entries]|] eqn:Hres; try constructor.
  apply (wf_resolve _ _ _ Hwf) in Hres. simpl in Hres.
  apply andb_true_iff in Hres as [Hnodup _]. by apply bool_decide_eq_true in Hnodup.
Qed.

(** ** Run discovery *)

Lemma max_from_spec {A} (key : A → Q) (x : A) (l : list A) :
  Py.max_from key x l ∈ x :: l
  ∧ ∀ y, y ∈ x :: l → (key y <= key (Py.max_from key x l))%Q.
Proof.
  revert x. induction l as [|y l IH]; intros x; simpl.
  - split; [apply list_elem_of_here|].
    intros y ->%list_elem_of_singleton. apply Qle_refl.
  - set (best := if Py.flt (key x) (key y) then y else x).
    destruct (IH best) as [Hin Hmax].
    assert (Hbest : best ∈ [x; y] ∧ (key x <= key best)%Q ∧ (key y <= key best)%Q).
    { subst best. destruct (Py.flt (key x) (key y)) eqn:Hxy.
      - split; [set_solver|]. split; [by apply flt_true | apply Qle_refl].
      - split; [set_solver|]. split; [apply Qle_refl | by apply flt_false]. }
    destruct Hbest as (Hb & Hx & Hy). split.
    + apply elem_of_cons in Hin as [-> | Hin]; [set_solver|].
      by apply list_elem_of_further, list_elem_of_further.
    + intros z [-> | [-> | Hz]%elem_of_cons]%elem_of_cons.
      * eapply Qle_trans; [exact Hx|]. apply Hmax, list_elem_of_here.
      * eapply Qle_trans; [exact Hy|]. apply Hmax, list_elem_of_here.
      * by apply Hmax, list_elem_of_further.
Qed.

(** A loop whose body only appends yields the concatenation of what each
    round appends. *)
Lemma for_appends {A B} (body : A → list B → list B) (out : A → list B)
    (xs : list A) (s : list B) :
  (∀ x s, body x s = s ++ out x) →
  Py.for_ xs body s = s ++ (xs ≫= out).
Proof.
  intros Hbody. revert s. induction xs as [|x xs IH]; intros s.
  - simpl. by rewrite app_nil_r.
  - rewrite for_cons, IH, Hbody, bind_cons. by rewrite app_assoc.
Qed.

Lemma bind_map {A B C} (f : A → B) (g : B → list C) (l : list A) :
  map f l ≫= g = l ≫= (λ x, g (f x)).
Proof.
  induction l as [|x l IH]; [done|].
  rewrite map_cons, !bind_cons. by rewrite IH.
Qed.

Lemma discover_behavior_appends (fs : node) (run_dir behavior_dir : Path)
    (runs : list BehaviorEventFile) :
  discover_behavior fs run_dir behavior_dir runs
  = runs ++ discover_behavior fs run_dir behavior_dir [].
Proof.
  unfold discover_behavior.
  destruct (Pathlib.is_dir fs behavior_dir); simpl; [|by rewrite app_nil_r].
  destruct (Pathlib.glob fs behavior_dir _); [by rewrite app_nil_r | done].
Qed.

Lemma glob_is_dir (fs : node) (p : Path) (prefix : string) :
  Pathlib.glob fs p prefix ≠ [] → Pathlib.is_dir fs p = true.
Proof.
  unfold Pathlib.glob, Pathlib.listdir, Pathlib.is_dir.
  by destruct (Pathlib.resolve fs p) as [[|m entries]|].
Qed.

Lemma is_dir_child (fs : node) (p : Path) (n : string) :
  Pathlib.is_dir fs (Pathlib.child p n) = true →
  Pathlib.is_dir fs p = true ∧ n ∈ Pathlib.listdir fs p.
Proof.
  unfold Pathlib.is_dir, Pathlib.listdir. rewrite resolve_child.
  destruct (Pathlib.resolve fs p) as [[|m entries]|]; try done.
  destruct (Pathlib.find_entry n entries) eqn:Hfind; [|done].
  intros _. split; [done|]. apply find_entry_names. by rewrite Hfind.
Qed.

(** The contribution of one behavior directory: nothing without a matching
    file, otherwise the single entry of the most recently modified match. *)
Lemma entries_of_behavior_spec (fs : node) (run_dir : Path) (b : string) :
  match Pathlib.glob fs (Pathlib.child run_dir b) event_prefix with
  | [] => entries_of_behavior fs run_dir b = []
  | first :: others =>
      entries_of_behavior fs run_dir b
      = [ {| run_id := Pathlib.name run_dir; behavior := b;
             event_path := Py.max_from (Pathlib.st_mtime fs) first others;
             updated_at := Pathlib.st_mtime fs
                             (Py.max_from (Pathlib.st_mtime fs) first others) |} ]
  end.
Proof.
  unfold entries_of_behavior, discover_behavior. fold event_prefix.
  destruct (Pathlib.glob fs (Pathlib.child run_dir b) event_prefix)
    as [|first others] eqn:Hglob.
  - by destruct (Pathlib.is_dir fs _).
  - rewrite (glob_is_dir fs _ event_prefix) by (by rewrite Hglob).
    simpl. by rewrite name_child.
Qed.

Lemma entries_of_behavior_elem (fs : node) (run_dir : Path) (b : string)
    (e : BehaviorEventFile) :
  e ∈ entries_of_behavior fs run_dir b →
  run_id e = Pathlib.name run_dir ∧ behavior e = b
  ∧ event_path e ∈ Pathlib.glob fs (Pathlib.child run_dir b) event_prefix
  ∧ updated_at e = Pathlib.st_mtime fs (event_path e)
  ∧ ∀ f, f ∈ Pathlib.glob fs (Pathlib.child run_dir b) event_prefix →
      (Pathlib.st_mtime fs f <= updated_at e)%Q.
Proof.
  pose proof (entries_of_behavior_spec fs run_dir b) as Hspec.
  destruct (Pathlib.glob fs (Pathlib.child run_dir b) event_prefix)
    as [|first others]; rewrite Hspec.
  - by intros ?%not_elem_of_nil.
  - intros ->%list_elem_of_singleton. simpl.
    destruct (max_from_spec (Pathlib.st_mtime fs) first others) as [Hin Hmax].
    done.
Qed.

Lemma entries_of_behavior_length (fs : node) (run_dir : Path) (b : string) :
  length (entries_of_behavior fs run_dir b)
  = if decide (Pathlib.glob fs (Pathlib.child run_dir b) event_prefix = [])
    then 0 else 1.
Proof.
  pose proof (entries_of_behavior_spec fs run_dir b) as Hspec.
  destruct (Pathlib.glob fs (Pathlib.child run_dir b) event_prefix)
    as [|first others]; rewrite Hspec; done.
Qed.

Lemma discover_run_appends (fs : node) (run_dir : Path)
    (runs : list BehaviorEventFile) :
  discover_run fs run_dir runs
  = runs ++ (if Pathlib.is_dir fs run_dir
             then Pathlib.listdir fs run_dir ≫= entries_of_behavior fs run_dir
             else []).
Proof.
  unfold discover_run, Pathlib.is_dir, Pathlib.iterdir, Pathlib.listdir.
  destruct (Pathlib.resolve fs run_dir) as [[|m entries]|]; simpl;
    try by rewrite app_nil_r.
  rewrite (for_appends _ (λ bd, discover_behavior fs run_dir bd []))
    by apply discover_behavior_appends.
  f_equal. unfold entries_of_behavior. by rewrite !bind_map.
Qed.

Lemma entries_of_run_unfold (fs : node) (results_dir : Path) (r : string) :
  entries_of_run fs results_dir r
  = if Pathlib.is_dir fs (Pathlib.child results_dir r)
    then Pathlib.listdir fs (Pathlib.child results_dir r)
           ≫= entries_of_behavior fs (Pathlib.child results_dir r)
    else [].
Proof. unfold entries_of_run. by rewrite discover_run_appends. Qed.

(** Discovery over an existing directory: the runs in name order, each
    followed through its entries in listing order. *)
Lemma discover_runs_unfold (fs : node) (results_dir : Path) :
  Pathlib.is_dir fs results_dir = true →
  discover_runs fs results_dir
  = Py.Ok (Py.sorted String.ltb (Pathlib.listdir fs results_dir)
             ≫= entries_of_run fs results_dir).
Proof.
  unfold discover_runs, Pathlib.is_dir, Pathlib.exists_, Pathlib.iterdir,
    Pathlib.listdir.
  destruct (Pathlib.resolve fs results_dir) as [[|m entries]|]; try done.
  intros _. simpl. f_equal.
  rewrite (for_appends _ (λ rd, discover_run fs rd [])).
  2:{ intros rd s. rewrite discover_run_appends.
      by rewrite (discover_run_appends _ _ []). }
  simpl.
  replace (map (λ e : string * node, Pathlib.child results_dir e.1) entries)
    with (map (Pathlib.child results_dir) (map fst entries))
    by (by rewrite <- list_fmap_compose).
  rewrite (sorted_fmap _ String.ltb) by apply path_ltb_child.
  unfold entries_of_run. by rewrite bind_map.
Qed.

Lemma filter_none {A} (P : A → Prop) `{!∀ x, Decision (P x)} (l : list A) :
  (∀ x, x ∈ l → ¬ P x) → filter P l = [].
Proof.
  induction l as [|x l IH]; intros Hnot; [done|].
  rewrite filter_cons, decide_False by (apply Hnot, list_elem_of_here).
  apply IH. intros y Hy. by apply Hnot, list_elem_of_further.
Qed.

Lemma filter_all {A} (P : A → Prop) `{!∀ x, Decision (P x)} (l : list A) :
  (∀ x, x ∈ l → P x) → filter P l = l.
Proof.
  induction l as [|x l IH]; intros Hall; [done|].
  rewrite filter_cons, decide_True by (apply Hall, list_elem_of_here).
  f_equal. apply IH. intros y Hy. by apply Hall, list_elem_of_further.
Qed.

(** Among blocks labelled by distinct names, only the block of [r] holds
    elements with key [r]. *)
Lemma filter_bind_unique {A} (key : A → string) (P : A → Prop)
    `{!∀ x, Decision (P x)} (out : string → list A) (ns : list string)
    (r : string) :
  NoDup ns →
  (∀ n e, e ∈ out n → key e = n) →
  filter (λ e, key e = r ∧ P e) (ns ≫= out)
  = if decide (r ∈ ns) then filter (λ e, key e = r ∧ P e) (out r) else [].
Proof.
  intros Hnodup Hkey. induction ns as [|n ns IH]; [done|].
  apply NoDup_cons in Hnodup as [Hn Hnodup]. specialize (IH Hnodup).
  rewrite bind_cons, filter_app, IH.
  destruct (decide (r = n)) as [->|Hne].
  - rewrite (decide_False (P := n ∈ ns)) by done.
    rewrite (decide_True (P := n ∈ n :: ns)) by apply list_elem_of_here.
    by rewrite app_nil_r.
  - rewrite (filter_none _ (out n)).
    2:{ intros e He [Hr _]. apply Hkey in He. congruence. }
    simpl. destruct (decide (r ∈ ns)) as [Hin|Hin].
    + by rewrite (decide_True (P := r ∈ n :: ns))
        by (by apply list_elem_of_further).
    + rewrite (decide_False (P := r ∈ n :: ns)); [done|].
      by intros [?|?]%elem_of_cons.
Qed.

Lemma same_key_sorted {A} (R : string → string → Prop) (key : A → string)
    (n : string) (l : list A) :
  R n n → (∀ e, e ∈ l → key e = n) →
  StronglySorted (λ a b, R (key a) (key b)) l.
Proof.
  intros Hrefl. induction l as [|x l IH]; intros Hkey; constructor.
  - apply IH. intros e He. by apply Hkey, list_elem_of_further.
  - apply Forall_forall. intros y Hy.
    rewrite (Hkey x), (Hkey y);
      [done | by apply list_elem_of_further | apply list_elem_of_here].
Qed.

Lemma sorted_bind {A} (R : string → string → Prop) (key : A → string)
    (out : string → list A) (ns : list string) :
  (∀ n, R n n) →
  (∀ n e, e ∈ out n → key e = n) →
  StronglySorted R ns →
  StronglySorted (λ a b, R (key a) (key b)) (ns ≫= out).
Proof.
  intros Hrefl Hkey. induction 1 as [|n ns Hsorted IH Hall]; [constructor|].
  rewrite bind_cons. apply StronglySorted_app_2.
  - intros x1 x2 H1 [n' [H2 Hn']]%list_elem_of_bind.
    rewrite (Hkey _ _ H1), (Hkey _ _ H2).
    rewrite Forall_forall in Hall. by apply Hall.
  - apply (same_key_sorted R key n); [done | by apply Hkey].
  - done.
Qed.

Lemma entries_of_run_key (fs : node) (results_dir : Path) (r : string)
    (e : BehaviorEventFile) :
  e ∈ entries_of_run fs results_dir r →
  run_id e = r
  ∧ Pathlib.is_dir fs (Pathlib.child results_dir r) = true
  ∧ ∃ b, b ∈ Pathlib.listdir fs (Pathlib.child results_dir r)
       ∧ e ∈ entries_of_behavior fs (Pathlib.child results_dir r) b.
Proof.
  rewrite entries_of_run_unfold.
  destruct (Pathlib.is_dir fs (Pathlib.child results_dir r)) eqn:Hdir.
  - intros [b [He Hb]]%list_elem_of_bind.
    destruct (entries_of_behavior_elem _ _ _ _ He) as (Hrun & _).
    rewrite name_child in Hrun. eauto.
  - by intros ?%not_elem_of_nil.
Qed.

(** C4: [discover_runs] answers an absent root with the empty list. Over an
    existing results directory it lists the entries by run directory in name
    order; every entry stands for a behavior directory and names a matching
    file of greatest modification time there; and each pair of names
    (run, behavior) has no entry when nothing in the behavior directory
    matches the event-file pattern, and exactly one entry otherwise. As for
    [glob], a match is any entry of the directory whose name begins with
    [event_prefix]. *)
Theorem discover_runs_spec (fs : node) (results_dir : Path) :
  (Pathlib.exists_ fs results_dir = false →
   discover_runs fs results_dir = Py.Ok [])
  ∧ (wf_node fs = true →
     Pathlib.is_dir fs results_dir = true →
     ∃ runs,
       discover_runs fs results_dir = Py.Ok runs
       ∧ StronglySorted (λ e1 e2, name_le (run_id e1) (run_id e2)) runs
       ∧ (∀ e, e ∈ runs →
            let run_dir := Pathlib.child results_dir (run_id e) in
            let behavior_dir := Pathlib.child run_dir (behavior e) in
            Pathlib.is_dir fs run_dir = true
            ∧ Pathlib.is_dir fs behavior_dir = true
            ∧ event_path e ∈ Pathlib.glob fs behavior_dir event_prefix
            ∧ updated_at e = Pathlib.st_mtime fs (event_path e)
            ∧ ∀ f, f ∈ Pathlib.glob fs behavior_dir event_prefix →
                (Pathlib.st_mtime fs f <= updated_at e)%Q)
       ∧ (∀ r b,
            let behavior_dir := Pathlib.child (Pathlib.child results_dir r) b in
            length (filter (λ e, run_id e = r ∧ behavior e = b) runs)
            = if decide (Pathlib.glob fs behavior_dir event_prefix = [])
              then 0 else 1)).
Proof.
  split.
  { intros Habsent. unfold discover_runs. by rewrite Habsent. }
  intros Hwf Hdir. eexists. split; [by apply discover_runs_unfold|].
  set (names := Py.sorted String.ltb (Pathlib.listdir fs results_dir)).
  assert (Hnames : NoDup names).
  { unfold names. rewrite sorted_perm. by apply wf_listdir. }
  assert (Hkey : ∀ n e, e ∈ entries_of_run fs results_dir n → run_id e = n).
  { intros n e He. by destruct (entries_of_run_key _ _ _ _ He). }
  assert (Hmem : ∀ e, e ∈ names ≫= entries_of_run fs results_dir →
            Pathlib.is_dir fs (Pathlib.child results_dir (run_id e)) = true
            ∧ Pathlib.is_dir fs
                (Pathlib.child (Pathlib.child results_dir (run_id e)) (behavior e))
              = true
            ∧ event_path e
              ∈ Pathlib.glob fs
                  (Pathlib.child (Pathlib.child results_dir (run_id e)) (behavior e))
                  event_prefix
            ∧ updated_at e = Pathlib.st_mtime fs (event_path e)
            ∧ ∀ f,
                f ∈ Pathlib.glob fs
                      (Pathlib.child (Pathlib.child results_dir (run_id e)) (behavior e))
                      event_prefix →
                (Pathlib.st_mtime fs f <= updated_at e)%Q).
  { intros e [n [He Hn]]%list_elem_of_bind.
    destruct (entries_of_run_key _ _ _ _ He) as (<- & Hrun_dir & b & Hb & Hentry).
    destruct (entries_of_behavior_elem _ _ _ _ Hentry)
      as (_ & <- & Hpath & Hupdated & Hmax).
    split; [done|]. split; [|done].
    apply (glob_is_dir fs _ event_prefix). intros Hnil.
    rewrite Hnil in Hpath. by apply not_elem_of_nil in Hpath. }
  split; [|split].
  - apply (sorted_bind name_le run_id); [apply ltb_irrefl | done |].
    apply sorted_names_sorted.
  - intros e He. cbv zeta. by apply Hmem.
  - intros r b. cbv zeta.
    destruct (decide (Pathlib.glob fs
                (Pathlib.child (Pathlib.child results_dir r) b) event_prefix = []))
      as [Hglob|Hglob].
    + rewrite filter_none; [done|].
      intros e He [<- <-]. destruct (Hmem e He) as (_ & _ & Hpath & _).
      rewrite Hglob in Hpath. by apply not_elem_of_nil in Hpath.
    + pose proof (glob_is_dir _ _ _ Hglob) as Hbdir.
      apply is_dir_child in Hbdir as [Hrdir Hb].
      pose proof Hrdir as Hr. apply is_dir_child in Hr as [_ Hr].
      rewrite (filter_bind_unique run_id (λ e, behavior e = b)) by done.
      rewrite decide_True by (unfold names; by rewrite sorted_perm).
      rewrite entries_of_run_unfold, Hrdir.
      rewrite (list_filter_iff _ (λ e, behavior e = b ∧ run_id e = r))
        by (intros e; tauto).
      rewrite (filter_bind_unique behavior (λ e, run_id e = r)).
      2:{ by apply wf_listdir. }
      2:{ intros n e He.
          by destruct (entries_of_behavior_elem _ _ _ _ He) as (_ & ? & _). }
      rewrite decide_True by done.
      rewrite filter_all.
      2:{ intros e He.
          destruct (entries_of_behavior_elem _ _ _ _ He) as (Hrun & Hbeh & _).
          rewrite name_child in Hrun. done. }
      rewrite entries_of_behavior_length. by rewrite decide_False.
Qed.

Lemma discover_runs_spec_witness :
  ∃ runs,
    discover_runs sample_tree ["results"] = Py.Ok runs
    ∧ length (filter (λ e, run_id e = "run1" ∧ behavior e = "AgentA") runs) = 1
    ∧ length (filter (λ e, run_id e = "run1" ∧ behavior e = "Empty") runs) = 0.
Proof.
  destruct (proj2 (discover_runs_spec sample_tree ["results"]) eq_refl eq_refl)
    as (runs & Hruns & _ & _ & Hcount).
  exists runs. split; [exact Hruns|]. split.
  - rewrite (Hcount "run1" "AgentA"). reflexivity.
  - rewrite (Hcount "run1" "Empty"). reflexivity.
Defined.

Lemma runs_listing_grouped_sorted_witness :
  let runs := [sample_entry;
               {| run_id := "run2"; behavior := "AgentB";
                  event_path := ["results"; "run2"; "AgentB"; "events.out.tfevents.1"];
                  updated_at := 5 |}] in
  handle_runs sample_tree ["results"]
  = Py.Ok {| status := 200;
             payload := JObj [("runs", JArr (map run_json (runs_listing runs)))] |}.
Proof.
  intros runs.
  destruct (runs_listing_grouped_sorted runs) as (_ & _ & _ & _ & Hsent).
  apply Hsent. reflexivity.
Defined.

(** ** Worked examples *)

Example int_plain : Py.int_of_str "50" = Py.Ok 50%Z.
Proof. reflexivity. Qed.

Example int_spaces_sign : Py.int_of_str "  -1_000 " = Py.Ok (-1000)%Z.
Proof. reflexivity. Qed.

Example int_rejects_letters : Py.int_of_str "12a" = Py.Raise Py.ValueError.
Proof. reflexivity. Qed.

Example int_strips_tab_and_newline :
  Py.int_of_str (String (ascii_of_nat 9) (String "7" (String (ascii_of_nat 10) "")))
  = Py.Ok 7%Z.
Proof. reflexivity. Qed.

(** The unit separator 0x1F is no blank for [int]. *)
Example int_rejects_unit_separator :
  Py.int_of_str (String (ascii_of_nat 31) "7") = Py.Raise Py.ValueError.
Proof. reflexivity. Qed.

Example int_rejects_double_underscore :
  Py.int_of_str "1__0" = Py.Raise Py.ValueError.
Proof. reflexivity. Qed.

Example limit_too_large :
  request_limit (parse_qs [("limit", "999999")]) = Py.Ok 2000%Z.
Proof. reflexivity. Qed.

Example limit_unit_separator :
  request_limit (parse_qs [("limit", String (ascii_of_nat 31) "7")])
  = Py.Ok 200%Z.
Proof. reflexivity. Qed.

Example limit_negative :
  request_limit (parse_qs [("limit", "-3")]) = Py.Ok 1%Z.
Proof. reflexivity. Qed.

Example limit_blank_is_absent :
  request_limit (parse_qs [("limit", "")]) = Py.Ok 200%Z.
Proof. reflexivity. Qed.

Example discover_sample :
  discover_runs sample_tree ["results"]
  = Py.Ok [sample_entry;
           {| run_id := "run2"; behavior := "AgentB";
              event_path := ["results"; "run2"; "AgentB"; "events.out.tfevents.1"];
              updated_at := 5 |}].
Proof. reflexivity. Qed.

Example discover_missing_root : discover_runs sample_tree ["elsewhere"] = Py.Ok [].
Proof. reflexivity. Qed.

Example discover_root_is_file :
  discover_runs sample_tree ["results"; "run1"; "stray"]
  = Py.Raise Py.NotADirectoryError.
Proof. reflexivity. Qed.

Example empty_root_lists_no_runs :
  handle_runs (Dir 0 [("results", Dir 0 [])]) ["results"]
  = Py.Ok {| status := 200; payload := JObj [("runs", JArr [])] |}.
Proof. reflexivity. Qed.

(** * Further properties of the code *)

(** ** Discovery: errors, tie-break, paths *)

Lemma flt_lt (a b : Q) : Py.flt a b = true → (a < b)%Q.
Proof.
  unfold Py.flt. intros H%negb_true_iff. apply Qnot_le_lt. intros Hle.
  apply Qle_bool_iff in Hle. congruence.
Qed.

(** The running maximum splits what it has seen: strictly smaller keys
    before it, no greater key behind it. *)
Lemma max_from_split {A} (key : A → Q) (pre : list A) (best : A) (mid l : list A) :
  (∀ y, y ∈ pre → (key y < key best)%Q) →
  (∀ y, y ∈ mid → (key y <= key best)%Q) →
  ∃ l1 l2,
    pre ++ best :: mid ++ l = l1 ++ Py.max_from key best l :: l2
    ∧ (∀ y, y ∈ l1 → (key y < key (Py.max_from key best l))%Q)
    ∧ (∀ y, y ∈ l2 → (key y <= key (Py.max_from key best l))%Q).
Proof.
  revert pre best mid. induction l as [|x l IH]; intros pre best mid Hpre Hmid; simpl.
  - exists pre, mid. by rewrite app_nil_r.
  - destruct (Py.flt (key best) (key x)) eqn:Hbx.
    + apply flt_lt in Hbx.
      destruct (IH (pre ++ best :: mid) x []) as (l1 & l2 & Heq & H1 & H2).
      * intros y [Hy | [-> | Hy]%elem_of_cons]%elem_of_app.
        -- eapply Qlt_trans; [by apply Hpre | done].
        -- done.
        -- eapply Qle_lt_trans; [by apply Hmid | done].
      * by intros y ?%not_elem_of_nil.
      * exists l1, l2. split; [|done]. rewrite <- Heq.
        rewrite <- !app_assoc. simpl. done.
    + apply flt_false in Hbx.
      destruct (IH pre best (mid ++ [x])) as (l1 & l2 & Heq & H1 & H2).
      * done.
      * intros y [Hy | ->%list_elem_of_singleton]%elem_of_app; [by apply Hmid | done].
      * exists l1, l2. split; [|done]. rewrite <- Heq.
        rewrite <- !app_assoc. simpl. done.
Qed.

(** Where a discovered entry comes from. *)
Lemma discover_runs_elem (fs : node) (results_dir : Path)
    (runs : list BehaviorEventFile) (e : BehaviorEventFile) :
  discover_runs fs results_dir = Py.Ok runs →
  e ∈ runs →
  Pathlib.is_dir fs results_dir = true
  ∧ run_id e ∈ Pathlib.listdir fs results_dir
  ∧ Pathlib.is_dir fs (Pathlib.child results_dir (run_id e)) = true
  ∧ behavior e ∈ Pathlib.listdir fs (Pathlib.child results_dir (run_id e))
  ∧ e ∈ entries_of_behavior fs (Pathlib.child results_dir (run_id e)) (behavior e).
Proof.
  intros Hdisc He.
  destruct (Pathlib.is_dir fs results_dir) eqn:Hdir.
  - rewrite discover_runs_unfold in Hdisc by done. injection Hdisc as <-.
    apply list_elem_of_bind in He as [n [He Hn]].
    rewrite sorted_perm in Hn.
    destruct (entries_of_run_key _ _ _ _ He) as (<- & Hrun_dir & b & Hb & Hentry).
    destruct (entries_of_behavior_elem _ _ _ _ Hentry) as (_ & <- & _).
    done.
  - unfold discover_runs, Pathlib.exists_, Pathlib.iterdir in Hdisc.
    unfold Pathlib.is_dir in Hdir.
    destruct (Pathlib.resolve fs results_dir) as [[|m entries]|]; simpl in Hdisc;
      try done.
    injection Hdisc as <-. by apply not_elem_of_nil in He.
Qed.

(** The entries of a directory's glob resolve, and carry the prefix. *)
Lemma glob_elem (fs : node) (p : Path) (prefix : string) (f : Path) :
  f ∈ Pathlib.glob fs p prefix →
  ∃ name, f = Pathlib.child p name
        ∧ String.prefix prefix name = true
        ∧ name ∈ Pathlib.listdir fs p
        ∧ is_Some (Pathlib.resolve fs f).
Proof.
  unfold Pathlib.glob. intros [name [-> Hname]]%list_elem_of_fmap.
  apply list_elem_of_filter in Hname as [Hprefix Hin].
  exists name. repeat (split; [done|]).
  rewrite resolve_child. unfold Pathlib.listdir in Hin.
  destruct (Pathlib.resolve fs p) as [[|m entries]|];
    try by apply not_elem_of_nil in Hin.
  by apply find_entry_names.
Qed.

(** X1: among several matching files of a behavior directory the entry
    names the one listed first among those of greatest modification time:
    every match listed before it is strictly older, none listed after it is
    newer. *)
Theorem discover_runs_first_maximum (fs : node) (results_dir : Path)
    (runs : list BehaviorEventFile) (e : BehaviorEventFile) :
  discover_runs fs results_dir = Py.Ok runs →
  e ∈ runs →
  ∃ before after,
    Pathlib.glob fs
      (Pathlib.child (Pathlib.child results_dir (run_id e)) (behavior e))
      event_prefix
    = before ++ event_path e :: after
    ∧ (∀ f, f ∈ before → (Pathlib.st_mtime fs f < updated_at e)%Q)
    ∧ (∀ f, f ∈ after → (Pathlib.st_mtime fs f <= updated_at e)%Q).
Proof.
  intros Hdisc He.
  destruct (discover_runs_elem _ _ _ _ Hdisc He) as (_ & _ & _ & _ & Hentry).
  pose proof (entries_of_behavior_spec fs
                (Pathlib.child results_dir (run_id e)) (behavior e)) as Hspec.
  destruct (Pathlib.glob fs _ event_prefix) as [|first others].
  - rewrite Hspec in Hentry. by apply not_elem_of_nil in Hentry.
  - rewrite Hspec in Hentry. apply list_elem_of_singleton in Hentry as ->. simpl.
    destruct (max_from_split (Pathlib.st_mtime fs) [] first [] others)
      as (l1 & l2 & Heq & H1 & H2);
      [by intros ? ?%not_elem_of_nil | by intros ? ?%not_elem_of_nil |].
    simpl in Heq. by exists l1, l2.
Qed.

Lemma discover_runs_first_maximum_witness :
  ∃ before after,
    Pathlib.glob sample_tree ["results"; "run1"; "AgentA"] event_prefix
    = before ++ event_path sample_entry :: after
    ∧ (∀ f, f ∈ before → (Pathlib.st_mtime sample_tree f < 7)%Q)
    ∧ (∀ f, f ∈ after → (Pathlib.st_mtime sample_tree f <= 7)%Q).
Proof.
  apply (discover_runs_first_maximum sample_tree ["results"] _ sample_entry eq_refl).
  apply list_elem_of_here.
Defined.

(** X2: every discovered entry points three levels below the results
    directory, at results_dir/run_id/behavior/name with a name that begins
    with the event-file prefix; the path exists in the scanned tree and
    [updated_at] is its modification time. *)
Theorem discover_runs_event_path (fs : node) (results_dir : Path)
    (runs : list BehaviorEventFile) (e : BehaviorEventFile) :
  discover_runs fs results_dir = Py.Ok runs →
  e ∈ runs →
  ∃ name,
    event_path e = results_dir ++ [run_id e; behavior e; name]
    ∧ String.prefix "events.out.tfevents." name = true
    ∧ is_Some (Pathlib.resolve fs (event_path e))
    ∧ updated_at e = Pathlib.st_mtime fs (event_path e).
Proof.
  intros Hdisc He.
  destruct (discover_runs_elem _ _ _ _ Hdisc He) as (_ & _ & _ & _ & Hentry).
  destruct (entries_of_behavior_elem _ _ _ _ Hentry) as (_ & _ & Hpath & Hupd & _).
  destruct (glob_elem _ _ _ _ Hpath) as (name & Heq & Hprefix & _ & Hres).
  exists name. split; [|done].
  rewrite Heq. unfold Pathlib.child. by rewrite <- !app_assoc.
Qed.

Lemma discover_runs_event_path_witness :
  ∃ name,
    event_path sample_entry = ["results"] ++ ["run1"; "AgentA"; name]
    ∧ String.prefix "events.out.tfevents." name = true
    ∧ is_Some (Pathlib.resolve sample_tree (event_path sample_entry))
    ∧ updated_at sample_entry
      = Pathlib.st_mtime sample_tree (event_path sample_entry).
Proof.
  apply (discover_runs_event_path sample_tree ["results"] _ sample_entry eq_refl).
  apply list_elem_of_here.
Defined.

(** ** Resolving a (run, behavior) pair *)

(** What [find_first] finds in a discovery result is decided by the one
    directory results_dir/run/behavior. *)
Lemma find_first_discovered (fs : node) (results_dir : Path)
    (runs : list BehaviorEventFile) (r b : string) :
  discover_runs fs results_dir = Py.Ok runs →
  find_first runs r b
  = match Pathlib.glob fs (Pathlib.child (Pathlib.child results_dir r) b)
            event_prefix with
    | [] => None
    | first :: others =>
        Some {| run_id := r; behavior := b;
                event_path := Py.max_from (Pathlib.st_mtime fs) first others;
                updated_at := Pathlib.st_mtime fs
                                (Py.max_from (Pathlib.st_mtime fs) first others) |}
    end.
Proof.
  intros Hdisc.
  pose proof (entries_of_behavior_spec fs (Pathlib.child results_dir r) b) as Hspec.
  rewrite name_child in Hspec.
  destruct (Pathlib.glob fs _ event_prefix) as [|first others] eqn:Hglob.
  - apply find_first_None. intros e He [<- <-].
    destruct (discover_runs_elem _ _ _ _ Hdisc He) as (_ & _ & _ & _ & Hentry).
    rewrite Hspec in Hentry. by apply not_elem_of_nil in Hentry.
  - set (E := {| run_id := r; behavior := b;
                 event_path := Py.max_from (Pathlib.st_mtime fs) first others;
                 updated_at := Pathlib.st_mtime fs
                                 (Py.max_from (Pathlib.st_mtime fs) first others) |})
      in *.
    assert (HE : E ∈ runs).
    { assert (Hbdir : Pathlib.is_dir fs
                        (Pathlib.child (Pathlib.child results_dir r) b) = true).
      { apply (glob_is_dir fs _ event_prefix). by rewrite Hglob. }
      apply is_dir_child in Hbdir as [Hrdir Hb].
      pose proof Hrdir as Hr. apply is_dir_child in Hr as [Hroot Hr].
      rewrite discover_runs_unfold in Hdisc by done. injection Hdisc as <-.
      apply list_elem_of_bind. exists r. split; [|by rewrite sorted_perm].
      rewrite entries_of_run_unfold, Hrdir.
      apply list_elem_of_bind. exists b. split; [|done].
      rewrite Hspec. apply list_elem_of_here. }
    destruct (find_first_is_Some runs r b E HE eq_refl eq_refl) as [e' He'].
    rewrite He'. f_equal.
    apply find_first_Some in He' as (Hin & <- & <-).
    destruct (discover_runs_elem _ _ _ _ Hdisc Hin) as (_ & _ & _ & _ & Hentry).
    rewrite Hspec in Hentry. by apply list_elem_of_singleton in Hentry.
Qed.

(** X3: [_find_event_file(run, behavior)] depends on nothing but the
    directory results_dir/run/behavior: it returns None when no entry there
    matches the event-file pattern, and otherwise the record of the first
    most recently modified match, with the requested names as run id and
    behavior. *)
Theorem _find_event_file_closed_form (fs : node) (results_dir : Path)
    (runs : list BehaviorEventFile) (r b : string) :
  discover_runs fs results_dir = Py.Ok runs →
  _find_event_file fs results_dir r b
  = Py.Ok
      match Pathlib.glob fs (Pathlib.child (Pathlib.child results_dir r) b)
              "events.out.tfevents." with
      | [] => None
      | first :: others =>
          Some {| run_id := r; behavior := b;
                  event_path := Py.max_from (Pathlib.st_mtime fs) first others;
                  updated_at := Pathlib.st_mtime fs
                                  (Py.max_from (Pathlib.st_mtime fs) first others) |}
      end.
Proof.
  intros Hdisc. unfold _find_event_file. rewrite Hdisc. simpl. f_equal.
  by apply find_first_discovered.
Qed.

Lemma _find_event_file_closed_form_witness :
  _find_event_file sample_tree ["results"] "run1" "AgentA" = Py.Ok (Some sample_entry)
  ∧ _find_event_file sample_tree ["results"] "run1" "Empty" = Py.Ok None.
Proof.
  split.
  - rewrite (_find_event_file_closed_form sample_tree ["results"] _ "run1" "AgentA" eq_refl).
    reflexivity.
  - rewrite (_find_event_file_closed_form sample_tree ["results"] _ "run1" "Empty" eq_refl).
    reflexivity.
Defined.

(** X4: with both parameters given and a results directory that can be
    scanned, a metrics request is answered 404 exactly when
    results_dir/run/behavior holds no entry matching the event-file
    pattern. *)
Theorem handle_metrics_404_iff (ea : option event_accumulator_module)
    (fs : node) (results_dir : Path) (query : list (string * string))
    (r b : string) (rs bs : list string) (runs : list BehaviorEventFile)
    (st : state) :
  query_values "run" query = r :: rs →
  query_values "behavior" query = b :: bs →
  discover_runs fs results_dir = Py.Ok runs →
  (∃ resp st',
     handle_metrics ea fs results_dir query st = (Py.Ok resp, st')
     ∧ status resp = 404%Z)
  ↔ Pathlib.glob fs (Pathlib.child (Pathlib.child results_dir r) b)
      "events.out.tfevents." = [].
Proof.
  intros Hrun Hbeh Hdisc.
  destruct (handle_metrics_resolved ea _ _ _ _ _ _ _ _ Hrun Hbeh Hdisc)
    as (limit & _ & _ & Heq).
  rewrite (find_first_discovered _ _ _ r b Hdisc) in Heq. fold event_prefix.
  destruct (Pathlib.glob fs _ event_prefix) as [|first others].
  - split; [done|]. intros _. do 2 eexists. by rewrite Heq.
  - split; [|done]. intros (resp & st' & Hresp & H404).
    rewrite Heq in Hresp. clear Heq.
    set (E := {| run_id := r; behavior := b;
                 event_path := Py.max_from (Pathlib.st_mtime fs) first others;
                 updated_at := Pathlib.st_mtime fs
                                 (Py.max_from (Pathlib.st_mtime fs) first others) |})
      in *.
    unfold except_RuntimeError, mbind in Hresp.
    destruct ea as [m|].
    + destruct (get_available m fs (event_path E) st) as (h & st1 & Hget).
      rewrite Hget in Hresp.
      destruct (deref h st1) as [[acc|e] st2] eqn:Hderef.
      * unfold lift in Hresp.
        destruct (collect_data acc limit _ []) as [data|e] eqn:Hdata.
        -- injection Hresp as <- _. done.
        -- apply collect_data_raises in Hdata as [key ->]. done.
      * apply deref_raises in Hderef as ->. done.
    + injection Hresp as <- _. done.
Qed.

Lemma handle_metrics_404_iff_witness :
  (∃ resp st',
     handle_metrics None sample_tree ["results"]
       [("run", "run1"); ("behavior", "Empty")] EventCache_init = (Py.Ok resp, st')
     ∧ status resp = 404%Z).
Proof.
  apply (handle_metrics_404_iff None sample_tree ["results"]
           [("run", "run1"); ("behavior", "Empty")] "run1" "Empty" [] [] _
           EventCache_init eq_refl eq_refl eq_refl).
  reflexivity.
Defined.

(** ** The answers of the metrics handler *)

(** Every way [handle_metrics] can end, with what it did to the store. *)
Lemma handle_metrics_inv (ea : option event_accumulator_module) (fs : node)
    (results_dir : Path) (query : list (string * string)) (st st' : state)
    (out : Py.result response) :
  handle_metrics ea fs results_dir query st = (out, st') →
  (out = Py.Ok (error_response BAD_REQUEST "run and behavior are required")
   ∧ st' = st)
  ∨ (∃ r b rs bs,
       query_values "run" query = r :: rs
       ∧ query_values "behavior" query = b :: bs
       ∧ ((∃ e, discover_runs fs results_dir = Py.Raise e
                ∧ out = Py.Raise e ∧ st' = st)
          ∨ ∃ runs, discover_runs fs results_dir = Py.Ok runs
              ∧ ((find_first runs r b = None
                  ∧ out = Py.Ok (error_response NOT_FOUND (not_found_message r b))
                  ∧ st' = st)
                 ∨ (∃ event_file, find_first runs r b = Some event_file
                      ∧ ((ea = None
                          ∧ out = Py.Ok (error_response INTERNAL_SERVER_ERROR
                                           tensorboard_missing)
                          ∧ st' = st)
                         ∨ (∃ m h limit, ea = Some m
                              ∧ request_limit (parse_qs query) = Py.Ok limit
                              ∧ (1 ≤ limit ≤ 2000)%Z
                              ∧ get (Some m) fs (event_path event_file) st
                                = (Py.Ok h, st')
                              ∧ ((heap st' !! h = None
                                  ∧ out = Py.Raise Py.DanglingReference)
                                 ∨ ∃ acc data,
                                     heap st' !! h = Some acc
                                     ∧ collect_data acc limit
                                         (Py.dict_keys (acc_scalars acc)) []
                                       = Py.Ok data
                                     ∧ out = Py.Ok (_write_json
                                         (JObj [("run", JStr r); ("behavior", JStr b);
                                                ("event_path",
                                                 JStr (Pathlib.str (event_path event_file)));
                                                ("updated_at",
                                                 JFloat (updated_at event_file));
                                                ("tags",
                                                 JArr (map JStr
                                                   (Py.dict_keys (acc_scalars acc))));
                                                ("data",
                                                 JObj (map (λ kv, (kv.1, JArr kv.2))
                                                         data))])
                                         OK)))))))).
Proof.
  intros Hrun.
  destruct (query_values "run" query) as [|r rs] eqn:Hr.
  { rewrite handle_metrics_missing_parameter in Hrun by (by left).
    injection Hrun as <- <-. by left. }
  destruct (query_values "behavior" query) as [|b bs] eqn:Hb.
  { rewrite handle_metrics_missing_parameter in Hrun by (by right).
    injection Hrun as <- <-. by left. }
  right. exists r, b, rs, bs. split; [done|]. split; [done|].
  destruct (discover_runs fs results_dir) as [runs|e] eqn:Hdisc.
  2:{ rewrite (handle_metrics_discovery_fails _ _ _ _ _ _ _ _ _ _ Hr Hb Hdisc) in Hrun.
      injection Hrun as <- <-. left. by exists e. }
  right. exists runs. split; [done|].
  destruct (handle_metrics_resolved ea _ _ _ _ _ _ _ _ Hr Hb Hdisc)
    as (limit & Hlimit & Hrange & Heq).
  rewrite Heq in Hrun. clear Heq.
  destruct (find_first runs r b) as [event_file|].
  2:{ injection Hrun as <- <-. by left. }
  right. exists event_file. split; [done|].
  destruct ea as [m|].
  2:{ injection Hrun as <- <-. by left. }
  right. exists m.
  unfold except_RuntimeError, mbind in Hrun.
  destruct (get_available m fs (event_path event_file) st) as (h & st1 & Hget).
  rewrite Hget in Hrun. exists h, limit.
  unfold deref in Hrun.
  destruct (heap st1 !! h) as [acc|] eqn:Hacc.
  - unfold lift in Hrun.
    destruct (collect_data_total acc limit (Py.dict_keys (acc_scalars acc)) [])
      as [data Hdata]; [done|].
    simpl in Hrun. rewrite Hdata in Hrun. simpl in Hrun.
    injection Hrun as <- <-.
    repeat (split; [done|]). right. exists acc, data. done.
  - injection Hrun as <- <-. repeat (split; [done|]). by left.
Qed.

Lemma dict_set_nodup {V} (d : Py.dict V) (k : string) (v : V) :
  NoDup (Py.dict_keys d) → NoDup (Py.dict_keys (Py.dict_set d k v)).
Proof.
  intros Hnodup. rewrite dict_keys_set.
  destruct (Py.dict_contains d k) eqn:Hc; [done|].
  apply NoDup_app. split; [done|]. split; [|apply NoDup_singleton].
  intros x Hx ->%list_elem_of_singleton.
  apply dict_contains_keys in Hx. congruence.
Qed.

Lemma collect_data_nodup (acc : EventAccumulator) (limit : Z)
    (tags : list string) (data0 data : Py.dict (list json)) :
  collect_data acc limit tags data0 = Py.Ok data →
  NoDup (Py.dict_keys data0) → NoDup (Py.dict_keys data).
Proof.
  revert data0. induction tags as [|t tags IH]; intros data0; simpl.
  - by intros [= <-].
  - destruct (Accumulator.Scalars acc t) as [series|e]; simpl; [|done].
    intros Hrest Hnodup. apply (IH _ Hrest). by apply dict_set_nodup.
Qed.

(** X5: the handler answers with one of the statuses 200, 400, 404 and
    500 and nothing else; it answers 500 only when tensorboard is missing
    and 200 only when it is there; and without tensorboard no metrics
    request, however it ends, changes the store. *)
Theorem handle_metrics_statuses (ea : option event_accumulator_module)
    (fs : node) (results_dir : Path) (query : list (string * string))
    (st st' : state) (out : Py.result response) :
  handle_metrics ea fs results_dir query st = (out, st') →
  (∀ resp, out = Py.Ok resp →
     (status resp = 200%Z ∧ is_Some ea)
     ∨ status resp = 400%Z
     ∨ status resp = 404%Z
     ∨ (status resp = 500%Z ∧ ea = None))
  ∧ (ea = None → st' = st).
Proof.
  intros Hrun. apply handle_metrics_inv in Hrun.
  destruct Hrun as [[-> ->] | (r & b & rs & bs & _ & _ & Hrest)].
  { split; [|done]. intros resp [= <-]. right. by left. }
  destruct Hrest as [(e & _ & -> & ->) | (runs & _ & Hrest)]; [done|].
  destruct Hrest as [(_ & -> & ->) | (event_file & _ & Hrest)].
  { split; [|done]. intros resp [= <-]. right. right. by left. }
  destruct Hrest as [(-> & -> & ->) | (m & h & limit & -> & _ & _ & _ & Hrest)].
  { split; [|done]. intros resp [= <-]. do 3 right. done. }
  split; [|done].
  destruct Hrest as [[_ ->] | (acc & data & _ & _ & ->)]; [done|].
  intros resp [= <-]. left. done.
Qed.

Lemma handle_metrics_statuses_witness :
  (handle_metrics None sample_tree ["results"] sample_query EventCache_init).2
  = EventCache_init.
Proof.
  destruct (handle_metrics None sample_tree ["results"] sample_query
              EventCache_init) as [out st'] eqn:Hrun.
  exact (proj2 (handle_metrics_statuses None sample_tree ["results"] sample_query
                  EventCache_init st' out Hrun) eq_refl).
Defined.

(** X6: no answer carries more samples for a tag than the limit in force,
    so never more than 2000. *)
Theorem handle_metrics_sample_bound (ea : option event_accumulator_module)
    (fs : node) (results_dir : Path) (query : list (string * string))
    (st st' : state) (resp : response) (data : Py.dict json) (tag : string)
    (samples : list json) :
  handle_metrics ea fs results_dir query st = (Py.Ok resp, st') →
  json_field (payload resp) "data" = Some (JObj data) →
  Py.dict_get data tag = Some (JArr samples) →
  ∃ limit, request_limit (parse_qs query) = Py.Ok limit
         ∧ (Z.of_nat (length samples) ≤ limit ≤ 2000)%Z.
Proof.
  intros Hrun Hdata Htag. apply handle_metrics_inv in Hrun.
  destruct Hrun as [[[= ->] _] | (r & b & rs & bs & _ & _ & Hrest)]; [done|].
  destruct Hrest as [(e & _ & ? & _) | (runs & _ & Hrest)]; [done|].
  destruct Hrest as [(_ & [= ->] & _) | (event_file & _ & Hrest)]; [done|].
  destruct Hrest as [(_ & [= ->] & _) | (m & h & limit & _ & Hlimit & Hrange & _ & Hrest)];
    [done|].
  destruct Hrest as [[_ ?] | (acc & collected_data & _ & Hcollect & [= ->])]; [done|].
  exists limit. split; [done|].
  simpl in Hdata. injection Hdata as <-.
  rewrite dict_get_fmap in Htag.
  destruct (decide (tag ∈ Py.dict_keys (acc_scalars acc))) as [Hin|Hout].
  - destruct (proj1 (collect_data_spec _ _ _ _ _ Hcollect tag) Hin)
      as (series & _ & Hget).
    rewrite Hget in Htag. simpl in Htag. injection Htag as <-.
    rewrite length_map, slice_from_tail, last_n_length by lia. lia.
  - rewrite (proj2 (collect_data_spec _ _ _ _ _ Hcollect tag) Hout) in Htag.
    done.
Qed.

Lemma handle_metrics_sample_bound_witness :
  ∃ limit,
    request_limit (parse_qs sample_query) = Py.Ok limit
    ∧ (Z.of_nat (length [JObj [("step", JInt 9); ("value", JFloat 9);
                               ("wall_time", JFloat 0)]]) ≤ limit ≤ 2000)%Z.
Proof.
  apply (handle_metrics_sample_bound (Some sample_module) sample_tree ["results"]
           sample_query EventCache_init
           (handle_metrics (Some sample_module) sample_tree ["results"]
              sample_query EventCache_init).2
           _ _ "reward" _ eq_refl eq_refl eq_refl).
Defined.

(** X7: in a 200 answer the object under [data] has an entry for exactly
    the tags listed under [tags], each key once. *)
Theorem handle_metrics_data_keys (ea : option event_accumulator_module)
    (fs : node) (results_dir : Path) (query : list (string * string))
    (st st' : state) (resp : response) :
  handle_metrics ea fs results_dir query st = (Py.Ok resp, st') →
  status resp = 200%Z →
  ∃ tags data,
    json_field (payload resp) "tags" = Some (JArr (map JStr tags))
    ∧ json_field (payload resp) "data" = Some (JObj data)
    ∧ NoDup (Py.dict_keys data)
    ∧ ∀ tag, tag ∈ Py.dict_keys data ↔ tag ∈ tags.
Proof.
  intros Hrun H200. apply handle_metrics_inv in Hrun.
  destruct Hrun as [[[= ->] _] | (r & b & rs & bs & _ & _ & Hrest)]; [done|].
  destruct Hrest as [(e & _ & ? & _) | (runs & _ & Hrest)]; [done|].
  destruct Hrest as [(_ & [= ->] & _) | (event_file & _ & Hrest)]; [done|].
  destruct Hrest as [(_ & [= ->] & _) | (m & h & limit & _ & _ & _ & _ & Hrest)];
    [done|].
  destruct Hrest as [[_ ?] | (acc & data & _ & Hcollect & [= ->])]; [done|].
  exists (Py.dict_keys (acc_scalars acc)), (map (λ kv, (kv.1, JArr kv.2)) data).
  split; [done|]. split; [done|].
  assert (Hkeys : Py.dict_keys (map (λ kv : string * list json, (kv.1, JArr kv.2)) data)
                  = Py.dict_keys data).
  { unfold Py.dict_keys. rewrite <- list_fmap_compose. done. }
  rewrite Hkeys. split.
  - apply (collect_data_nodup _ _ _ _ _ Hcollect). constructor.
  - intros tag. rewrite dict_get_keys.
    destruct (decide (tag ∈ Py.dict_keys (acc_scalars acc))) as [Hin|Hout].
    + destruct (proj1 (collect_data_spec _ _ _ _ _ Hcollect tag) Hin)
        as (series & _ & ->). split; [done | by eexists].
    + rewrite (proj2 (collect_data_spec _ _ _ _ _ Hcollect tag) Hout). simpl.
      split; [by intros [? ?] | done].
Qed.

Lemma handle_metrics_data_keys_witness :
  ∃ tags data,
    json_field
      (payload
         (_write_json
            (JObj [("run", JStr "run1"); ("behavior", JStr "AgentA");
                   ("event_path", JStr "/results/run1/AgentA/events.out.tfevents.2");
                   ("updated_at", JFloat 7); ("tags", JArr [JStr "reward"]);
                   ("data",
                    JObj [("reward",
                           JArr [JObj [("step", JInt 9); ("value", JFloat 9);
                                       ("wall_time", JFloat 0)]])])])
            OK))
      "tags" = Some (JArr (map JStr tags))
    ∧ json_field
        (payload
           (_write_json
              (JObj [("run", JStr "run1"); ("behavior", JStr "AgentA");
                     ("event_path", JStr "/results/run1/AgentA/events.out.tfevents.2");
                     ("updated_at", JFloat 7); ("tags", JArr [JStr "reward"]);
                     ("data",
                      JObj [("reward",
                             JArr [JObj [("step", JInt 9); ("value", JFloat 9);
                                         ("wall_time", JFloat 0)]])])])
              OK))
        "data" = Some (JObj data)
    ∧ NoDup (Py.dict_keys data)
    ∧ ∀ tag, tag ∈ Py.dict_keys data ↔ tag ∈ tags.
Proof.
  apply (handle_metrics_data_keys (Some sample_module) sample_tree ["results"]
           sample_query EventCache_init
           (handle_metrics (Some sample_module) sample_tree ["results"]
              sample_query EventCache_init).2
           _ eq_refl eq_refl).
Defined.

(** ** What a query contributes *)

Lemma first_value (query : list (string * string)) (key : string) :
  Py.item0 (params_get (parse_qs query) key Some [None])
  = Py.Ok (head (query_values key query)).
Proof.
  unfold params_get. rewrite parse_qs_lookup.
  by destruct (query_values key query).
Qed.

Lemma request_limit_head (query : list (string * string)) :
  request_limit (parse_qs query)
  = Py.Ok match head (query_values "limit" query) with
          | None => 200%Z
          | Some limit_raw =>
              match Py.int_of_str limit_raw with
              | Py.Ok n => clamp n 1 2000
              | Py.Raise _ => 200%Z
              end
          end.
Proof.
  rewrite request_limit_spec. by destruct (query_values "limit" query).
Qed.

(** X8: a metrics request is decided by the first non-blank value of each
    of [run], [behavior] and [limit]: parameters of other names, later
    values of a repeated parameter, blank values and the order of the fields
    make no difference to the answer or to the store. *)
Theorem handle_metrics_first_values (ea : option event_accumulator_module)
    (fs : node) (results_dir : Path) (q1 q2 : list (string * string)) :
  head (query_values "run" q1) = head (query_values "run" q2) →
  head (query_values "behavior" q1) = head (query_values "behavior" q2) →
  head (query_values "limit" q1) = head (query_values "limit" q2) →
  handle_metrics ea fs results_dir q1 = handle_metrics ea fs results_dir q2.
Proof.
  intros Hrun Hbeh Hlim. unfold handle_metrics.
  rewrite !first_value, !request_limit_head, Hrun, Hbeh, Hlim. reflexivity.
Qed.

Lemma handle_metrics_first_values_witness :
  handle_metrics (Some sample_module) sample_tree ["results"]
    [("run", ""); ("theme", "dark"); ("run", "run1"); ("limit", "2");
     ("behavior", "AgentA"); ("run", "run2"); ("limit", "9")]
  = handle_metrics (Some sample_module) sample_tree ["results"] sample_query.
Proof.
  apply handle_metrics_first_values; reflexivity.
Defined.

Lemma head_query_values_nil (key : string) (query : list (string * string)) :
  head (query_values key query) = None → query_values key query = [].
Proof. by destruct (query_values key query). Qed.

(** X9: the [limit] parameter changes nothing but the sample arrays: two
    requests for the same run and behavior leave the same store behind and
    end alike, with the same status and the same members of the answer
    apart from [data]. *)
Theorem handle_metrics_limit_only_data (ea : option event_accumulator_module)
    (fs : node) (results_dir : Path) (q1 q2 : list (string * string))
    (st : state) :
  head (query_values "run" q1) = head (query_values "run" q2) →
  head (query_values "behavior" q1) = head (query_values "behavior" q2) →
  (handle_metrics ea fs results_dir q1 st).2
  = (handle_metrics ea fs results_dir q2 st).2
  ∧ match (handle_metrics ea fs results_dir q1 st).1,
          (handle_metrics ea fs results_dir q2 st).1 with
    | Py.Ok r1, Py.Ok r2 =>
        status r1 = status r2
        ∧ ∀ k, k ≠ "data" → json_field (payload r1) k = json_field (payload r2) k
    | Py.Raise e1, Py.Raise e2 => e1 = e2
    | _, _ => False
    end.
Proof.
  intros Hrun Hbeh.
  destruct (query_values "run" q1) as [|r rs1] eqn:Hr1.
  { symmetry in Hrun. apply head_query_values_nil in Hrun.
    rewrite !handle_metrics_missing_parameter by (by left). done. }
  destruct (query_values "run" q2) as [|r2 rs2] eqn:Hr2; [done|].
  injection Hrun as <-.
  destruct (query_values "behavior" q1) as [|b bs1] eqn:Hb1.
  { symmetry in Hbeh. apply head_query_values_nil in Hbeh.
    rewrite !handle_metrics_missing_parameter by (by right). done. }
  destruct (query_values "behavior" q2) as [|b2 bs2] eqn:Hb2; [done|].
  injection Hbeh as <-.
  destruct (discover_runs fs results_dir) as [runs|e] eqn:Hdisc.
  2:{ rewrite (handle_metrics_discovery_fails _ _ _ q1 _ _ _ _ _ _ Hr1 Hb1 Hdisc).
      rewrite (handle_metrics_discovery_fails _ _ _ q2 _ _ _ _ _ _ Hr2 Hb2 Hdisc).
      done. }
  destruct (handle_metrics_resolved ea _ _ _ _ _ _ _ _ Hr1 Hb1 Hdisc)
    as (limit1 & _ & _ & ->).
  destruct (handle_metrics_resolved ea _ _ _ _ _ _ _ _ Hr2 Hb2 Hdisc)
    as (limit2 & _ & _ & ->).
  destruct (find_first runs r b) as [event_file|]; [|done].
  destruct ea as [m|]; [|done].
  unfold except_RuntimeError, mbind.
  destruct (get_available m fs (event_path event_file) st) as (h & st1 & ->).
  unfold deref. destruct (heap st1 !! h) as [acc|]; [|done].
  unfold lift.
  destruct (collect_data_total acc limit1 (Py.dict_keys (acc_scalars acc)) [])
    as [data1 Hdata1]; [done|].
  destruct (collect_data_total acc limit2 (Py.dict_keys (acc_scalars acc)) [])
    as [data2 Hdata2]; [done|].
  assert (Htags : default [] (Py.dict_get (Accumulator.Tags acc) "scalars")
                  = Py.dict_keys (acc_scalars acc)) by reflexivity.
  cbv zeta. rewrite Htags, Hdata1, Hdata2. unfold ret. cbn [fst snd].
  split; [done|]. split; [done|]. intros k Hk.
  unfold _write_json, json_field. cbn [payload Py.dict_get].
  repeat (destruct (String.eqb _ k); [done|]).
  destruct (String.eqb_spec "data" k); [congruence | done].
Qed.

Lemma handle_metrics_limit_only_data_witness :
  (handle_metrics (Some sample_module) sample_tree ["results"]
     [("run", "run1"); ("behavior", "AgentA"); ("limit", "1")] EventCache_init).2
  = (handle_metrics (Some sample_module) sample_tree ["results"]
       [("run", "run1"); ("behavior", "AgentA"); ("limit", "1500")]
       EventCache_init).2.
Proof.
  apply (handle_metrics_limit_only_data (Some sample_module) sample_tree
           ["results"]
           [("run", "run1"); ("behavior", "AgentA"); ("limit", "1")]
           [("run", "run1"); ("behavior", "AgentA"); ("limit", "1500")]
           EventCache_init eq_refl eq_refl).
Defined.

(** ** Dispatch *)

Lemma do_GET_runs (ea : option event_accumulator_module) (fs : node)
    (results_dir : Path) (query : list (string * string)) (st : state) :
  do_GET ea fs results_dir "/api/runs" query st
  = (match handle_runs fs results_dir with
     | Py.Ok r => Py.Ok (Answer r)
     | Py.Raise e => Py.Raise e
     end, st).
Proof.
  unfold do_GET, mbind, lift, ret.
  rewrite (proj2 (String.eqb_eq "/api/runs" "/api/runs") eq_refl).
  by destruct (handle_runs fs results_dir).
Qed.

Lemma do_GET_metrics (ea : option event_accumulator_module) (fs : node)
    (results_dir : Path) (query : list (string * string)) (st : state) :
  do_GET ea fs results_dir "/api/metrics" query st
  = (match (handle_metrics ea fs results_dir query st).1 with
     | Py.Ok r => Py.Ok (Answer r)
     | Py.Raise e => Py.Raise e
     end, (handle_metrics ea fs results_dir query st).2).
Proof.
  unfold do_GET, mbind, ret.
  replace (String.eqb "/api/metrics" "/api/runs") with false by reflexivity.
  rewrite (proj2 (String.eqb_eq "/api/metrics" "/api/metrics") eq_refl).
  by destruct (handle_metrics ea fs results_dir query st) as [[r|e] st'].
Qed.

Lemma do_GET_static (ea : option event_accumulator_module) (fs : node)
    (results_dir : Path) (path : string) (query : list (string * string))
    (st : state) :
  path ≠ "/api/runs" → path ≠ "/api/metrics" →
  do_GET ea fs results_dir path query st = (Py.Ok StaticFile, st).
Proof.
  intros Hruns Hmetrics. unfold do_GET.
  destruct (String.eqb_spec path "/api/runs"); [done|].
  destruct (String.eqb_spec path "/api/metrics"); [done|]. done.
Qed.

(** X10: while the results directory does not exist no request fails:
    [/api/runs] answers 200 with an empty list, and a metrics request that
    names a run and a behavior answers 404; neither touches the store. *)
Theorem do_GET_before_first_run (ea : option event_accumulator_module)
    (fs : node) (results_dir : Path) (query : list (string * string))
    (st : state) :
  Pathlib.exists_ fs results_dir = false →
  do_GET ea fs results_dir "/api/runs" query st
  = (Py.Ok (Answer {| status := 200; payload := JObj [("runs", JArr [])] |}), st)
  ∧ ∀ r b rs bs,
      query_values "run" query = r :: rs →
      query_values "behavior" query = b :: bs →
      do_GET ea fs results_dir "/api/metrics" query st
      = (Py.Ok (Answer (error_response NOT_FOUND (not_found_message r b))), st).
Proof.
  intros Habsent.
  assert (Hdisc : discover_runs fs results_dir = Py.Ok []).
  { unfold discover_runs. by rewrite Habsent. }
  split.
  - rewrite do_GET_runs. unfold handle_runs. by rewrite Hdisc.
  - intros r b rs bs Hr Hb. rewrite do_GET_metrics.
    destruct (handle_metrics_resolved ea _ _ _ _ _ _ _ _ Hr Hb Hdisc)
      as (limit & _ & _ & ->).
    done.
Qed.

Lemma do_GET_before_first_run_witness :
  do_GET None sample_tree ["elsewhere"] "/api/runs" [] EventCache_init
  = (Py.Ok (Answer {| status := 200; payload := JObj [("runs", JArr [])] |}),
     EventCache_init).
Proof.
  apply (do_GET_before_first_run None sample_tree ["elsewhere"] [] EventCache_init).
  reflexivity.
Defined.

(** X11: when the results path names a regular file, listing it fails:
    [/api/runs] and every metrics request that names a run and a behavior
    end in an uncaught NotADirectoryError, with the store untouched, while a
    metrics request lacking a parameter is still answered 400. *)
Theorem do_GET_results_dir_is_file (ea : option event_accumulator_module)
    (fs : node) (results_dir : Path) (query : list (string * string))
    (st : state) (mtime : Q) (content : list EventRecord) :
  Pathlib.resolve fs results_dir = Some (File mtime content) →
  do_GET ea fs results_dir "/api/runs" query st
  = (Py.Raise Py.NotADirectoryError, st)
  ∧ (query_values "run" query ≠ [] → query_values "behavior" query ≠ [] →
     do_GET ea fs results_dir "/api/metrics" query st
     = (Py.Raise Py.NotADirectoryError, st))
  ∧ (query_values "run" query = [] ∨ query_values "behavior" query = [] →
     do_GET ea fs results_dir "/api/metrics" query st
     = (Py.Ok (Answer (error_response BAD_REQUEST "run and behavior are required")),
        st)).
Proof.
  intros Hfile.
  assert (Hdisc : discover_runs fs results_dir = Py.Raise Py.NotADirectoryError).
  { unfold discover_runs, Pathlib.exists_, Pathlib.iterdir. by rewrite Hfile. }
  split; [|split].
  - rewrite do_GET_runs. unfold handle_runs. by rewrite Hdisc.
  - intros Hr Hb. rewrite do_GET_metrics.
    destruct (query_values "run" query) as [|r rs] eqn:Hrun; [done|].
    destruct (query_values "behavior" query) as [|b bs] eqn:Hbeh; [done|].
    by rewrite (handle_metrics_discovery_fails _ _ _ _ _ _ _ _ _ _ Hrun Hbeh Hdisc).
  - intros Hmissing. rewrite do_GET_metrics.
    by rewrite handle_metrics_missing_parameter.
Qed.

Lemma do_GET_results_dir_is_file_witness :
  do_GET None sample_tree ["results"; "run1"; "stray"] "/api/runs" []
    EventCache_init
  = (Py.Raise Py.NotADirectoryError, EventCache_init).
Proof.
  apply (do_GET_results_dir_is_file None sample_tree ["results"; "run1"; "stray"]
           [] EventCache_init 1 []).
  reflexivity.
Defined.

(** ** The store across requests *)

(** X12: a [get] for one path leaves every other cache entry bound to the
    same accumulator and that accumulator unchanged: reloading one file never
    touches what was read from another. *)
Theorem get_leaves_other_paths (m : event_accumulator_module) (fs : node)
    (p q : Path) (st st' : state) (out : Py.result nat) (h : nat) :
  cache_inv st →
  get (Some m) fs p st = (out, st') →
  q ≠ p →
  _cache st !! q = Some h →
  _cache st' !! q = Some h ∧ heap st' !! h = heap st !! h.
Proof.
  intros Hinv Hget Hne Hq.
  split; [by apply (get_keeps_entries _ _ _ _ _ _ _ _ Hget)|].
  destruct (inv_valid _ Hinv q h Hq) as (acc & Hacc & _).
  apply get_step in Hget.
  destruct (_cache st !! p) as [k|] eqn:Hp; destruct Hget as (_ & -> & _).
  - rewrite list_lookup_alter_ne; [done|].
    intros ->. by destruct Hne; apply (cache_inv_inj st q p h).
  - rewrite Hacc. by apply lookup_app_l_Some.
Qed.

Lemma get_leaves_other_paths_witness :
  let warm := (get (Some sample_module) sample_tree (event_path sample_entry)
                 EventCache_init).2 in
  let later := (get (Some sample_module) sample_tree_grown
                  ["results"; "run2"; "AgentB"; "events.out.tfevents.1"] warm).2 in
  _cache later !! event_path sample_entry = Some 0
  ∧ heap later !! 0 = heap warm !! 0.
Proof.
  intros warm later.
  apply (get_leaves_other_paths sample_module sample_tree_grown
           ["results"; "run2"; "AgentB"; "events.out.tfevents.1"]
           (event_path sample_entry) warm later
           (get (Some sample_module) sample_tree_grown
              ["results"; "run2"; "AgentB"; "events.out.tfevents.1"] warm).1 0).
  - apply (get_preserves_inv sample_module sample_tree (event_path sample_entry)
             EventCache_init warm
             (get (Some sample_module) sample_tree (event_path sample_entry)
                EventCache_init).1 cache_inv_init).
    reflexivity.
  - reflexivity.
  - discriminate.
  - reflexivity.
Defined.

(** What one request does to a well-formed store. *)
Lemma do_GET_step (ea : option event_accumulator_module) (fs : node)
    (results_dir : Path) (path : string) (query : list (string * string))
    (st st' : state) (out : Py.result served) :
  cache_inv st →
  do_GET ea fs results_dir path query st = (out, st') →
  cache_inv st'
  ∧ (st' = st
     ∨ (path = "/api/metrics" ∧ answered_200 out = true ∧ is_Some ea
        ∧ (length (heap st') ≤ S (length (heap st)))%nat
        ∧ ∀ q h, _cache st !! q = Some h → _cache st' !! q = Some h)).
Proof.
  intros Hinv Hdo.
  destruct (String.eqb_spec path "/api/runs") as [->|Hruns].
  { rewrite do_GET_runs in Hdo. injection Hdo as _ <-. split; [done | by left]. }
  destruct (String.eqb_spec path "/api/metrics") as [->|Hmetrics].
  2:{ rewrite do_GET_static in Hdo by done. injection Hdo as _ <-.
      split; [done | by left]. }
  rewrite do_GET_metrics in Hdo.
  destruct (handle_metrics ea fs results_dir query st) as [res st1] eqn:Hrun.
  simpl in Hdo. injection Hdo as <- <-.
  apply handle_metrics_inv in Hrun.
  destruct Hrun as [[-> ->] | (r & b & rs & bs & _ & _ & Hrest)];
    [split; [done | by left]|].
  destruct Hrest as [(e & _ & -> & ->) | (runs & _ & Hrest)];
    [split; [done | by left]|].
  destruct Hrest as [(_ & -> & ->) | (event_file & _ & Hrest)];
    [split; [done | by left]|].
  destruct Hrest as [(-> & -> & ->) | (m & h & limit & -> & _ & _ & Hget & Hrest)];
    [split; [done | by left]|].
  split; [by apply (get_preserves_inv _ _ _ _ _ _ Hinv Hget)|].
  right. split; [done|].
  destruct (get_result _ _ _ _ _ _ Hinv Hget) as (acc0 & _ & Hh & _).
  destruct Hrest as [[Hnone _] | (acc & data & _ & _ & ->)]; [congruence|].
  split; [done|]. split; [done|]. split.
  - apply get_step in Hget.
    destruct (_cache st !! event_path event_file);
      destruct Hget as (_ & -> & _).
    + rewrite length_alter. lia.
    + rewrite length_app. simpl. lia.
  - intros q k. by apply (get_keeps_entries _ _ _ _ _ _ _ _ Hget).
Qed.

(** X13: only a metrics request answered 200 can change the store: every
    other request, whatever its path, its query and its outcome, leaves the
    cache and the accumulators exactly as they were; and no request ever
    removes or rebinds a cache entry. *)
Theorem do_GET_store_change (ea : option event_accumulator_module) (fs : node)
    (results_dir : Path) (path : string) (query : list (string * string))
    (st st' : state) (out : Py.result served) :
  cache_inv st →
  do_GET ea fs results_dir path query st = (out, st') →
  (st' = st
   ∨ (path = "/api/metrics"
      ∧ ∃ resp, out = Py.Ok (Answer resp) ∧ status resp = 200%Z))
  ∧ ∀ q h, _cache st !! q = Some h → _cache st' !! q = Some h.
Proof.
  intros Hinv Hdo.
  destruct (do_GET_step _ _ _ _ _ _ _ _ Hinv Hdo)
    as (_ & [-> | (-> & H200 & _ & _ & Hkeep)]).
  - split; [by left | done].
  - split; [|done]. right. split; [done|].
    destruct out as [[resp|]|e]; try done.
    exists resp. split; [done|]. simpl in H200. by apply Z.eqb_eq in H200.
Qed.

Lemma do_GET_store_change_witness :
  (do_GET (Some sample_module) sample_tree ["results"] "/api/metrics"
     [("run", "run1"); ("behavior", "Nobody")] EventCache_init).2
  = EventCache_init
  ∨ ("/api/metrics" = "/api/metrics"
     ∧ ∃ resp,
         (do_GET (Some sample_module) sample_tree ["results"] "/api/metrics"
            [("run", "run1"); ("behavior", "Nobody")] EventCache_init).1
         = Py.Ok (Answer resp)
         ∧ status resp = 200%Z).
Proof.
  apply (do_GET_store_change (Some sample_module) sample_tree ["results"]
           "/api/metrics" [("run", "run1"); ("behavior", "Nobody")]
           EventCache_init _ _ cache_inv_init).
  reflexivity.
Defined.

Lemma serve_step (ea : option event_accumulator_module) (results_dir : Path)
    (requests : list request) (st st' : state) (outs : list (Py.result served)) :
  cache_inv st →
  serve ea results_dir requests st = (outs, st') →
  cache_inv st'
  ∧ length outs = length requests
  ∧ (length (heap st')
     ≤ length (heap st) + length (metrics_answered_200 requests outs))%nat
  ∧ ∀ q h, _cache st !! q = Some h → _cache st' !! q = Some h.
Proof.
  revert st outs.
  induction requests as [|[[fs path] query] requests IH]; intros st outs Hinv;
    cbn [serve].
  - intros [= <- <-]. simpl. split; [done|]. split; [done|]. split; [lia | done].
  - destruct (do_GET ea fs results_dir path query st) as [out st1] eqn:Hdo.
    destruct (serve ea results_dir requests st1) as [rest st2] eqn:Hrest.
    intros [= <- <-].
    destruct (do_GET_step _ _ _ _ _ _ _ _ Hinv Hdo) as (Hinv1 & Hstep).
    destruct (IH _ _ Hinv1 Hrest) as (Hinv2 & Hlen & Hheap & Hkeep).
    split; [done|]. split; [simpl; by rewrite Hlen|].
    unfold metrics_answered_200, request in *.
    cbn [zip zip_with]. rewrite filter_cons.
    destruct Hstep as [-> | (-> & H200 & _ & Hgrow & Hkeep1)].
    + split; [|done]. destruct (decide _); cbn [length]; lia.
    + rewrite decide_True by (cbn [fst snd]; by rewrite H200).
      cbn [length]. split; [lia|].
      intros q h Hq. by apply Hkeep, Hkeep1.
Qed.

(** X14: every store the server reaches from its empty cache is
    well-formed: each cache entry refers to an existing accumulator opened on
    that very path, and distinct paths have distinct accumulators. There are
    never more accumulators than requests for [/api/metrics] answered 200:
    neither the run listing nor a static file nor a failed metrics request
    adds one. Every request gets exactly one outcome. *)
Theorem serve_keeps_store_well_formed (ea : option event_accumulator_module)
    (results_dir : Path) (requests : list request) :
  let outs := (serve ea results_dir requests EventCache_init).1 in
  let st := (serve ea results_dir requests EventCache_init).2 in
  length outs = length requests
  ∧ (∀ p h, _cache st !! p = Some h →
       ∃ acc, heap st !! h = Some acc ∧ acc_path acc = p)
  ∧ (∀ p q h, _cache st !! p = Some h → _cache st !! q = Some h → p = q)
  ∧ size (_cache st) = length (heap st)
  ∧ (length (heap st) ≤ length (metrics_answered_200 requests outs))%nat.
Proof.
  intros outs st.
  destruct (serve ea results_dir requests EventCache_init) as [os s] eqn:Hserve.
  subst outs st. cbn [fst snd].
  destruct (serve_step _ _ _ _ _ _ cache_inv_init Hserve)
    as (Hinv & Hlen & Hheap & _).
  split; [done|]. split; [apply Hinv|]. split.
  - intros p q h. by apply cache_inv_inj.
  - split; [apply Hinv|]. simpl in Hheap. lia.
Qed.

(** ** Polling *)

Lemma alter_fixed {A} (f : A → A) (i : nat) (l : list A) (x : A) :
  l !! i = Some x → f x = x → alter f i l = l.
Proof.
  intros Hx Hf. apply list_eq. intros j.
  destruct (decide (i = j)) as [<-|Hne].
  - rewrite list_lookup_alter_eq, Hx. simpl. by rewrite Hf.
  - by rewrite list_lookup_alter_ne.
Qed.

(** A second [get] while the file is unchanged finds nothing to read. *)
Lemma get_again (m : event_accumulator_module) (fs : node) (p : Path)
    (st st1 : state) (h : nat) :
  cache_inv st →
  get (Some m) fs p st = (Py.Ok h, st1) →
  get (Some m) fs p st1 = (Py.Ok h, st1).
Proof.
  intros Hinv Hget.
  destruct (get_result _ _ _ _ _ _ Hinv Hget) as (acc0 & Hpath & Hh & Hp & _).
  unfold get. rewrite Hp. f_equal.
  rewrite (alter_fixed _ _ _ _ Hh).
  - by destruct st1.
  - apply Reload_unchanged. rewrite Reload_path, Hpath, <- Hpath.
    apply Reload_consumes.
Qed.

(** X15: polling is idempotent while nothing changes on disk: a metrics
    request repeated against the same file system is answered exactly as the
    first time, and the second request leaves the store as the first one left
    it, without constructing another accumulator. *)
Theorem handle_metrics_repeat (ea : option event_accumulator_module)
    (fs : node) (results_dir : Path) (query : list (string * string))
    (st st1 : state) (resp : response) :
  cache_inv st →
  handle_metrics ea fs results_dir query st = (Py.Ok resp, st1) →
  handle_metrics ea fs results_dir query st1 = (Py.Ok resp, st1).
Proof.
  intros Hinv Hrun. pose proof Hrun as Hcases. apply handle_metrics_inv in Hcases.
  destruct Hcases as [[_ ->] | (r & b & rs & bs & Hr & Hb & Hrest)]; [done|].
  destruct Hrest as [(e & _ & ? & _) | (runs & Hdisc & Hrest)]; [done|].
  destruct Hrest as [(_ & _ & ->) | (event_file & Hfind & Hrest)]; [done|].
  destruct Hrest as [(_ & _ & ->) | (m & h & limit & -> & Hlimit & _ & Hget & Hrest)];
    [done|].
  destruct Hrest as [[_ ?] | (acc & data & Hacc & Hdata & [= ->])]; [done|].
  destruct (handle_metrics_resolved (Some m) _ _ _ _ _ _ _ _ Hr Hb Hdisc)
    as (limit' & Hlimit' & _ & ->).
  rewrite Hlimit in Hlimit'. injection Hlimit' as <-.
  rewrite Hfind. unfold except_RuntimeError, mbind.
  rewrite (get_again _ _ _ _ _ _ Hinv Hget).
  unfold deref. rewrite Hacc. unfold lift.
  assert (Htags : default [] (Py.dict_get (Accumulator.Tags acc) "scalars")
                  = Py.dict_keys (acc_scalars acc)) by reflexivity.
  cbv zeta. rewrite Htags, Hdata. reflexivity.
Qed.

Lemma handle_metrics_repeat_witness :
  let warm := (handle_metrics (Some sample_module) sample_tree ["results"]
                 sample_query EventCache_init).2 in
  (handle_metrics (Some sample_module) sample_tree ["results"] sample_query warm).2
  = warm.
Proof.
  intros warm.
  destruct (handle_metrics (Some sample_module) sample_tree ["results"]
              sample_query EventCache_init) as [[resp|e] st1] eqn:Hrun.
  - subst warm. cbn [snd].
    by rewrite (handle_metrics_repeat (Some sample_module) sample_tree
                  ["results"] sample_query EventCache_init st1 resp
                  cache_inv_init Hrun).
  - vm_compute in Hrun. discriminate.
Defined.

(** ** The first request for a file *)

Lemma add_records_keys (records : list EventRecord) (tag : string) :
  tag ∈ Py.dict_keys (fold_left Accumulator.add_record records [])
  ↔ series_of tag records ≠ [].
Proof.
  rewrite dict_get_keys, add_records_get. unfold series_of. simpl.
  destruct (map event_of (filter (λ r, rec_tag r = tag) records)); simpl.
  - split; [by intros [? ?] | done].
  - split; [done | by eexists].
Qed.

(** X16: a metrics request for a file the cache does not hold yet returns
    the file's content: for every tag the last min(limit, n) of the n samples
    the event file holds under that tag, in file order, and no entry for a tag
    the file does not mention. *)
Theorem handle_metrics_cold (m : event_accumulator_module) (fs : node)
    (results_dir : Path) (query : list (string * string)) (st st' : state)
    (resp : response) :
  handle_metrics (Some m) fs results_dir query st = (Py.Ok resp, st') →
  status resp = 200%Z →
  ∃ event_file limit data,
    json_field (payload resp) "event_path"
    = Some (JStr (Pathlib.str (event_path event_file)))
    ∧ request_limit (parse_qs query) = Py.Ok limit
    ∧ json_field (payload resp) "data" = Some (JObj data)
    ∧ (_cache st !! event_path event_file = None →
       ∀ tag,
         Py.dict_get data tag
         = match series_of tag (Pathlib.read_records fs (event_path event_file)) with
           | [] => None
           | series =>
               Some (JArr (map sample_json
                       (last_n (Nat.min (Z.to_nat limit) (length series)) series)))
           end).
Proof.
  intros Hrun H200. apply handle_metrics_inv in Hrun.
  destruct Hrun as [[[= ->] _] | (r & b & rs & bs & _ & _ & Hrest)]; [done|].
  destruct Hrest as [(e & _ & ? & _) | (runs & _ & Hrest)]; [done|].
  destruct Hrest as [(_ & [= ->] & _) | (event_file & _ & Hrest)]; [done|].
  destruct Hrest as [(? & _) | (m' & h & limit & [= <-] & Hlimit & Hrange & Hget & Hrest)];
    [done|].
  destruct Hrest as [[_ ?] | (acc & data & Hacc & Hdata & [= ->])]; [done|].
  exists event_file, limit, (map (λ kv, (kv.1, JArr kv.2)) data).
  split; [done|]. split; [done|]. split; [done|].
  intros Hcold tag. apply get_step in Hget. rewrite Hcold in Hget.
  destruct Hget as ([= ->] & Hheap & _).
  rewrite Hheap, lookup_app_r, Nat.sub_diag in Hacc by lia.
  injection Hacc as <-.
  rewrite dict_get_fmap.
  set (records := Pathlib.read_records fs (event_path event_file)) in *.
  assert (Hscalars : ∀ guidance,
            acc_scalars
              (Accumulator.Reload fs
                 (Accumulator.new (event_path event_file) guidance))
            = fold_left Accumulator.add_record records []).
  { intros guidance. unfold Accumulator.Reload, Accumulator.new.
    cbn [acc_offset acc_path acc_scalars]. by rewrite drop_0. }
  rewrite Hscalars in Hdata.
  destruct (collect_data_spec _ _ _ _ _ Hdata tag) as [Hin Hout].
  destruct (series_of tag records) as [|ev series] eqn:Hseries.
  - rewrite Hout; [done|]. rewrite add_records_keys, Hseries. by intros [].
  - destruct Hin as (series' & Hs & ->).
    { rewrite add_records_keys, Hseries. done. }
    unfold Accumulator.Scalars in Hs. rewrite Hscalars, add_records_get in Hs.
    fold (series_of tag records) in Hs. rewrite Hseries in Hs.
    simpl in Hs. injection Hs as <-.
    simpl. by rewrite slice_from_tail by lia.
Qed.

Lemma handle_metrics_cold_witness :
  ∃ event_file limit data,
    json_field
      (payload (_write_json
         (JObj [("run", JStr "run1"); ("behavior", JStr "AgentA");
                ("event_path", JStr "/results/run1/AgentA/events.out.tfevents.2");
                ("updated_at", JFloat 7); ("tags", JArr [JStr "reward"]);
                ("data",
                 JObj [("reward",
                        JArr [JObj [("step", JInt 9); ("value", JFloat 9);
                                    ("wall_time", JFloat 0)]])])])
         OK))
      "event_path" = Some (JStr (Pathlib.str (event_path event_file)))
    ∧ request_limit (parse_qs sample_query) = Py.Ok limit
    ∧ json_field
        (payload (_write_json
           (JObj [("run", JStr "run1"); ("behavior", JStr "AgentA");
                  ("event_path", JStr "/results/run1/AgentA/events.out.tfevents.2");
                  ("updated_at", JFloat 7); ("tags", JArr [JStr "reward"]);
                  ("data",
                   JObj [("reward",
                          JArr [JObj [("step", JInt 9); ("value", JFloat 9);
                                      ("wall_time", JFloat 0)]])])])
           OK))
        "data" = Some (JObj data)
    ∧ (_cache EventCache_init !! event_path event_file = None →
       ∀ tag,
         Py.dict_get data tag
         = match series_of tag
                   (Pathlib.read_records sample_tree (event_path event_file)) with
           | [] => None
           | series =>
               Some (JArr (map sample_json
                       (last_n (Nat.min (Z.to_nat limit) (length series)) series)))
           end).
Proof.
  apply (handle_metrics_cold sample_module sample_tree ["results"] sample_query
           EventCache_init
           (handle_metrics (Some sample_module) sample_tree ["results"]
              sample_query EventCache_init).2
           _ eq_refl eq_refl).
Defined.

(** ** The runs listing: nothing lost, order of ties *)

Lemma bind_concat {A B} (f : A → list B) (l : list A) :
  l ≫= f = concat (map f l).
Proof. induction l as [|x l IH]; [done|]. rewrite bind_cons. simpl. by rewrite IH. Qed.

Lemma bind_ext_elem {A B} (f g : A → list B) (l : list A) :
  (∀ x, x ∈ l → f x = g x) → l ≫= f = l ≫= g.
Proof.
  induction l as [|x l IH]; intros Hfg; [done|].
  rewrite !bind_cons, (Hfg x) by apply list_elem_of_here.
  f_equal. apply IH. intros y Hy. by apply Hfg, list_elem_of_further.
Qed.

(** Splitting a list by a key that ranges over distinct names loses
    nothing. *)
Lemma members_partition (ks : list string) (l : list BehaviorEventFile) :
  NoDup ks →
  (∀ r, r ∈ l → run_id r ∈ ks) →
  ks ≫= (λ k, members k l) ≡ₚ l.
Proof.
  revert l. induction ks as [|k ks IH]; intros l Hnodup Hcover.
  - destruct l as [|r l]; [done|].
    by destruct (not_elem_of_nil _ (Hcover r (list_elem_of_here _ _))).
  - apply NoDup_cons in Hnodup as [Hk Hnodup]. rewrite bind_cons.
    etrans; [|apply (filter_app_complement (λ r, run_id r = k) l)].
    apply Permutation_app; [done|].
    etrans; [|apply (IH (filter (λ r, ¬ run_id r = k) l) Hnodup)].
    + apply reflexive_eq, bind_ext_elem. intros k' Hk'.
      unfold members. rewrite list_filter_filter_l; [done|].
      intros r Hr1 Hr2. destruct Hk. by rewrite <- Hr2, Hr1.
    + intros r [Hne Hr]%list_elem_of_filter.
      destruct (proj1 (elem_of_cons _ _ _) (Hcover r Hr)); done.
Qed.

Lemma grouped_behaviors (runs : list BehaviorEventFile) :
  Py.dict_values (Py.for_ runs group_run []) ≫= rs_behaviors
  = Py.dict_keys (Py.for_ runs group_run [])
      ≫= (λ k, map summary_of (members k runs)).
Proof.
  destruct (grouping_loop runs) as [Hnodup _ Hgroups].
  assert (Hbeh : ∀ k g, (k, g) ∈ Py.for_ runs group_run [] →
                   rs_behaviors g = map summary_of (members k runs)).
  { intros k g Hin.
    by destruct (Hgroups k g (dict_in_get _ _ _ Hnodup Hin)) as (_ & ? & _). }
  clear Hnodup Hgroups. unfold Py.dict_values, Py.dict_keys.
  induction (Py.for_ runs group_run []) as [|[k g] d IH]; [done|].
  cbn [map]. rewrite !bind_cons. cbn [fst snd]. f_equal.
  - apply Hbeh, list_elem_of_here.
  - apply IH. intros k' g' Hin. by apply Hbeh, list_elem_of_further.
Qed.

Lemma bind_fmap_members (ks : list string) (runs : list BehaviorEventFile) :
  ks ≫= (λ k, map summary_of (members k runs))
  = map summary_of (ks ≫= (λ k, members k runs)).
Proof.
  induction ks as [|k ks IH]; [done|].
  rewrite !bind_cons, map_app. by rewrite IH.
Qed.

(** X17: the runs listing loses and invents nothing: the behaviors of all
    summaries together are, up to order, exactly the discovered entries, each
    once, with its name, path and modification time. *)
Theorem runs_listing_complete (runs : list BehaviorEventFile) :
  concat (map rs_behaviors (runs_listing runs))
  ≡ₚ map (λ r, {| bs_name := behavior r;
                  bs_event_path := Pathlib.str (event_path r);
                  bs_updated_at := updated_at r |}) runs.
Proof.
  rewrite <- bind_concat, listing_perm, grouped_behaviors, bind_fmap_members.
  fold summary_of. apply fmap_Permutation.
  destruct (grouping_loop runs) as [Hnodup Hkeys _].
  apply members_partition; [done|].
  intros r Hr. apply Hkeys. apply list_elem_of_fmap. by exists r.
Qed.

Section lexicographic.
Context {A : Type} (key : A → Q) (R2 : A → A → Prop).

Let lex (x y : A) : Prop :=
  (key x < key y)%Q ∨ ((key x == key y)%Q ∧ R2 x y).

Lemma insert_lex (x : A) (acc : list A) :
  StronglySorted lex acc →
  Forall (λ y, R2 y x) acc →
  StronglySorted lex (Py.insert (λ a b, Py.flt (key a) (key b)) x acc).
Proof.
  induction 1 as [|y acc Hsorted IH Hall]; intros Hbefore; simpl.
  - repeat constructor.
  - apply Forall_cons in Hbefore as [Hyx Hbefore].
    destruct (Py.flt (key x) (key y)) eqn:Hxy.
    + apply flt_lt in Hxy. constructor; [by constructor|].
      constructor; [by left|].
      eapply Forall_impl; [exact Hall|]. intros z [Hlt | [Heq _]]; left.
      * by eapply Qlt_trans.
      * by rewrite <- Heq.
    + apply flt_false in Hxy. constructor; [by apply IH|].
      rewrite insert_perm. constructor; [|done].
      destruct (Qlt_le_dec (key y) (key x)) as [Hlt|Hle]; [by left|].
      right. split; [by apply Qle_antisym | done].
Qed.

Lemma sorted_fold_lex (l acc : list A) :
  StronglySorted R2 l →
  StronglySorted lex acc →
  (∀ a x, a ∈ acc → x ∈ l → R2 a x) →
  StronglySorted lex
    (fold_left (λ acc x, Py.insert (λ a b, Py.flt (key a) (key b)) x acc) l acc).
Proof.
  revert acc. induction l as [|x l IH]; intros acc Hl Hacc Hcross; simpl; [done|].
  apply StronglySorted_inv in Hl as [Hl Hx]. apply IH; [done | |].
  - apply insert_lex; [done|]. apply Forall_forall. intros a Ha.
    apply Hcross; [done | apply list_elem_of_here].
  - intros a z Ha Hz. rewrite insert_perm in Ha.
    apply elem_of_cons in Ha as [-> | Ha].
    + rewrite Forall_forall in Hx. by apply Hx.
    + apply Hcross; [done | by apply list_elem_of_further].
Qed.

(** A stable sort of a list that is already in the order [R2] yields the
    order by key, and by [R2] among equal keys. *)
Lemma sorted_lex (l : list A) :
  StronglySorted R2 l →
  StronglySorted lex (Py.sorted (λ a b, Py.flt (key a) (key b)) l).
Proof.
  intros Hl. apply sorted_fold_lex; [done | constructor |].
  by intros a x ?%not_elem_of_nil.
Qed.
End lexicographic.

Lemma StronglySorted_map {A B} (R : B → B → Prop) (f : A → B) (l : list A) :
  StronglySorted R (map f l) ↔ StronglySorted (λ a b, R (f a) (f b)) l.
Proof.
  induction l as [|x l IH]; simpl.
  - split; constructor.
  - split; intros [Hs Hall]%StronglySorted_inv; constructor;
      try (by apply IH).
    + rewrite Forall_forall in Hall. apply Forall_forall. intros y Hy.
      apply Hall. apply list_elem_of_fmap. by exists y.
    + apply Forall_forall. intros y [z [-> Hz]]%list_elem_of_fmap.
      rewrite Forall_forall in Hall. by apply Hall.
Qed.

Lemma grouped_keys_sorted (runs : list BehaviorEventFile) :
  StronglySorted name_le (map run_id runs) →
  StronglySorted name_le (Py.dict_keys (Py.for_ runs group_run [])).
Proof.
  induction runs as [|r l IH] using rev_ind; intros Hsorted.
  - constructor.
  - rewrite map_app in Hsorted. rewrite for_app. simpl.
    rewrite group_run_keys.
    pose proof (IH (StronglySorted_app_1_l _ _ _ Hsorted)) as Hkeys.
    destruct (Py.dict_contains _ (run_id r)); [done|].
    apply StronglySorted_app_2; [|done | repeat constructor].
    intros k k' Hk ->%list_elem_of_singleton.
    apply (StronglySorted_app_1_elem_of _ _ _ _ _ Hsorted);
      [|apply list_elem_of_here].
    by apply (grouping_keys _ _ (grouping_loop l)).
Qed.

Lemma discover_runs_sorted (fs : node) (results_dir : Path)
    (runs : list BehaviorEventFile) :
  discover_runs fs results_dir = Py.Ok runs →
  StronglySorted name_le (map run_id runs).
Proof.
  intros Hdisc. apply (proj2 (StronglySorted_map name_le run_id _)).
  destruct (Pathlib.is_dir fs results_dir) eqn:Hdir.
  - rewrite discover_runs_unfold in Hdisc by done. injection Hdisc as <-.
    apply (sorted_bind name_le run_id); [apply ltb_irrefl | |].
    + intros n e He. by destruct (entries_of_run_key _ _ _ _ He).
    + apply sorted_names_sorted.
  - destruct runs as [|e runs]; [constructor|].
    by destruct (discover_runs_elem _ _ _ e Hdisc (list_elem_of_here _ _))
      as (Hdir' & _); congruence.
Qed.

(** X18: the order of the runs listing is fully determined: ascending
    by latest_update, and among runs with the same latest_update ascending by
    run name. *)
Theorem runs_listing_order (fs : node) (results_dir : Path)
    (runs : list BehaviorEventFile) :
  discover_runs fs results_dir = Py.Ok runs →
  StronglySorted
    (λ x y, (rs_latest_update x < rs_latest_update y)%Q
            ∨ ((rs_latest_update x == rs_latest_update y)%Q
               ∧ name_le (rs_id x) (rs_id y)))
    (runs_listing runs).
Proof.
  intros Hdisc. unfold runs_listing.
  apply (sorted_lex rs_latest_update (λ x y, name_le (rs_id x) (rs_id y))).
  apply (proj1 (StronglySorted_map name_le rs_id _)). rewrite grouped_ids.
  apply grouped_keys_sorted. by apply (discover_runs_sorted fs results_dir).
Qed.

Lemma runs_listing_order_witness :
  StronglySorted
    (λ x y, (rs_latest_update x < rs_latest_update y)%Q
            ∨ ((rs_latest_update x == rs_latest_update y)%Q
               ∧ name_le (rs_id x) (rs_id y)))
    (runs_listing
       [sample_entry;
        {| run_id := "run2"; behavior := "AgentB";
           event_path := ["results"; "run2"; "AgentB"; "events.out.tfevents.1"];
           updated_at := 5 |}]).
Proof.
  apply (runs_listing_order sample_tree ["results"]). reflexivity.
Defined.

(** ** The two endpoints agree *)

Lemma find_first_self (fs : node) (results_dir : Path)
    (runs : list BehaviorEventFile) (e : BehaviorEventFile) :
  discover_runs fs results_dir = Py.Ok runs →
  e ∈ runs →
  find_first runs (run_id e) (behavior e) = Some e.
Proof.
  intros Hdisc He.
  destruct (find_first_is_Some runs _ _ e He eq_refl eq_refl) as [e' He'].
  rewrite He'. f_equal.
  apply find_first_Some in He' as (Hin & Hr & Hb).
  destruct (discover_runs_elem _ _ _ _ Hdisc He) as (_ & _ & _ & _ & Hentry).
  destruct (discover_runs_elem _ _ _ _ Hdisc Hin) as (_ & _ & _ & _ & Hentry').
  rewrite Hr, Hb in Hentry'.
  pose proof (entries_of_behavior_spec fs
                (Pathlib.child results_dir (run_id e)) (behavior e)) as Hspec.
  destruct (Pathlib.glob fs _ event_prefix); rewrite Hspec in Hentry, Hentry'.
  - by apply not_elem_of_nil in Hentry.
  - apply list_elem_of_singleton in Hentry, Hentry'. congruence.
Qed.

(** X19: every pair that discovery reports, and so every behavior the
    runs listing shows, can be queried: the lookup of the metrics handler
    finds that very entry, so the answer is never 404; and where the entry's
    event path names a file, with tensorboard present a metrics request for
    that run and behavior is answered 200 and names the same event file and
    modification time as the listing. *)
Theorem listed_pair_resolves (m : event_accumulator_module) (fs : node)
    (results_dir : Path) (runs : list BehaviorEventFile)
    (e : BehaviorEventFile) (st : state) :
  cache_inv st →
  discover_runs fs results_dir = Py.Ok runs →
  e ∈ runs →
  run_id e ≠ "" → behavior e ≠ "" →
  _find_event_file fs results_dir (run_id e) (behavior e) = Py.Ok (Some e)
  ∧ (Pathlib.is_file fs (event_path e) = true →
     ∃ resp st',
       handle_metrics (Some m) fs results_dir
         [("run", run_id e); ("behavior", behavior e)] st = (Py.Ok resp, st')
       ∧ status resp = 200%Z
       ∧ json_field (payload resp) "event_path"
         = Some (JStr (Pathlib.str (event_path e)))
       ∧ json_field (payload resp) "updated_at" = Some (JFloat (updated_at e))).
Proof.
  intros Hinv Hdisc He Hrun Hbeh.
  split.
  { unfold _find_event_file. rewrite Hdisc. simpl.
    by rewrite (find_first_self _ _ _ _ Hdisc He). }
  intros _.
  set (query := [("run", run_id e); ("behavior", behavior e)]).
  assert (Hr : query_values "run" query = [run_id e]).
  { unfold query. rewrite query_values_cons_eq, decide_False by done.
    by rewrite query_values_cons_ne by done. }
  assert (Hb : query_values "behavior" query = [behavior e]).
  { unfold query. rewrite query_values_cons_ne by done.
    by rewrite query_values_cons_eq, decide_False by done. }
  destruct (handle_metrics_resolved (Some m) _ _ _ _ _ _ _ _ Hr Hb Hdisc)
    as (limit & _ & _ & ->).
  rewrite (find_first_self _ _ _ _ Hdisc He).
  unfold except_RuntimeError, mbind.
  destruct (get_available m fs (event_path e) st) as (h & st1 & Hget).
  rewrite Hget.
  destruct (get_result _ _ _ _ _ _ Hinv Hget) as (acc0 & _ & Hh & _).
  unfold deref. rewrite Hh. unfold lift.
  assert (Htags : default []
                    (Py.dict_get (Accumulator.Tags (Accumulator.Reload fs acc0))
                       "scalars")
                  = Py.dict_keys (acc_scalars (Accumulator.Reload fs acc0)))
    by reflexivity.
  destruct (collect_data_total (Accumulator.Reload fs acc0) limit
              (Py.dict_keys (acc_scalars (Accumulator.Reload fs acc0))) [])
    as [data Hdata]; [done|].
  cbv zeta. rewrite Htags, Hdata. unfold ret.
  eexists _, _. split; [reflexivity|]. done.
Qed.

Lemma listed_pair_resolves_witness :
  _find_event_file sample_tree ["results"] "run1" "AgentA"
  = Py.Ok (Some sample_entry)
  ∧ ∃ resp st',
      handle_metrics (Some sample_module) sample_tree ["results"]
        [("run", "run1"); ("behavior", "AgentA")] EventCache_init
      = (Py.Ok resp, st')
      ∧ status resp = 200%Z
      ∧ json_field (payload resp) "event_path"
        = Some (JStr "/results/run1/AgentA/events.out.tfevents.2")
      ∧ json_field (payload resp) "updated_at" = Some (JFloat 7).
Proof.
  destruct (listed_pair_resolves sample_module sample_tree ["results"] _
              sample_entry EventCache_init cache_inv_init eq_refl
              (list_elem_of_here _ _)) as [Hfind Hanswer]; [discriminate..|].
  split; [exact Hfind | apply Hanswer; reflexivity].
Defined.
